(** * Realtek RTD2142 MST hub: register-level flash update core

    A shallow embedding of [plugins/realtek-mst/fu-realtek-mst-device.c]
    (the register-I/O variant of the plugin) and the properties of its
    flash interface, update sequencer and lifecycle hooks.

    The C code talks to the chip through an I2C bus file descriptor and
    to the daemon through [FuDevice] calls.  Here every function is a
    computation in a small monad that threads the bus and the device
    object, returns the C result ([TRUE], [FALSE] with or without a
    [GError]) and records, in order, every call that leaves the plugin. *)

From Stdlib Require Import ZArith List String Bool Lia Arith.
From Stdlib Require Import DecimalString.
Import ListNotations.

Local Open Scope string_scope.
Local Open Scope list_scope.
Local Open Scope Z_scope.

(** ** Machine integers *)

(** Conversion to [guint8] and [guint32]: the value is truncated. *)
Definition guint8 (x : Z) : Z := Z.land x 0xFF.
Definition guint32 (x : Z) : Z := x mod 2 ^ 32.

(** ** Register map and flash geometry (the [#define]s of the source) *)

Definition REG_CMD_ATTR : Z := 0x60.
Definition CMD_ERASE_BUSY : Z := 0x01.
Definition REG_ERASE_OPCODE : Z := 0x61.
Definition CMD_OPCODE_ERASE_SECTOR : Z := 0x20.
Definition CMD_OPCODE_ERASE_BLOCK : Z := 0xD8.
Definition REG_CMD_ADDR_HI : Z := 0x64.
Definition REG_CMD_ADDR_MID : Z := 0x65.
Definition REG_CMD_ADDR_LO : Z := 0x66.
Definition REG_READ_OPCODE : Z := 0x6A.
Definition CMD_OPCODE_READ : Z := 0x03.
Definition REG_WRITE_OPCODE : Z := 0x6D.
Definition CMD_OPCODE_WRITE : Z := 0x02.
Definition REG_MCU_MODE : Z := 0x6F.
Definition MCU_MODE_ISP : Z := Z.shiftl 1 7.
Definition MCU_MODE_WRITE_BUSY : Z := Z.shiftl 1 5.
Definition MCU_MODE_WRITE_BUF : Z := Z.shiftl 1 4.
Definition REG_WRITE_FIFO : Z := 0x70.
Definition REG_WRITE_LEN : Z := 0x71.
Definition REG_INDIRECT_LO : Z := 0xF4.
Definition REG_INDIRECT_HI : Z := 0xF5.
Definition REG_GPIO88_CONFIG : Z := 0x104F.
Definition REG_GPIO88_VALUE : Z := 0xFE3F.

(** [enum dual_bank_mode] and [enum flash_bank]: C enums are integers and
    the code assigns them straight from response bytes. *)
Definition DUAL_BANK_USER_ONLY : Z := 0.
Definition DUAL_BANK_DIFF : Z := 1.
Definition DUAL_BANK_COPY : Z := 2.
Definition DUAL_BANK_USER_ONLY_FLAG : Z := 3.
Definition DUAL_BANK_MAX_VALUE : Z := 3.

Definition FLASH_BANK_BOOT : Z := 0.
Definition FLASH_BANK_USER1 : Z := 1.
Definition FLASH_BANK_USER2 : Z := 2.
Definition FLASH_BANK_MAX_VALUE : Z := 2.
Definition FLASH_BANK_INVALID : Z := 255.

Definition FLASH_SIZE : Z := 0x100000.
Definition FLASH_USER1_ADDR : Z := 0x10000.
Definition FLASH_FLAG1_ADDR : Z := 0xfe304.
Definition FLASH_USER2_ADDR : Z := 0x80000.
Definition FLASH_FLAG2_ADDR : Z := 0xff304.
Definition FLASH_USER_SIZE : Z := 0x70000.

Definition SECTOR_SIZE : Z := 4096.
Definition BLOCK_SIZE : Z := 65536.

Definition G_TIME_SPAN_MILLISECOND : Z := 1000.
Definition G_TIME_SPAN_SECOND : Z := 1000000.

(** ** What the plugin sees of the outside world *)

Record timespec := { tv_sec : Z; tv_nsec : Z }.

Inductive FwupdStatus :=
| FWUPD_STATUS_IDLE
| FWUPD_STATUS_DEVICE_RESTART
| FWUPD_STATUS_DEVICE_ERASE
| FWUPD_STATUS_DEVICE_WRITE
| FWUPD_STATUS_DEVICE_VERIFY
| FWUPD_STATUS_DEVICE_READ.

Inductive FwupdDeviceFlag :=
| FWUPD_DEVICE_FLAG_INTERNAL
| FWUPD_DEVICE_FLAG_UPDATABLE
| FWUPD_DEVICE_FLAG_IS_BOOTLOADER
| FWUPD_DEVICE_FLAG_NEEDS_SHUTDOWN
| FWUPD_DEVICE_FLAG_DUAL_IMAGE
| FWUPD_DEVICE_FLAG_CAN_VERIFY_IMAGE.

Definition flag_eqb (a b : FwupdDeviceFlag) : bool :=
  match a, b with
  | FWUPD_DEVICE_FLAG_INTERNAL, FWUPD_DEVICE_FLAG_INTERNAL
  | FWUPD_DEVICE_FLAG_UPDATABLE, FWUPD_DEVICE_FLAG_UPDATABLE
  | FWUPD_DEVICE_FLAG_IS_BOOTLOADER, FWUPD_DEVICE_FLAG_IS_BOOTLOADER
  | FWUPD_DEVICE_FLAG_NEEDS_SHUTDOWN, FWUPD_DEVICE_FLAG_NEEDS_SHUTDOWN
  | FWUPD_DEVICE_FLAG_DUAL_IMAGE, FWUPD_DEVICE_FLAG_DUAL_IMAGE
  | FWUPD_DEVICE_FLAG_CAN_VERIFY_IMAGE, FWUPD_DEVICE_FLAG_CAN_VERIFY_IMAGE => true
  | _, _ => false
  end.

Inductive GErrorCode :=
| FWUPD_ERROR_INTERNAL
| FWUPD_ERROR_WRITE
| FWUPD_ERROR_NOT_SUPPORTED
| FWUPD_ERROR_NEEDS_USER_ACTION
| G_IO_ERROR_TIMED_OUT
| G_IO_ERROR_FAILED.

(** A [GError]: its code, and its message kept as the printf format with
    the arguments it was given. *)
Record GError := {
  err_code : GErrorCode;
  err_format : string;
  err_args : list Z
}.

(** Every call that leaves the plugin, in program order. *)
Inductive event :=
| EvPwrite (data : list Z) (ok : bool)
| EvPread (count : Z) (answer : option (list Z))
| EvClock (now : timespec)
| EvUsleep (microseconds : Z)
| EvDebug (format : string) (args : list Z)
| EvStatus (status : FwupdStatus)
| EvProgress (done total : Z).

(** The I2C bus behind the file descriptor, together with the clock: an
    interface, so that the properties hold for every chip behaviour. *)
Class Backend (D : Type) := {
  bus_pwrite : list Z -> D -> bool * D;
  bus_pread : Z -> D -> option (list Z) * D;
  bus_usleep : Z -> D -> D;
  bus_clock : D -> timespec
}.

(** The plugin instance: the bus, the fields of [FuDevice] the plugin
    touches, and [self->active_bank]. *)
Record World (D : Type) := {
  bus : D;
  flags : list FwupdDeviceFlag;
  version : option string;
  active_bank : Z
}.
Arguments bus {D} _.
Arguments flags {D} _.
Arguments version {D} _.
Arguments active_bank {D} _.

(** ** The monad *)

(** What a C function of the plugin hands back: success with a value,
    [FALSE]/[NULL] with the [GError] it set ([None] when
    [g_return_val_if_fail] bailed out without setting one), or no return
    at all within the iteration budget given to a polling loop. *)
Inductive outcome (A : Type) :=
| Ok (a : A)
| Fail (e : option GError)
| Diverge.
Arguments Ok {A} a.
Arguments Fail {A} e.
Arguments Diverge {A}.

Record Run (D A : Type) := {
  result : outcome A;
  final : World D;
  emitted : list event
}.
Arguments result {D A} _.
Arguments final {D A} _.
Arguments emitted {D A} _.

Definition M (D A : Type) : Type := World D -> Run D A.

Definition ret {D A} (a : A) : M D A :=
  fun w => {| result := Ok a; final := w; emitted := [] |}.

Definition bind {D A B} (m : M D A) (f : A -> M D B) : M D B :=
  fun w =>
    let r := m w in
    match result r with
    | Ok a =>
        let r' := f a (final r) in
        {| result := result r'; final := final r';
           emitted := emitted r ++ emitted r' |}
    | Fail e => {| result := Fail e; final := final r; emitted := emitted r |}
    | Diverge => {| result := Diverge; final := final r; emitted := emitted r |}
    end.

Definition fail {D A} (e : option GError) : M D A :=
  fun w => {| result := Fail e; final := w; emitted := [] |}.

Definition diverge {D A} : M D A :=
  fun w => {| result := Diverge; final := w; emitted := [] |}.

Definition emit {D} (e : event) : M D unit :=
  fun w => {| result := Ok tt; final := w; emitted := [e] |}.

(** A call made with [error == NULL] whose [gboolean] is dropped. *)
Definition ignore_result {D A} (m : M D A) : M D unit :=
  fun w =>
    let r := m w in
    match result r with
    | Diverge => {| result := Diverge; final := final r; emitted := emitted r |}
    | _ => {| result := Ok tt; final := final r; emitted := emitted r |}
    end.

Declare Scope fu_scope.
Delimit Scope fu_scope with fu.
Notation "x <- m ;; k" := (bind m (fun x => k))
  (at level 61, m at next level, right associativity) : fu_scope.
Notation "m ;; k" := (bind m (fun _ => k))
  (at level 61, right associativity) : fu_scope.
Local Open Scope fu_scope.

Definition g_set_error {D A} (code : GErrorCode) (format : string)
    (args : list Z) : M D A :=
  fail (Some {| err_code := code; err_format := format; err_args := args |}).

(** [g_return_val_if_fail (cond, FALSE)] *)
Definition g_return_val_if_fail {D} (cond : bool) : M D unit :=
  if cond then ret tt else fail None.

(** [g_prefix_error]: on failure, the message gains a prefix. *)
Definition g_prefix_error {D A} (format : string) (args : list Z)
    (m : M D A) : M D A :=
  fun w =>
    let r := m w in
    match result r with
    | Fail (Some e) =>
        {| result := Fail (Some {| err_code := err_code e;
                                   err_format := String.append format (err_format e);
                                   err_args := args ++ err_args e |});
           final := final r; emitted := emitted r |}
    | _ => r
    end.

Definition g_debug {D} (format : string) (args : list Z) : M D unit :=
  emit (EvDebug format args).

(** ** The collaborators: [FuUdevDevice] and [FuDevice]

    The transport of [fu-udev-device.c] and the flag, version, status and
    progress setters of [fu-device.c] are called by the plugin but are
    not part of it. *)

Section Plugin.
Context {D : Type} `{Backend D}.

Definition with_bus (d : D) (w : World D) : World D :=
  {| bus := d; flags := flags w; version := version w;
     active_bank := active_bank w |}.

(** Modelled from the spec: the error of a failed transfer of
    [fu-udev-device.c], of kind Io ("any underlying I2C read/write
    failure"). *)
Definition io_error {A} (format : string) : M D A :=
  g_set_error G_IO_ERROR_FAILED format [].

(** Modelled from the spec: [fu_udev_device_pwrite_full] of
    [fu-udev-device.c], one write transaction of the given bytes at
    offset 0 of the bus descriptor. *)
Definition fu_udev_device_pwrite_full (data : list Z) : M D unit :=
  fun w =>
    let '(ok, d) := bus_pwrite data (bus w) in
    {| result := if ok then Ok tt
                 else result (io_error (A := unit) "failed to write" w);
       final := with_bus d w;
       emitted := [EvPwrite data ok] |}.

(** Modelled from the spec: [fu_udev_device_pwrite] of
    [fu-udev-device.c], a write of one byte. *)
Definition fu_udev_device_pwrite (data : Z) : M D unit :=
  fu_udev_device_pwrite_full [guint8 data].

(** Modelled from the spec: [fu_udev_device_pread_full] of
    [fu-udev-device.c], one read of [count] bytes; a read that does not
    deliver exactly [count] bytes is an I/O failure. *)
Definition fu_udev_device_pread_full (count : Z) : M D (list Z) :=
  fun w =>
    let '(answer, d) := bus_pread count (bus w) in
    {| result :=
         match answer with
         | Some bytes =>
             if Z.of_nat (List.length bytes) =? count
             then Ok (map guint8 bytes)
             else result (io_error (A := list Z) "failed to read" w)
         | None => result (io_error (A := list Z) "failed to read" w)
         end;
       final := with_bus d w;
       emitted := [EvPread count answer] |}.

(** Modelled from the spec: [fu_udev_device_pread] of
    [fu-udev-device.c], a read of one byte. *)
Definition fu_udev_device_pread : M D Z :=
  bytes <- fu_udev_device_pread_full 1 ;;
  ret (nth 0 bytes 0).

(** [g_usleep] and [clock_gettime (CLOCK_MONOTONIC, &now)] *)
Definition g_usleep (microseconds : Z) : M D unit :=
  fun w =>
    {| result := Ok tt;
       final := with_bus (bus_usleep microseconds (bus w)) w;
       emitted := [EvUsleep microseconds] |}.

Definition clock_gettime : M D timespec :=
  fun w =>
    {| result := Ok (bus_clock (bus w)); final := w;
       emitted := [EvClock (bus_clock (bus w))] |}.

(** [fu_device_has_flag] *)
Definition has_flag (f : FwupdDeviceFlag) (l : list FwupdDeviceFlag) : bool :=
  existsb (flag_eqb f) l.

(** Modelled from the spec: [fu_device_add_flag] of [fu-device.c]; the
    device flags form a set. *)
Definition fu_device_add_flag (f : FwupdDeviceFlag) : M D unit :=
  fun w =>
    {| result := Ok tt;
       final := {| bus := bus w;
                   flags := if has_flag f (flags w) then flags w
                            else f :: flags w;
                   version := version w; active_bank := active_bank w |};
       emitted := [] |}.

(** Modelled from the spec: [fu_device_remove_flag] of [fu-device.c]. *)
Definition fu_device_remove_flag (f : FwupdDeviceFlag) : M D unit :=
  fun w =>
    {| result := Ok tt;
       final := {| bus := bus w;
                   flags := filter (fun g => negb (flag_eqb f g)) (flags w);
                   version := version w; active_bank := active_bank w |};
       emitted := [] |}.

(** Modelled from the spec: [fu_device_set_version] of [fu-device.c];
    [None] is the [NULL] that clears the version. *)
Definition fu_device_set_version (v : option string) : M D unit :=
  fun w =>
    {| result := Ok tt;
       final := {| bus := bus w; flags := flags w; version := v;
                   active_bank := active_bank w |};
       emitted := [] |}.

(** [self->active_bank = b] and the read of [self->active_bank] *)
Definition set_active_bank (b : Z) : M D unit :=
  fun w =>
    {| result := Ok tt;
       final := {| bus := bus w; flags := flags w; version := version w;
                   active_bank := b |};
       emitted := [] |}.

Definition get_active_bank : M D Z :=
  fun w => {| result := Ok (active_bank w); final := w; emitted := [] |}.

(** Modelled from the spec: [fu_device_set_status] of [fu-device.c], the
    status-report callback. *)
Definition fu_device_set_status (s : FwupdStatus) : M D unit :=
  emit (EvStatus s).

(** Modelled from the spec: [fu_device_set_progress_full] of
    [fu-device.c], the progress callback [(done, total)]. *)
Definition fu_device_set_progress_full (done total : Z) : M D unit :=
  emit (EvProgress done total).

(** ** Register I/O *)

(** Write a value to a device register *)
Definition mst_write_register (address value : Z) : M D unit :=
  fu_udev_device_pwrite_full [guint8 address; guint8 value].

Definition mst_write_register_multi (address : Z) (data : list Z) : M D unit :=
  fu_udev_device_pwrite_full (guint8 address :: data).

(** Read a register from the device *)
Definition mst_read_register (address : Z) : M D Z :=
  fu_udev_device_pwrite address ;;
  fu_udev_device_pread.

Definition mst_set_indirect_address (address : Z) : M D unit :=
  mst_write_register REG_INDIRECT_LO 0x9F ;;
  mst_write_register REG_INDIRECT_HI (Z.shiftr address 8) ;;
  mst_write_register REG_INDIRECT_LO address.

Definition mst_read_register_indirect (address : Z) : M D Z :=
  mst_set_indirect_address address ;;
  mst_read_register REG_INDIRECT_HI.

Definition mst_write_register_indirect (address value : Z) : M D unit :=
  mst_set_indirect_address address ;;
  mst_write_register REG_INDIRECT_HI value.

(** [now <= deadline] as the loop condition spells it out *)
Definition timespec_le (now deadline : timespec) : bool :=
  (tv_sec now <? tv_sec deadline)
  || ((tv_sec now =? tv_sec deadline) && (tv_nsec now <=? tv_nsec deadline)).

Definition poll_pending (mask expected : Z) (deadline : timespec)
    (value : Z) (now : timespec) : bool :=
  negb (Z.land value mask =? expected) && timespec_le now deadline.

(** The [while] loop of [mst_poll_register]; [budget] bounds the number
    of iterations, and the loop hands back the last value read. *)
Fixpoint mst_poll_register_loop (budget : nat) (address mask expected : Z)
    (deadline : timespec) (value : Z) (now : timespec) : M D Z :=
  if poll_pending mask expected deadline value now then
    match budget with
    | O => diverge
    | S budget' =>
        g_usleep G_TIME_SPAN_MILLISECOND ;;
        now' <- clock_gettime ;;
        value' <- mst_read_register address ;;
        mst_poll_register_loop budget' address mask expected deadline
          value' now'
    end
  else ret value.

Definition poll_timeout_format : string :=
  "register %x still reads %x after %ds, wanted %x (mask %x)".

(** Wait until a device register reads an expected value. *)
Definition mst_poll_register (budget : nat)
    (address mask expected timeout_seconds : Z) : M D unit :=
  now <- clock_gettime ;;
  let deadline := {| tv_sec := tv_sec now + timeout_seconds;
                     tv_nsec := tv_nsec now |} in
  value <- mst_read_register address ;;
  value <- mst_poll_register_loop budget address mask expected deadline
             value now ;;
  if Z.land value mask =? expected then ret tt
  else g_set_error G_IO_ERROR_TIMED_OUT poll_timeout_format
         [address; value; timeout_seconds; expected; mask].

Definition mst_set_gpio88 (level : bool) : M D unit :=
  (* ensure pin is configured as push-pull GPIO *)
  value <- mst_read_register_indirect REG_GPIO88_CONFIG ;;
  mst_write_register_indirect REG_GPIO88_CONFIG
    (Z.lor (Z.land value 0xF0) 1) ;;
  (* set output level *)
  g_debug "set pin 88 = %d" [if level then 1 else 0] ;;
  value <- mst_read_register_indirect REG_GPIO88_VALUE ;;
  mst_write_register_indirect REG_GPIO88_VALUE
    (Z.lor (Z.land value 0xFE) (if level then 1 else 0)).

(** ** Dual-bank query and version probe *)

Record dual_bank_info := {
  is_enabled : bool;
  mode : Z;
  info_active_bank : Z;
  user1_version : Z * Z;
  user2_version : Z * Z
}.

Definition set_is_enabled (b : bool) (i : dual_bank_info) : dual_bank_info :=
  {| is_enabled := b; mode := mode i; info_active_bank := info_active_bank i;
     user1_version := user1_version i; user2_version := user2_version i |}.

Definition set_mode (m : Z) (i : dual_bank_info) : dual_bank_info :=
  {| is_enabled := is_enabled i; mode := m;
     info_active_bank := info_active_bank i;
     user1_version := user1_version i; user2_version := user2_version i |}.

Definition set_info_active_bank (b : Z) (i : dual_bank_info) : dual_bank_info :=
  {| is_enabled := is_enabled i; mode := mode i; info_active_bank := b;
     user1_version := user1_version i; user2_version := user2_version i |}.

Definition set_versions (v1 v2 : Z * Z) (i : dual_bank_info) : dual_bank_info :=
  {| is_enabled := is_enabled i; mode := mode i;
     info_active_bank := info_active_bank i;
     user1_version := v1; user2_version := v2 |}.

(** The dual-bank status record of an 11-byte response, as
    [fu_realtek_mst_device_get_dual_bank_info] below stores it through
    [info].  The caller's [info] is an uninitialised local, so the fields
    that are not assigned keep whatever [info] held. *)
Definition decode_dual_bank_info (response : list Z) (info : dual_bank_info)
    : dual_bank_info :=
  let byte i := nth i response 0 in
  if negb (byte 0%nat =? 0xca) || negb (byte 1%nat =? 9) then
    set_is_enabled false info
  else if negb (byte 2%nat =? 1) then
    set_is_enabled false info
  else
    let info := set_is_enabled true info in
    let info := set_mode (byte 3%nat) info in
    if mode info >? DUAL_BANK_MAX_VALUE then set_is_enabled false info
    else
      let info := set_info_active_bank (byte 4%nat) info in
      if info_active_bank info >? FLASH_BANK_MAX_VALUE then
        set_is_enabled false info
      else
        set_versions (byte 5%nat, byte 6%nat) (byte 7%nat, byte 8%nat) info.

Definition fu_realtek_mst_device_get_dual_bank_info (info : dual_bank_info)
    : M D dual_bank_info :=
  (* switch to DDCCI mode *)
  mst_write_register 0xca 0x09 ;;
  (* wait for mode switch to complete *)
  g_usleep (200 * G_TIME_SPAN_MILLISECOND) ;;
  (* request dual bank state and read back *)
  fu_udev_device_pwrite 0x01 ;;
  response <- fu_udev_device_pread_full 11 ;;
  let byte i := nth i response 0 in
  if negb (byte 0%nat =? 0xca) || negb (byte 1%nat =? 9) then
    (* unexpected response code or length usually means the current
       firmware doesn't support dual-bank mode at all *)
    g_debug "unexpected response code %#x, length %d"
      [byte 0%nat; byte 1%nat] ;;
    ret (set_is_enabled false info)
  else if negb (byte 2%nat =? 1) then
    (* enable flag, assume anything other than 1 is unsupported *)
    ret (set_is_enabled false info)
  else
    let info := set_is_enabled true info in
    let info := set_mode (byte 3%nat) info in
    if mode info >? DUAL_BANK_MAX_VALUE then
      g_debug "unexpected dual bank mode value %#x" [mode info] ;;
      ret (set_is_enabled false info)
    else
      let info := set_info_active_bank (byte 4%nat) info in
      if info_active_bank info >? FLASH_BANK_MAX_VALUE then
        g_debug "unexpected active flash bank value %#x"
          [info_active_bank info] ;;
        ret (set_is_enabled false info)
      else
        (* last two bytes of response are reserved *)
        ret (set_versions (byte 5%nat, byte 6%nat) (byte 7%nat, byte 8%nat)
               info).

(** [g_strdup_printf ("%u.%u", a, b)] *)
Definition format_u (x : Z) : string :=
  NilEmpty.string_of_uint (N.to_uint (Z.to_N x)).

Definition format_version (v : Z * Z) : string :=
  String.append (format_u (fst v)) (String.append "." (format_u (snd v))).

(** [info] stands for the uninitialised [struct dual_bank_info] local. *)
Definition fu_realtek_mst_device_probe_version (info : dual_bank_info)
    : M D unit :=
  (* ensure probed state is cleared in case of error *)
  fu_device_remove_flag FWUPD_DEVICE_FLAG_UPDATABLE ;;
  set_active_bank FLASH_BANK_INVALID ;;
  fu_device_set_version None ;;
  info <- fu_realtek_mst_device_get_dual_bank_info info ;;
  if negb (is_enabled info) then
    g_debug "dual-bank mode is not enabled" [] ;;
    ret tt
  else if negb (mode info =? DUAL_BANK_DIFF) then
    g_debug "can only update from dual-bank-diff mode" [] ;;
    ret tt
  else
    fu_device_add_flag FWUPD_DEVICE_FLAG_UPDATABLE ;;
    g_debug "device is currently running from bank %u"
      [info_active_bank info] ;;
    g_return_val_if_fail (info_active_bank info <=? FLASH_BANK_MAX_VALUE) ;;
    set_active_bank (info_active_bank info) ;;
    g_debug "firmware version reports user1 %d.%d, user2 %d.%d"
      [fst (user1_version info); snd (user1_version info);
       fst (user2_version info); snd (user2_version info)] ;;
    if info_active_bank info =? FLASH_BANK_USER1 then
      fu_device_set_version (Some (format_version (user1_version info)))
    else if info_active_bank info =? FLASH_BANK_USER2 then
      fu_device_set_version (Some (format_version (user2_version info)))
    else
      (* only user bank versions are reported, can't tell otherwise *)
      ret tt.

(** ** Flash interface *)

(** The [while (bytes_read < buf_size)] loop of [flash_iface_read].  It
    hands back the bytes stored at [buf + bytes_read] and beyond.  [n]
    bounds the iterations; the caller passes [buf_size], which is enough
    since every iteration reads at least one byte. *)
Fixpoint flash_iface_read_loop (n : nat) (buf_size bytes_read : Z)
    : M D (list Z) :=
  if bytes_read <? buf_size then
    match n with
    | O => diverge
    | S n' =>
        (* read up to 256 bytes in one transaction *)
        let read_len := buf_size - bytes_read in
        let read_len := if read_len >? 256 then 256 else read_len in
        chunk <- fu_udev_device_pread_full read_len ;;
        let bytes_read := bytes_read + read_len in
        fu_device_set_progress_full bytes_read buf_size ;;
        rest <- flash_iface_read_loop n' buf_size bytes_read ;;
        ret (chunk ++ rest)
    end
  else ret [].

Definition flash_iface_read (address buf_size : Z) : M D (list Z) :=
  g_return_val_if_fail (address <? FLASH_SIZE) ;;
  g_return_val_if_fail (buf_size <=? FLASH_SIZE) ;;
  g_debug "read %#zx bytes from %#08x" [buf_size; address] ;;
  (* read must start one byte prior to the desired address and ignore the
     first byte of data, since the first read value is unpredictable *)
  let address := Z.land (guint32 (address - 1)) 0xFFFFFF in
  mst_write_register REG_CMD_ADDR_HI (Z.shiftr address 16) ;;
  mst_write_register REG_CMD_ADDR_MID (Z.shiftr address 8) ;;
  mst_write_register REG_CMD_ADDR_LO address ;;
  mst_write_register REG_READ_OPCODE CMD_OPCODE_READ ;;
  (* ignore first byte of data *)
  fu_udev_device_pwrite 0x70 ;;
  _ <- fu_udev_device_pread ;;
  flash_iface_read_loop (Z.to_nat buf_size) buf_size 0.

Definition flash_iface_erase_sector (budget : nat) (address : Z) : M D unit :=
  (* address must be 4k-aligned *)
  g_return_val_if_fail (Z.land address 0xFFF =? 0) ;;
  g_debug "sector erase %#08x-%#08x"
    [address; guint32 (address + SECTOR_SIZE)] ;;
  (* sector address *)
  mst_write_register REG_CMD_ADDR_HI (Z.shiftr address 16) ;;
  mst_write_register REG_CMD_ADDR_MID (Z.shiftr address 8) ;;
  mst_write_register REG_CMD_ADDR_LO address ;;
  (* command type + WREN *)
  mst_write_register REG_CMD_ATTR 0xB8 ;;
  (* sector erase opcode *)
  mst_write_register REG_ERASE_OPCODE CMD_OPCODE_ERASE_SECTOR ;;
  (* begin operation and wait for completion *)
  mst_write_register REG_CMD_ATTR (Z.lor 0xB8 CMD_ERASE_BUSY) ;;
  mst_poll_register budget REG_CMD_ATTR CMD_ERASE_BUSY 0 10.

Definition flash_iface_erase_block (budget : nat) (address : Z) : M D unit :=
  (* address must be 64k-aligned *)
  g_return_val_if_fail (Z.land address 0xFFFF =? 0) ;;
  g_debug "block erase %#08x-%#08x"
    [address; guint32 (address + BLOCK_SIZE)] ;;
  (* block address *)
  mst_write_register REG_CMD_ADDR_HI (Z.shiftr address 16) ;;
  mst_write_register REG_CMD_ADDR_MID 0 ;;
  mst_write_register REG_CMD_ADDR_LO 0 ;;
  (* command type + WREN *)
  mst_write_register REG_CMD_ATTR 0xB8 ;;
  (* block erase opcode *)
  mst_write_register REG_ERASE_OPCODE CMD_OPCODE_ERASE_BLOCK ;;
  (* begin operation and wait for completion *)
  mst_write_register REG_CMD_ATTR (Z.lor 0xB8 CMD_ERASE_BUSY) ;;
  mst_poll_register budget REG_CMD_ATTR CMD_ERASE_BUSY 0 10.

(** [gsize chunk_size = remaining_size > 256 ? 256 : remaining_size] *)
Definition chunk_size_of (remaining_size : Z) : Z :=
  if remaining_size >? 256 then 256 else remaining_size.

(** One pass through the body of the [while (remaining_size > 0)] loop of
    [flash_iface_write], up to and including the completion poll. *)
Definition flash_iface_write_chunk (budget : nat) (address chunk_size : Z)
    (data_bytes : list Z) : M D unit :=
  (* write opcode *)
  mst_write_register REG_WRITE_OPCODE 0x02 ;;
  (* write length *)
  mst_write_register REG_WRITE_LEN (chunk_size - 1) ;;
  (* target address *)
  mst_write_register REG_CMD_ADDR_HI (Z.shiftr address 16) ;;
  mst_write_register REG_CMD_ADDR_MID (Z.shiftr address 8) ;;
  mst_write_register REG_CMD_ADDR_LO address ;;
  (* ensure write buffer is empty *)
  mst_poll_register budget REG_MCU_MODE MCU_MODE_WRITE_BUF 0 10 ;;
  (* write data into FIFO *)
  mst_write_register_multi REG_WRITE_FIFO
    (firstn (Z.to_nat chunk_size) data_bytes) ;;
  (* begin operation and wait for completion *)
  mst_write_register REG_MCU_MODE (Z.lor MCU_MODE_ISP MCU_MODE_WRITE_BUSY) ;;
  g_prefix_error "timed out waiting for write at %#x to complete: " [address]
    (mst_poll_register budget REG_MCU_MODE MCU_MODE_WRITE_BUSY 0 10).

(** The loop itself.  [n] bounds the iterations; the caller passes the
    number of bytes, which is enough since every chunk has at least one. *)
Fixpoint flash_iface_write_loop (n budget : nat)
    (total_size remaining_size address : Z) (data_bytes : list Z)
    : M D unit :=
  if remaining_size >? 0 then
    match n with
    | O => diverge
    | S n' =>
        let chunk_size := chunk_size_of remaining_size in
        flash_iface_write_chunk budget address chunk_size data_bytes ;;
        let remaining_size := remaining_size - chunk_size in
        let data_bytes := skipn (Z.to_nat chunk_size) data_bytes in
        let address := guint32 (address + chunk_size) in
        fu_device_set_progress_full (total_size - remaining_size)
          total_size ;;
        flash_iface_write_loop n' budget total_size remaining_size address
          data_bytes
    end
  else ret tt.

Definition flash_iface_write (budget : nat) (address : Z) (data : list Z)
    : M D unit :=
  let total_size := Z.of_nat (List.length data) in
  let remaining_size := total_size in
  g_debug "write %#zx bytes at %#08x" [remaining_size; address] ;;
  flash_iface_write_loop (List.length data) budget total_size remaining_size
    address data.

(** ** Lifecycle and update sequencer *)

Definition fu_realtek_mst_device_detach (budget : nat) : M D unit :=
  (* Switch to programming mode (stops regular operation) *)
  fu_device_set_status FWUPD_STATUS_DEVICE_RESTART ;;
  mst_write_register REG_MCU_MODE MCU_MODE_ISP ;;
  g_debug "wait for ISP mode ready" [] ;;
  mst_poll_register budget REG_MCU_MODE MCU_MODE_ISP MCU_MODE_ISP 60 ;;
  (* magic value makes the MCU clock run faster than normal *)
  mst_write_register_indirect 0x06A0 0x74 ;;
  fu_device_add_flag FWUPD_DEVICE_FLAG_IS_BOOTLOADER ;;
  fu_device_set_status FWUPD_STATUS_IDLE ;;
  (* Disable hardware write protect, assuming Flash ~WP is connected to
     device pin 88, a GPIO. *)
  mst_set_gpio88 true.

(** The [for (offset = 0; offset < FLASH_USER_SIZE; offset +=
    FLASH_USER_SIZE)] loop of [write_firmware]; [n] bounds the
    iterations, and the caller allows one per 64 KiB block. *)
Fixpoint erase_old_image_loop (n budget : nat) (base_addr offset : Z)
    : M D unit :=
  if offset <? FLASH_USER_SIZE then
    match n with
    | O => diverge
    | S n' =>
        fu_device_set_progress_full offset FLASH_USER_SIZE ;;
        flash_iface_erase_block budget (guint32 (base_addr + offset)) ;;
        erase_old_image_loop n' budget base_addr
          (guint32 (offset + FLASH_USER_SIZE))
    end
  else ret tt.

Definition flag_data : list Z := [0xaa; 0xaa; 0xaa; 0xff; 0xff].

Fixpoint bytes_eqb (a b : list Z) : bool :=
  match a, b with
  | [], [] => true
  | x :: a', y :: b' => (x =? y) && bytes_eqb a' b'
  | _, _ => false
  end.

(** [memcmp (a, b, n) != 0] *)
Definition memcmp_differs (a b : list Z) (n : Z) : bool :=
  negb (bytes_eqb (firstn (Z.to_nat n) a) (firstn (Z.to_nat n) b)).

Definition write_target_base (bank : Z) : Z :=
  if bank =? FLASH_BANK_USER1 then FLASH_USER2_ADDR else FLASH_USER1_ADDR.

Definition write_target_flag (bank : Z) : Z :=
  if bank =? FLASH_BANK_USER1 then FLASH_FLAG2_ADDR else FLASH_FLAG1_ADDR.

Definition verify_error_message : string :=
  "flash contents after write do not match firmware image".

(** Modelled from the spec: the firmware container ("a firmware
    container providing the raw image bytes") as [fu_firmware_get_bytes]
    of [fu-firmware.c] answers for it: with the image bytes, or with
    [NULL] and the [GError] it has set. *)
Inductive FuFirmware :=
| FirmwareBytes (bytes : list Z)
| FirmwareNoBytes (error : GError).

Definition fu_firmware_get_bytes (firmware : FuFirmware)
    : option (list Z) * option GError :=
  match firmware with
  | FirmwareBytes bytes => (Some bytes, None)
  | FirmwareNoBytes error => (None, Some error)
  end.

(** [g_bytes_get_size] and [g_bytes_get_data]; [NULL] has size 0. *)
Definition g_bytes_get_size (bytes : option (list Z)) : Z :=
  match bytes with
  | Some data => Z.of_nat (List.length data)
  | None => 0
  end.

Definition g_bytes_get_data (bytes : option (list Z)) : list Z :=
  match bytes with
  | Some data => data
  | None => []
  end.

(** [g_return_val_if_fail (cond, FALSE)] where a callee may already have
    set [error]: the function hands back [FALSE] and [error] stays as
    the callee left it. *)
Definition g_return_val_if_fail_with {D} (error : option GError)
    (cond : bool) : M D unit :=
  if cond then ret tt else fail error.

Definition fu_realtek_mst_device_write_firmware (budget : nat)
    (firmware : FuFirmware) : M D unit :=
  (* write an inactive bank: USER2 if USER1 is active, otherwise USER1
     (including if the boot bank is active) *)
  bank <- get_active_bank ;;
  let base_addr := write_target_base bank in
  let flag_addr := write_target_flag bank in
  let '(firmware_bytes, error) := fu_firmware_get_bytes firmware in
  g_return_val_if_fail_with error
    (g_bytes_get_size firmware_bytes =? FLASH_USER_SIZE) ;;
  (* erase old image *)
  g_debug "erase old image from %#x" [base_addr] ;;
  fu_device_set_status FWUPD_STATUS_DEVICE_ERASE ;;
  erase_old_image_loop (Z.to_nat (FLASH_USER_SIZE / BLOCK_SIZE)) budget
    base_addr 0 ;;
  (* write new image *)
  g_debug "write new image to %#x" [base_addr] ;;
  fu_device_set_status FWUPD_STATUS_DEVICE_WRITE ;;
  flash_iface_write budget base_addr (g_bytes_get_data firmware_bytes) ;;
  fu_device_set_status FWUPD_STATUS_DEVICE_VERIFY ;;
  readback_buf <- flash_iface_read base_addr FLASH_USER_SIZE ;;
  (if memcmp_differs (g_bytes_get_data firmware_bytes) readback_buf
        FLASH_USER_SIZE then
     g_set_error FWUPD_ERROR_WRITE verify_error_message []
   else ret tt) ;;
  (* Erase old flag and write new one. *)
  fu_device_set_status FWUPD_STATUS_DEVICE_ERASE ;;
  flash_iface_erase_sector budget
    (Z.land flag_addr (guint32 (Z.lnot (SECTOR_SIZE - 1)))) ;;
  fu_device_set_status FWUPD_STATUS_DEVICE_WRITE ;;
  flash_iface_write budget flag_addr flag_data.

(** [fu_realtek_mst_device_write_firmware] for a container that holds
    [firmware_bytes]: the same calls, with the payload in hand. *)
Definition write_firmware_image (budget : nat)
    (firmware_bytes : list Z) : M D unit :=
  (* write an inactive bank: USER2 if USER1 is active, otherwise USER1
     (including if the boot bank is active) *)
  bank <- get_active_bank ;;
  let base_addr := write_target_base bank in
  let flag_addr := write_target_flag bank in
  g_return_val_if_fail
    (Z.of_nat (List.length firmware_bytes) =? FLASH_USER_SIZE) ;;
  (* erase old image *)
  g_debug "erase old image from %#x" [base_addr] ;;
  fu_device_set_status FWUPD_STATUS_DEVICE_ERASE ;;
  erase_old_image_loop (Z.to_nat (FLASH_USER_SIZE / BLOCK_SIZE)) budget
    base_addr 0 ;;
  (* write new image *)
  g_debug "write new image to %#x" [base_addr] ;;
  fu_device_set_status FWUPD_STATUS_DEVICE_WRITE ;;
  flash_iface_write budget base_addr firmware_bytes ;;
  fu_device_set_status FWUPD_STATUS_DEVICE_VERIFY ;;
  readback_buf <- flash_iface_read base_addr FLASH_USER_SIZE ;;
  (if memcmp_differs firmware_bytes readback_buf FLASH_USER_SIZE then
     g_set_error FWUPD_ERROR_WRITE verify_error_message []
   else ret tt) ;;
  (* Erase old flag and write new one. *)
  fu_device_set_status FWUPD_STATUS_DEVICE_ERASE ;;
  flash_iface_erase_sector budget
    (Z.land flag_addr (guint32 (Z.lnot (SECTOR_SIZE - 1)))) ;;
  fu_device_set_status FWUPD_STATUS_DEVICE_WRITE ;;
  flash_iface_write budget flag_addr flag_data.

Definition fu_realtek_mst_device_read_firmware : M D (list Z) :=
  bank <- get_active_bank ;;
  bank_address <-
    (if bank =? FLASH_BANK_USER1 then ret FLASH_USER1_ADDR
     else if bank =? FLASH_BANK_USER2 then ret FLASH_USER2_ADDR
     else g_set_error FWUPD_ERROR_NOT_SUPPORTED
            "cannot read firmware from bank %u" [bank]) ;;
  flash_iface_read bank_address FLASH_USER_SIZE.

Definition fu_realtek_mst_device_dump_firmware : M D (list Z) :=
  fu_device_set_status FWUPD_STATUS_DEVICE_READ ;;
  flash_contents <- flash_iface_read 0 FLASH_SIZE ;;
  fu_device_set_status FWUPD_STATUS_IDLE ;;
  ret flash_contents.

Definition reset_failed_message : string :=
  "device failed to reset when requested".

Definition fu_realtek_mst_device_attach : M D unit :=
  (* re-enable hardware write protect via GPIO *)
  mst_set_gpio88 false ;;
  value <- mst_read_register REG_MCU_MODE ;;
  (if negb (Z.land value MCU_MODE_ISP =? 0) then
     g_debug "resetting device to exit ISP mode" [] ;;
     fu_device_set_status FWUPD_STATUS_DEVICE_RESTART ;;
     (* Set register EE bit 2 to request reset. This write can fail
        spuriously, so we ignore the write result and verify the device is
        no longer in programming mode after giving it time to reset. *)
     value <- mst_read_register 0xEE ;;
     ignore_result (mst_write_register 0xEE (Z.lor value 2)) ;;
     (* allow device some time to reset *)
     g_usleep G_TIME_SPAN_SECOND ;;
     (* verify device has exited programming mode and actually reset *)
     value <- mst_read_register REG_MCU_MODE ;;
     if Z.land value MCU_MODE_ISP =? MCU_MODE_ISP then
       (* the flag is added between setting the error and returning *)
       fu_device_add_flag FWUPD_DEVICE_FLAG_NEEDS_SHUTDOWN ;;
       g_set_error FWUPD_ERROR_NEEDS_USER_ACTION reset_failed_message []
     else ret tt
   else
     g_debug "device is already in normal mode" []) ;;
  fu_device_remove_flag FWUPD_DEVICE_FLAG_IS_BOOTLOADER ;;
  fu_device_set_status FWUPD_STATUS_IDLE.

End Plugin.

(** ** A scripted chip, for running the code on concrete inputs

    Reads are answered from a queue and, once it is empty, with a fill
    byte; register writes to the listed registers are not acknowledged;
    the clock counts nanoseconds and advances only across [usleep], by
    the time asked for plus a fixed, non-negative oversleep. *)

Record Mock := {
  mock_time : Z;
  mock_oversleep : Z;
  mock_answers : list (option (list Z));
  mock_fill : Z;
  mock_nack : list Z
}.

Definition mock_pwrite (data : list Z) (m : Mock) : bool * Mock :=
  match data with
  | reg :: _ :: _ => (negb (existsb (Z.eqb reg) (mock_nack m)), m)
  | _ => (true, m)
  end.

Definition mock_pread (count : Z) (m : Mock) : option (list Z) * Mock :=
  match mock_answers m with
  | a :: rest =>
      (a, {| mock_time := mock_time m; mock_oversleep := mock_oversleep m;
             mock_answers := rest; mock_fill := mock_fill m;
             mock_nack := mock_nack m |})
  | [] => (Some (repeat (mock_fill m) (Z.to_nat count)), m)
  end.

Definition mock_usleep (microseconds : Z) (m : Mock) : Mock :=
  {| mock_time := mock_time m + 1000 * microseconds
                  + Z.max 0 (mock_oversleep m);
     mock_oversleep := mock_oversleep m;
     mock_answers := mock_answers m; mock_fill := mock_fill m;
     mock_nack := mock_nack m |}.

Definition mock_clock (m : Mock) : timespec :=
  {| tv_sec := mock_time m / 1000000000;
     tv_nsec := mock_time m mod 1000000000 |}.

#[export] Instance Mock_Backend : Backend Mock := {
  bus_pwrite := mock_pwrite;
  bus_pread := mock_pread;
  bus_usleep := mock_usleep;
  bus_clock := mock_clock
}.

Definition mock_chip (answers : list (option (list Z))) (fill : Z) : Mock :=
  {| mock_time := 5000000000; mock_oversleep := 0; mock_answers := answers;
     mock_fill := fill; mock_nack := [] |}.

Definition mock_world (chip : Mock) (bank : Z) : World Mock :=
  {| bus := chip; flags := []; version := None; active_bank := bank |}.

(** ** Reading a run: projections of the emitted calls *)

Definition is_ok {A} (o : outcome A) : bool :=
  match o with Ok _ => true | _ => false end.

Fixpoint filter_map {X Y} (f : X -> option Y) (l : list X) : list Y :=
  match l with
  | [] => []
  | x :: l' =>
      match f x with
      | Some y => y :: filter_map f l'
      | None => filter_map f l'
      end
  end.

(** A register write is a bus write of a register address followed by at
    least one byte; the one-byte writes only set the read pointer. *)
Definition reg_write (e : event) : option (list Z) :=
  match e with
  | EvPwrite (reg :: v :: rest) _ => Some (reg :: v :: rest)
  | _ => None
  end.

Definition reg_writes (l : list event) : list (list Z) :=
  filter_map reg_write l.

(** The bus reads and what they delivered. *)
Definition bus_read (e : event) : option (Z * option (list Z)) :=
  match e with
  | EvPread count answer => Some (count, answer)
  | _ => None
  end.

Definition bus_reads (l : list event) : list (Z * option (list Z)) :=
  filter_map bus_read l.

(** Every emitted call satisfies [P]. *)
Definition emits {D A} (P : event -> Prop) (m : M D A) : Prop :=
  forall w, Forall P (emitted (m w)).

(** The projection of what [m] emits follows the script [s]: it is always
    a prefix of [s], and all of [s] when [m] succeeds. *)
Definition scripted {D A X} (proj : event -> option X) (s : list X)
    (m : M D A) : Prop :=
  forall w,
    (exists rest, filter_map proj (emitted (m w)) ++ rest = s)
    /\ (is_ok (result (m w)) = true -> filter_map proj (emitted (m w)) = s).

(** The projection of what [m] emits begins with [x], whatever the
    outcome. *)
Definition begins {D A X} (proj : event -> option X) (x : X) (m : M D A)
    : Prop :=
  forall w, exists rest, filter_map proj (emitted (m w)) = x :: rest.

(** [P] holds of everything a register poll emits: pointer writes, bus
    reads, clock samples and sleeps. *)
Definition poll_quiet (P : event -> Prop) : Prop :=
  (forall b ok, P (EvPwrite [b] ok))
  /\ (forall count answer, P (EvPread count answer))
  /\ (forall now, P (EvClock now))
  /\ (forall us, P (EvUsleep us)).

(** ** The register scripts of the flash operations *)

(** The three command-address writes for a 24-bit address. *)
Definition set_address_script (a : Z) : list (list Z) :=
  [[REG_CMD_ADDR_HI; (a / 65536) mod 256];
   [REG_CMD_ADDR_MID; (a / 256) mod 256];
   [REG_CMD_ADDR_LO; a mod 256]].

Definition read_script (address : Z) : list (list Z) :=
  set_address_script ((address - 1) mod 2 ^ 24)
  ++ [[REG_READ_OPCODE; CMD_OPCODE_READ]].

Definition erase_sector_script (address : Z) : list (list Z) :=
  set_address_script address
  ++ [[REG_CMD_ATTR; 0xB8];
      [REG_ERASE_OPCODE; CMD_OPCODE_ERASE_SECTOR];
      [REG_CMD_ATTR; 0xB9]].

Definition erase_block_script (address : Z) : list (list Z) :=
  [[REG_CMD_ADDR_HI; (address / 65536) mod 256];
   [REG_CMD_ADDR_MID; 0];
   [REG_CMD_ADDR_LO; 0];
   [REG_CMD_ATTR; 0xB8];
   [REG_ERASE_OPCODE; CMD_OPCODE_ERASE_BLOCK];
   [REG_CMD_ATTR; 0xB9]].

(** One page write: [chunk] is what the FIFO burst carries. *)
Definition page_write_script (address : Z) (chunk : list Z) : list (list Z) :=
  [[REG_WRITE_OPCODE; CMD_OPCODE_WRITE];
   [REG_WRITE_LEN; Z.of_nat (List.length chunk) - 1]]
  ++ set_address_script address
  ++ [REG_WRITE_FIFO :: chunk;
      [REG_MCU_MODE; 0xA0]].

(** The pages of a write: 256-byte chunks of the data (the last one may
    be shorter), each with the flash address it goes to. *)
Fixpoint pages (n : nat) (address : Z) (data : list Z) : list (Z * list Z) :=
  match n, data with
  | S n', _ :: _ =>
      (address, firstn 256 data)
      :: pages n' (guint32 (address + 256)) (skipn 256 data)
  | _, _ => []
  end.

Definition write_script (address : Z) (data : list Z) : list (list Z) :=
  flat_map (fun p => page_write_script (fst p) (snd p))
    (pages (List.length data) address data).

(** The registers that select and start a flash command. *)
Definition command_registers : list Z :=
  [REG_CMD_ATTR; REG_ERASE_OPCODE; REG_READ_OPCODE; REG_WRITE_OPCODE;
   REG_MCU_MODE].

(** Scan a sequence of register writes: [seen] counts how many of HI, MID,
    LO have been written, in that order; a write to a command register
    before all three is a violation. *)
Fixpoint address_first_from (seen : nat) (l : list (list Z)) : bool :=
  match l with
  | [] => true
  | t :: l' =>
      let reg := hd 0 t in
      if existsb (Z.eqb reg) command_registers then
        (3 <=? seen)%nat && address_first_from seen l'
      else if (reg =? REG_CMD_ADDR_HI) && (seen =? 0)%nat then
        address_first_from 1 l'
      else if (reg =? REG_CMD_ADDR_MID) && (seen =? 1)%nat then
        address_first_from 2 l'
      else if (reg =? REG_CMD_ADDR_LO) && (seen =? 2)%nat then
        address_first_from 3 l'
      else address_first_from seen l'
  end.

Definition address_first (l : list (list Z)) : bool :=
  address_first_from 0 l.

(** ** Reading a run of [mst_poll_register] *)

(** The calls of a register read that goes through, and of one more round
    of the polling loop: sleep, clock sample, register read. *)
Definition read_events (address raw : Z) : list event :=
  [EvPwrite [guint8 address] true; EvPread 1 (Some [raw])].

Definition poll_round (address : Z) (it : timespec * Z) : list event :=
  [EvUsleep G_TIME_SPAN_MILLISECOND; EvClock (fst it)]
  ++ read_events address (snd it).

Definition poll_trace (address : Z) (now0 : timespec) (raw0 : Z)
    (rounds : list (timespec * Z)) : list event :=
  EvClock now0 :: read_events address raw0
  ++ flat_map (poll_round address) rounds.

(** The (clock sample, register value) pairs the loop condition sees. *)
Definition samples_of (now : timespec) (value : Z)
    (rounds : list (timespec * Z)) : list (timespec * Z) :=
  (now, value) :: map (fun it => (fst it, guint8 (snd it))) rounds.

Definition pending_sample (mask expected : Z) (deadline : timespec)
    (s : timespec * Z) : bool :=
  poll_pending mask expected deadline (snd s) (fst s).

Definition poll_deadline (now0 : timespec) (timeout_seconds : Z) : timespec :=
  {| tv_sec := tv_sec now0 + timeout_seconds; tv_nsec := tv_nsec now0 |}.

(** The sample the loop stopped at. *)
Definition final_sample (now : timespec) (value : Z)
    (rounds : list (timespec * Z)) : timespec * Z :=
  last (map (fun it => (fst it, guint8 (snd it))) rounds) (now, value).

(** A register read that fails: the pointer write is not acknowledged, or
    the read does not deliver one byte. *)
Definition read_failure (address : Z) (l : list event) : Prop :=
  l = [EvPwrite [guint8 address] false]
  \/ exists answer,
       l = [EvPwrite [guint8 address] true; EvPread 1 answer]
       /\ forall raw, answer <> Some [raw].

(** The value of the register read a run ended with, if it ended with one
    that went through. *)
Definition last_value (l : list event) : option Z :=
  match last l (EvUsleep 0) with
  | EvPread _ (Some [raw]) => Some (guint8 raw)
  | _ => None
  end.

(** Did some read deliver a matching value while the latest clock sample
    was not past the deadline? *)
Fixpoint matched_in_time_from (mask expected : Z) (deadline now : timespec)
    (l : list event) : bool :=
  match l with
  | [] => false
  | EvClock t :: l' => matched_in_time_from mask expected deadline t l'
  | EvPread _ (Some [raw]) :: l' =>
      ((Z.land (guint8 raw) mask =? expected) && timespec_le now deadline)
      || matched_in_time_from mask expected deadline now l'
  | _ :: l' => matched_in_time_from mask expected deadline now l'
  end.

Definition matched_in_time (mask expected timeout_seconds : Z)
    (l : list event) : bool :=
  match l with
  | EvClock now0 :: l' =>
      matched_in_time_from mask expected (poll_deadline now0 timeout_seconds)
        now0 l'
  | _ => false
  end.

Definition timespec_ns (t : timespec) : Z :=
  tv_sec t * 1000000000 + tv_nsec t.

(** A monotonic clock: samples are normalised, no call makes the clock go
    back, and a sleep lasts at least as long as asked. *)
Record monotonic_clock (D : Type) `{Backend D} : Prop := {
  clock_normal : forall d, 0 <= tv_nsec (bus_clock d) < 1000000000;
  clock_usleep : forall us d,
    timespec_ns (bus_clock d) + 1000 * us
    <= timespec_ns (bus_clock (bus_usleep us d));
  clock_pwrite : forall data d,
    timespec_ns (bus_clock d)
    <= timespec_ns (bus_clock (snd (bus_pwrite data d)));
  clock_pread : forall count d,
    timespec_ns (bus_clock d)
    <= timespec_ns (bus_clock (snd (bus_pread count d)))
}.

Definition poll_timeout_error (address value timeout_seconds expected mask : Z)
    : GError :=
  {| err_code := G_IO_ERROR_TIMED_OUT;
     err_format := poll_timeout_format;
     err_args := [address; value; timeout_seconds; expected; mask] |}.

(** ** Reading a run of the update sequencer *)

(** The flash operations a run went into.  Each entry point of the flash
    interface announces itself through [g_debug] once its arguments have
    passed the precondition checks, with the address it was given. *)
Inductive flash_op :=
| OpEraseBlock (address : Z)
| OpEraseSector (address : Z)
| OpWrite (address size : Z)
| OpRead (address size : Z).

Definition flash_op_of (e : event) : option flash_op :=
  match e with
  | EvDebug format [a; b] =>
      if String.eqb format "block erase %#08x-%#08x" then Some (OpEraseBlock a)
      else if String.eqb format "sector erase %#08x-%#08x"
      then Some (OpEraseSector a)
      else if String.eqb format "write %#zx bytes at %#08x"
      then Some (OpWrite b a)
      else if String.eqb format "read %#zx bytes from %#08x"
      then Some (OpRead b a)
      else None
  | _ => None
  end.

Definition flash_ops (l : list event) : list flash_op :=
  filter_map flash_op_of l.

(** The flash addresses an operation erases or programs, as a half-open
    range; a read modifies nothing. *)
Definition modified_range (op : flash_op) : option (Z * Z) :=
  match op with
  | OpEraseBlock a => Some (a, a + BLOCK_SIZE)
  | OpEraseSector a => Some (a, a + SECTOR_SIZE)
  | OpWrite a n => Some (a, a + n)
  | OpRead _ _ => None
  end.

(** The image and the flag record of the bank the chip is running from. *)
Definition active_regions (bank : Z) : list (Z * Z) :=
  if bank =? FLASH_BANK_USER1 then
    [(FLASH_USER1_ADDR, FLASH_USER1_ADDR + FLASH_USER_SIZE);
     (FLASH_FLAG1_ADDR, FLASH_FLAG1_ADDR + 5)]
  else if bank =? FLASH_BANK_USER2 then
    [(FLASH_USER2_ADDR, FLASH_USER2_ADDR + FLASH_USER_SIZE);
     (FLASH_FLAG2_ADDR, FLASH_FLAG2_ADDR + 5)]
  else [].

Definition disjoint (r1 r2 : Z * Z) : Prop :=
  snd r1 <= fst r2 \/ snd r2 <= fst r1.

Definition spares (bank : Z) (op : flash_op) : Prop :=
  forall r, modified_range op = Some r -> Forall (disjoint r) (active_regions bank).

Definition is_block_erase (op : flash_op) : bool :=
  match op with OpEraseBlock _ => true | _ => false end.

(** What the sequencer goes through for a given active bank. *)
Definition update_ops (bank : Z) : list flash_op :=
  let base_addr := write_target_base bank in
  let flag_addr := write_target_flag bank in
  [OpEraseBlock base_addr;
   OpWrite base_addr FLASH_USER_SIZE;
   OpRead base_addr FLASH_USER_SIZE;
   OpEraseSector (flag_addr - flag_addr mod SECTOR_SIZE);
   OpWrite flag_addr 5].

(** The seven 64 KiB blocks of a user image. *)
Definition image_blocks (base_addr : Z) : list flash_op :=
  map (fun i => OpEraseBlock (base_addr + i * BLOCK_SIZE))
    [0; 1; 2; 3; 4; 5; 6].

(** [write_firmware] in two halves, for a given active bank: up to and
    including the read-back, and from the comparison on. *)
Definition write_firmware_upto_readback {D} `{Backend D} (budget : nat)
    (firmware_bytes : list Z) (bank : Z) : M D (list Z) :=
  let base_addr := write_target_base bank in
  g_return_val_if_fail
    (Z.of_nat (List.length firmware_bytes) =? FLASH_USER_SIZE) ;;
  g_debug "erase old image from %#x" [base_addr] ;;
  fu_device_set_status FWUPD_STATUS_DEVICE_ERASE ;;
  erase_old_image_loop (Z.to_nat (FLASH_USER_SIZE / BLOCK_SIZE)) budget
    base_addr 0 ;;
  g_debug "write new image to %#x" [base_addr] ;;
  fu_device_set_status FWUPD_STATUS_DEVICE_WRITE ;;
  flash_iface_write budget base_addr firmware_bytes ;;
  fu_device_set_status FWUPD_STATUS_DEVICE_VERIFY ;;
  flash_iface_read base_addr FLASH_USER_SIZE.

Definition write_firmware_after_readback {D} `{Backend D} (budget : nat)
    (firmware_bytes : list Z) (bank : Z) (readback_buf : list Z) : M D unit :=
  let flag_addr := write_target_flag bank in
  (if memcmp_differs firmware_bytes readback_buf FLASH_USER_SIZE then
     g_set_error FWUPD_ERROR_WRITE verify_error_message []
   else ret tt) ;;
  fu_device_set_status FWUPD_STATUS_DEVICE_ERASE ;;
  flash_iface_erase_sector budget
    (Z.land flag_addr (guint32 (Z.lnot (SECTOR_SIZE - 1)))) ;;
  fu_device_set_status FWUPD_STATUS_DEVICE_WRITE ;;
  flash_iface_write budget flag_addr flag_data.

(** The error of a read-back that does not match. *)
Definition verify_error : GError :=
  {| err_code := FWUPD_ERROR_WRITE;
     err_format := verify_error_message;
     err_args := [] |}.

(** A blank image, and an update from USER1 on a chip that acknowledges
    everything and reads zero. *)
Definition blank_image : list Z := repeat 0 (Z.to_nat FLASH_USER_SIZE).

Definition update_from_user1 : World Mock :=
  mock_world (mock_chip [] 0) FLASH_BANK_USER1.

(** ** Worlds and predicates used in the statements *)

(** A scripted chip with no answer queued and no register left
    unacknowledged: every write goes through, every read is answered
    with the fill byte. *)
Definition ideal (w : World Mock) : Prop :=
  mock_answers (bus w) = [] /\ mock_nack (bus w) = [].

(** On the scripted chip with nothing queued the flash operations leave
    the world as it is: [m] succeeds with [a] from [w] and ends in [w]. *)
Definition runs_ok {D A} (m : M D A) (w : World D) (a : A) : Prop :=
  result (m w) = Ok a /\ final (m w) = w.

(** A chip whose write buffer drains while the host oversleeps: the first
    read of MCU_MODE shows WRITE_BUF set, the 1 ms sleep takes two
    seconds longer, and the next read shows it clear. *)
Definition slow_host : World Mock :=
  mock_world {| mock_time := 5000000000; mock_oversleep := 2000000000;
                mock_answers := [Some [0x10]; Some [0x00]];
                mock_fill := 0; mock_nack := [] |} FLASH_BANK_USER1.

(** A chip that stays busy: every read answers 0xFF; the host sleeps
    exactly as long as asked.  The clock samples of a poll that starts
    at 5 s are then 1 ms apart. *)
Definition busy_chip : World Mock :=
  mock_world (mock_chip [] 0xFF) FLASH_BANK_USER1.

Definition busy_rounds (n : nat) : list (timespec * Z) :=
  map (fun k => (mock_clock
                   {| mock_time := 5000000000 + 1000000 * Z.of_nat k;
                      mock_oversleep := 0; mock_answers := [];
                      mock_fill := 0xFF; mock_nack := [] |}, 0xFF))
    (seq 1 n).

(** A bus on which the first read is not answered. *)
Definition dead_bus : World Mock :=
  mock_world (mock_chip [None] 0) FLASH_BANK_USER1.

(** [m] leaves flags, version and active bank as they are. *)
Definition bus_only {D A} (m : M D A) : Prop :=
  forall w,
    flags (final (m w)) = flags w
    /\ version (final (m w)) = version w
    /\ active_bank (final (m w)) = active_bank w.

(** The response of scenario E1: dual bank enabled, diff mode, USER2
    active, versions 2.5 and 3.7. *)
Definition e1_world : World Mock :=
  {| bus := mock_chip [Some [0xCA; 0x09; 0x01; 0x01; 0x02; 0x02; 0x05; 0x03;
                             0x07; 0x00; 0x00]] 0;
     flags := [FWUPD_DEVICE_FLAG_INTERNAL; FWUPD_DEVICE_FLAG_DUAL_IMAGE];
     version := Some "0.0"; active_bank := FLASH_BANK_INVALID |}.

(** Some contents for the uninitialised [info] of the probe. *)
Definition stack_garbage : dual_bank_info :=
  {| is_enabled := true; mode := 77; info_active_bank := 99;
     user1_version := (1, 2); user2_version := (3, 4) |}.



(** Such a chip reading zero everywhere: no busy bit is ever set. *)
Definition ideal0 (w : World Mock) : Prop :=
  ideal w /\ mock_fill (bus w) = 0.

(** Scenario E5: the chip reads back zeros where the image has 0xA5. *)
Definition a5_image : list Z := repeat 0xA5 (Z.to_nat FLASH_USER_SIZE).

(** ** The published version, as the spec words it

    The version is written major, a dot, minor, each a byte in decimal
    without leading zeros.  These definitions follow the spec's words;
    the code's own formatting is [format_version]. *)

Definition decimal_digit (d : Z) : string :=
  String (Ascii.ascii_of_nat (48 + Z.to_nat d)) EmptyString.

Definition decimal_of_byte (x : Z) : string :=
  if x <? 10 then decimal_digit x
  else if x <? 100 then
    String.append (decimal_digit (x / 10)) (decimal_digit (x mod 10))
  else
    String.append (decimal_digit (x / 100))
      (String.append (decimal_digit (x / 10 mod 10))
         (decimal_digit (x mod 10))).

Definition version_text (v : Z * Z) : string :=
  String.append (decimal_of_byte (fst v))
    (String.append "." (decimal_of_byte (snd v))).

(** ** Transfer sizes *)

(** The sizes of the transfers that move [n] bytes, 256 at a time: full
    ones first, then what is left. *)
Definition chunk_sizes (n : Z) : list Z :=
  repeat 256 (Z.to_nat (n / 256))
  ++ (if n mod 256 =? 0 then [] else [n mod 256]).

(** The number of bytes a bus read asks for. *)
Definition read_count (e : event) : option Z :=
  match e with
  | EvPread count _ => Some count
  | _ => None
  end.

(** The progress and the status reports of a run. *)
Definition progress_of (e : event) : option (Z * Z) :=
  match e with
  | EvProgress done total => Some (done, total)
  | _ => None
  end.

Definition status_of (e : event) : option FwupdStatus :=
  match e with
  | EvStatus s => Some s
  | _ => None
  end.

(** The calls of a run other than its debug lines. *)
Definition bus_call (e : event) : option event :=
  match e with
  | EvDebug _ _ => None
  | _ => Some e
  end.

(** ** Failures and their errors *)

(** Every failure of [m] carries a [GError]: [m] never hands back [FALSE]
    or [NULL] without having set one. *)
Definition sets_error {D A} (m : M D A) : Prop :=
  forall w, result (m w) <> Fail None.

(** Every failure of [m] carries a [GError] whose code is one of
    [codes]. *)
Definition fails_with {D A} (codes : list GErrorCode) (m : M D A) : Prop :=
  forall w e,
    result (m w) = Fail e ->
    exists err, e = Some err /\ In (err_code err) codes.

(** [m] comes back, whatever the chip does. *)
Definition returns {D A} (m : M D A) : Prop :=
  forall w, result (m w) <> Diverge.

(** ** Reading a run of the indirect register access *)

(** The acknowledged register writes that point the indirect window at
    [address]. *)
Definition indirect_select (address : Z) : list event :=
  [EvPwrite [REG_INDIRECT_LO; 0x9F] true;
   EvPwrite [REG_INDIRECT_HI; guint8 (Z.shiftr address 8)] true;
   EvPwrite [REG_INDIRECT_LO; guint8 address] true].

(** A read and a write through the window that go through. *)
Definition indirect_read_events (address raw : Z) : list event :=
  indirect_select address ++ read_events REG_INDIRECT_HI raw.

Definition indirect_write_events (address value : Z) : list event :=
  indirect_select address ++ [EvPwrite [REG_INDIRECT_HI; guint8 value] true].

(** The calls of [mst_set_gpio88] when the chip answers every one, the
    configuration register reading [config] and the value register
    [value]. *)
Definition gpio88_events (level : bool) (config value : Z) : list event :=
  indirect_read_events REG_GPIO88_CONFIG config
  ++ indirect_write_events REG_GPIO88_CONFIG
       (Z.lor (Z.land (guint8 config) 0xF0) 1)
  ++ [EvDebug "set pin 88 = %d" [if level then 1 else 0]]
  ++ indirect_read_events REG_GPIO88_VALUE value
  ++ indirect_write_events REG_GPIO88_VALUE
       (Z.lor (Z.land (guint8 value) 0xFE) (if level then 1 else 0)).

(** ** What a hook changes of the device *)

(** [m] leaves the version, the active bank and every flag outside [l]
    as they are. *)
Definition changes_only_flags {D A} (l : list FwupdDeviceFlag) (m : M D A)
    : Prop :=
  forall w,
    (forall f, has_flag f l = false ->
               has_flag f (flags (final (m w))) = has_flag f (flags w))
    /\ version (final (m w)) = version w
    /\ active_bank (final (m w)) = active_bank w.

(** The two halves of [fu_realtek_mst_device_detach]: up to the poll that
    waits for ISP mode, and from the clock speed-up on. *)
Definition detach_enter_isp {D} `{Backend D} (budget : nat) : M D unit :=
  fu_device_set_status FWUPD_STATUS_DEVICE_RESTART ;;
  mst_write_register REG_MCU_MODE MCU_MODE_ISP ;;
  g_debug "wait for ISP mode ready" [] ;;
  mst_poll_register budget REG_MCU_MODE MCU_MODE_ISP MCU_MODE_ISP 60.

Definition detach_after_isp {D} `{Backend D} : M D unit :=
  mst_write_register_indirect 0x06A0 0x74 ;;
  fu_device_add_flag FWUPD_DEVICE_FLAG_IS_BOOTLOADER ;;
  fu_device_set_status FWUPD_STATUS_IDLE ;;
  mst_set_gpio88 true.

(** Is [e] anything but a write to a register outside [regs]? *)
Definition writes_registers_in (regs : list Z) (e : event) : bool :=
  match e with
  | EvPwrite (reg :: _ :: _) _ => existsb (Z.eqb reg) regs
  | _ => true
  end.

(** ** Reading the flash back *)

(** The error of [read_firmware] when no user bank is active. *)
Definition no_user_bank_error (bank : Z) : GError :=
  {| err_code := FWUPD_ERROR_NOT_SUPPORTED;
     err_format := "cannot read firmware from bank %u";
     err_args := [bank] |}.

(** ** Locating the I2C bus

    [fu_realtek_mst_device_locate_bus] walks what udev reports; the
    enumeration itself is not part of the plugin.  A device stands for
    its sysfs path. *)

(** Modelled from the spec: an [i2c] device with what
    [fu_udev_device_get_children_with_subsystem (_, "i2c-dev")] of
    [fu-udev-device.c] finds under it ("child i2c-dev"). *)
Record i2c_device := {
  i2c_path : string;
  i2c_buses : list string
}.

(** Modelled from the spec: a [drm_dp_aux_dev] device the enumerator
    matched by name, with what
    [fu_udev_device_get_siblings_with_subsystem (_, "i2c")] of
    [fu-udev-device.c] finds beside it ("sibling i2c"). *)
Record aux_device := {
  aux_path : string;
  i2c_devices : list i2c_device
}.

(** A [g_debug] line whose arguments are strings and counts. *)
Inductive log_arg :=
| ArgString (s : string)
| ArgUint (n : Z).

Definition log_line : Type := string * list log_arg.

(** A [GError] whose message takes a string. *)
Record GErrorS := {
  errs_code : GErrorCode;
  errs_format : string;
  errs_arg : string
}.

Definition double_quote : string :=
  String (Ascii.ascii_of_nat 34) EmptyString.

(** The format spelled [... DP aux \"%s\"] in C. *)
Definition no_bus_format : string :=
  String.append "did not find an i2c-dev associated with DP aux "
    (String.append double_quote (String.append "%s" double_quote)).

(** The inner [for] loop over [i2c_devices]: the first device with an
    [i2c-dev] child ends it, with the child at index 0. *)
Fixpoint locate_bus_i2c_loop (i2c_devices : list i2c_device)
    : list log_line * option string :=
  match i2c_devices with
  | [] => ([], None)
  | i2c_device :: rest =>
      match i2c_buses i2c_device with
      | [] =>
          let '(log, bus_device) := locate_bus_i2c_loop rest in
          (("no i2c-dev found under %s",
            [ArgString (i2c_path i2c_device)]) :: log, bus_device)
      | bus :: more =>
          ((if (1 <? Z.of_nat (List.length (i2c_buses i2c_device)))
            then [("ignoring %u additional i2c-dev under %s",
                   [ArgUint
                      (Z.of_nat (List.length (i2c_buses i2c_device)) - 1);
                    ArgString (i2c_path i2c_device)])]
            else [])
           ++ [("Found I2C bus at %s", [ArgString bus])],
           Some bus)
      end
  end.

(** The outer [for] loop over [matches]; [bus_device] is the local of
    that name, [None] for [NULL]. *)
Fixpoint locate_bus_loop (matches : list aux_device)
    (bus_device : option string) : list log_line * option string :=
  match matches with
  | [] => ([], bus_device)
  | device :: rest =>
      match bus_device with
      | Some _ =>
          let '(log, found) := locate_bus_loop rest bus_device in
          (("Ignoring additional aux device %s",
            [ArgString (aux_path device)]) :: log, found)
      | None =>
          let '(log1, bus_device) :=
            locate_bus_i2c_loop (i2c_devices device) in
          let '(log2, found) := locate_bus_loop rest bus_device in
          (log1 ++ log2, found)
      end
  end.

Definition fu_realtek_mst_device_locate_bus (dp_aux_dev_name : string)
    (matches : list aux_device) : list log_line * (string + GErrorS) :=
  let '(log, bus_device) := locate_bus_loop matches None in
  match bus_device with
  | None =>
      (log, inr {| errs_code := FWUPD_ERROR_NOT_SUPPORTED;
                   errs_format := no_bus_format;
                   errs_arg := dp_aux_dev_name |})
  | Some bus => (log, inl bus)
  end.

(** The [i2c-dev] buses in the order the loops come to them: per [i2c]
    device the child at index 0, if there is one. *)
Definition candidate_buses (matches : list aux_device) : list string :=
  flat_map (fun device =>
              flat_map (fun i2c_device => firstn 1 (i2c_buses i2c_device))
                (i2c_devices device))
    matches.

(** ** Progress reports *)

(** The reports of a transfer of [total] bytes of which [done] have been
    moved, 256 bytes at a time; [n] bounds their number. *)
Fixpoint progress_from (n : nat) (done total : Z) : list (Z * Z) :=
  match n with
  | O => []
  | S n' =>
      if done <? total then
        let done' := done + chunk_size_of (total - done) in
        (done', total) :: progress_from n' done' total
      else []
  end.

(** Reports that count up to [total] from [from]: each names [total],
    and the amounts done grow by 1 to 256 at a time without passing
    [total]. *)
Fixpoint counts_up (from total : Z) (l : list (Z * Z)) : Prop :=
  match l with
  | [] => True
  | (done, t) :: l' =>
      t = total /\ from < done <= total /\ done - from <= 256
      /\ counts_up done total l'
  end.

(** * Properties *)

(** ** Machine integers *)

Lemma guint8_range x : 0 <= guint8 x < 256.
Proof.
  unfold guint8. change 0xFF with (Z.ones 8).
  rewrite Z.land_ones by lia. apply Z.mod_pos_bound. lia.
Qed.

Lemma guint8_small x : 0 <= x < 256 -> guint8 x = x.
Proof.
  intros H. unfold guint8. change 0xFF with (Z.ones 8).
  rewrite Z.land_ones by lia. apply Z.mod_small. exact H.
Qed.

Lemma guint32_small x : 0 <= x < 2 ^ 32 -> guint32 x = x.
Proof. intros H. apply Z.mod_small. exact H. Qed.

(** ** The monad and the two logics of emitted calls *)

Lemma filter_map_app {X Y} (f : X -> option Y) (l1 l2 : list X) :
  filter_map f (l1 ++ l2) = filter_map f l1 ++ filter_map f l2.
Proof.
  induction l1 as [|x l1 IH]; simpl; [reflexivity|].
  destruct (f x); simpl; rewrite IH; reflexivity.
Qed.

Lemma filter_map_none {X Y} (f : X -> option Y) (l : list X) :
  Forall (fun x => f x = None) l -> filter_map f l = [].
Proof.
  induction 1 as [|x l Hx _ IH]; simpl; [reflexivity|].
  rewrite Hx. exact IH.
Qed.

Section Logic.
Context {D : Type} `{Backend D}.

Lemma bind_ok {A B} (m : M D A) (f : A -> M D B) w a :
  result (m w) = Ok a ->
  bind m f w = {| result := result (f a (final (m w)));
                  final := final (f a (final (m w)));
                  emitted := emitted (m w) ++ emitted (f a (final (m w))) |}.
Proof. intros E. unfold bind. rewrite E. reflexivity. Qed.

Lemma bind_fail {A B} (m : M D A) (f : A -> M D B) w e :
  result (m w) = Fail e ->
  bind m f w = {| result := Fail e; final := final (m w);
                  emitted := emitted (m w) |}.
Proof. intros E. unfold bind. rewrite E. reflexivity. Qed.

Lemma bind_diverge {A B} (m : M D A) (f : A -> M D B) w :
  result (m w) = Diverge ->
  bind m f w = {| result := Diverge; final := final (m w);
                  emitted := emitted (m w) |}.
Proof. intros E. unfold bind. rewrite E. reflexivity. Qed.

Lemma bind_assoc_run {A B C} (m : M D A) (f : A -> M D B) (g : B -> M D C) w :
  bind (bind m f) g w = bind m (fun x => bind (f x) g) w.
Proof.
  unfold bind. destruct (result (m w)) as [a| |]; cbn [result final emitted];
    try reflexivity.
  destruct (result (f a (final (m w)))) as [b| |];
    cbn [result final emitted]; try reflexivity.
  rewrite app_assoc. reflexivity.
Qed.

Lemma emitted_bind_prefix {A B} (m : M D A) (f : A -> M D B) w :
  exists tail, emitted (bind m f w) = emitted (m w) ++ tail.
Proof.
  unfold bind. destruct (result (m w)); simpl.
  - eexists. reflexivity.
  - exists []. rewrite app_nil_r. reflexivity.
  - exists []. rewrite app_nil_r. reflexivity.
Qed.

Lemma emitted_pwrite_full data w :
  exists ok, emitted (fu_udev_device_pwrite_full data w) = [EvPwrite data ok].
Proof.
  unfold fu_udev_device_pwrite_full.
  destruct (bus_pwrite data (bus w)) as [ok d]. exists ok. reflexivity.
Qed.

Lemma emits_ret {A} P (a : A) : emits P (ret (D := D) a).
Proof. intros w. constructor. Qed.

Lemma emits_fail {A} P e : emits P (fail (D := D) (A := A) e).
Proof. intros w. constructor. Qed.

Lemma emits_diverge {A} P : emits P (diverge (D := D) (A := A)).
Proof. intros w. constructor. Qed.

Lemma emits_bind {A B} P (m : M D A) (f : A -> M D B) :
  emits P m -> (forall a, emits P (f a)) -> emits P (bind m f).
Proof.
  intros Hm Hf w. unfold bind.
  destruct (result (m w)) as [a| |]; simpl; try apply Hm.
  apply Forall_app. split; [apply Hm | apply Hf].
Qed.

Lemma emits_emit P e : P e -> emits P (emit (D := D) e).
Proof. intros He w. repeat constructor. exact He. Qed.

Lemma emits_g_debug P format args :
  P (EvDebug format args) -> emits P (g_debug (D := D) format args).
Proof. apply emits_emit. Qed.

Lemma emits_set_status P s :
  P (EvStatus s) -> emits P (fu_device_set_status (D := D) s).
Proof. apply emits_emit. Qed.

Lemma emits_set_progress P a b :
  P (EvProgress a b) -> emits P (fu_device_set_progress_full (D := D) a b).
Proof. apply emits_emit. Qed.

Lemma emits_g_set_error {A} P code format args :
  emits P (g_set_error (D := D) (A := A) code format args).
Proof. intros w. constructor. Qed.

Lemma emits_g_return_val_if_fail P c :
  emits P (g_return_val_if_fail (D := D) c).
Proof. destruct c; intros w; constructor. Qed.

Lemma emits_ignore_result {A} P (m : M D A) :
  emits P m -> emits P (ignore_result m).
Proof.
  intros Hm w. unfold ignore_result.
  destruct (result (m w)) as [a|e|]; simpl; apply Hm.
Qed.

Lemma emits_g_prefix_error {A} P format args (m : M D A) :
  emits P m -> emits P (g_prefix_error format args m).
Proof.
  intros Hm w. unfold g_prefix_error.
  destruct (result (m w)) as [a|[e|]|]; simpl; apply Hm.
Qed.

Lemma emits_pwrite_full P data :
  (forall ok, P (EvPwrite data ok)) ->
  emits P (fu_udev_device_pwrite_full data).
Proof.
  intros HP w. unfold fu_udev_device_pwrite_full.
  destruct (bus_pwrite data (bus w)) as [ok d]. simpl.
  repeat constructor. apply HP.
Qed.

Lemma emits_pread_full P count :
  (forall answer, P (EvPread count answer)) ->
  emits P (fu_udev_device_pread_full count).
Proof.
  intros HP w. unfold fu_udev_device_pread_full.
  destruct (bus_pread count (bus w)) as [answer d]. simpl.
  repeat constructor. apply HP.
Qed.

Lemma emits_g_usleep P us :
  P (EvUsleep us) -> emits P (g_usleep us).
Proof. intros HP w. repeat constructor. exact HP. Qed.

Lemma emits_clock_gettime P :
  (forall now, P (EvClock now)) -> emits P clock_gettime.
Proof. intros HP w. repeat constructor. apply HP. Qed.

Lemma emits_add_flag P f : emits P (fu_device_add_flag (D := D) f).
Proof. intros w. constructor. Qed.

Lemma emits_remove_flag P f : emits P (fu_device_remove_flag (D := D) f).
Proof. intros w. constructor. Qed.

Lemma emits_set_version P v : emits P (fu_device_set_version (D := D) v).
Proof. intros w. constructor. Qed.

Lemma emits_set_active_bank P b : emits P (set_active_bank (D := D) b).
Proof. intros w. constructor. Qed.

Lemma emits_get_active_bank P : emits P (get_active_bank (D := D)).
Proof. intros w. constructor. Qed.

Lemma emits_mst_write_register P address value :
  (forall ok, P (EvPwrite [guint8 address; guint8 value] ok)) ->
  emits P (mst_write_register address value).
Proof. intros HP. apply emits_pwrite_full. exact HP. Qed.

Lemma emits_mst_write_register_multi P address data :
  (forall ok, P (EvPwrite (guint8 address :: data) ok)) ->
  emits P (mst_write_register_multi address data).
Proof. intros HP. apply emits_pwrite_full. exact HP. Qed.

Lemma emits_pwrite P b :
  poll_quiet P -> emits P (fu_udev_device_pwrite b).
Proof. intros (Hw & _). apply emits_pwrite_full. intros ok. apply Hw. Qed.

Lemma emits_pread P :
  poll_quiet P -> emits P fu_udev_device_pread.
Proof.
  intros (_ & Hr & _). apply emits_bind.
  - apply emits_pread_full. intros a. apply Hr.
  - intros a. apply emits_ret.
Qed.

Lemma emits_mst_read_register P address :
  poll_quiet P -> emits P (mst_read_register address).
Proof.
  intros HP. apply emits_bind.
  - apply emits_pwrite. exact HP.
  - intros _. apply emits_pread. exact HP.
Qed.

Lemma emits_mst_poll_register_loop P budget address mask expected deadline :
  poll_quiet P ->
  forall value now,
    emits P (mst_poll_register_loop budget address mask expected deadline
               value now).
Proof.
  intros HP. induction budget as [|b IH]; intros value now; simpl;
    destruct (poll_pending mask expected deadline value now);
    try apply emits_ret; try apply emits_diverge.
  apply emits_bind; [apply emits_g_usleep; apply HP|intros _].
  apply emits_bind; [apply emits_clock_gettime; apply HP|intros now'].
  apply emits_bind; [apply emits_mst_read_register; exact HP|intros v'].
  apply IH.
Qed.

Lemma emits_mst_poll_register P budget address mask expected timeout :
  poll_quiet P ->
  emits P (mst_poll_register budget address mask expected timeout).
Proof.
  intros HP. unfold mst_poll_register.
  apply emits_bind; [apply emits_clock_gettime; apply HP|intros now].
  apply emits_bind; [apply emits_mst_read_register; exact HP|intros v].
  apply emits_bind; [apply emits_mst_poll_register_loop; exact HP|intros v'].
  destruct (Z.land v' mask =? expected);
    [apply emits_ret | apply emits_g_set_error].
Qed.

(** *** Scripts *)

Lemma scripted_ret {A X} (proj : event -> option X) (a : A) :
  scripted proj [] (ret (D := D) a).
Proof. intros w. split; [exists []|]; reflexivity. Qed.

Lemma scripted_fail {A X} (proj : event -> option X) s e :
  scripted proj s (fail (D := D) (A := A) e).
Proof. intros w. split; [exists s; reflexivity|discriminate]. Qed.

Lemma scripted_diverge {A X} (proj : event -> option X) s :
  scripted proj s (diverge (D := D) (A := A)).
Proof. intros w. split; [exists s; reflexivity|discriminate]. Qed.

Lemma scripted_bind {A B X} (proj : event -> option X) s1 s2
    (m : M D A) (f : A -> M D B) :
  scripted proj s1 m -> (forall a, scripted proj s2 (f a)) ->
  scripted proj (s1 ++ s2) (bind m f).
Proof.
  intros Hm Hf w. destruct (Hm w) as [[rest1 E1] K1].
  unfold bind. destruct (result (m w)) as [a| |] eqn:R; simpl.
  - specialize (K1 eq_refl). destruct (Hf a (final (m w))) as [[rest2 E2] K2].
    rewrite filter_map_app, K1. split.
    + exists rest2. rewrite <- app_assoc, E2. reflexivity.
    + intros Hok. rewrite (K2 Hok). reflexivity.
  - split; [|discriminate]. exists (rest1 ++ s2).
    rewrite app_assoc, E1. reflexivity.
  - split; [|discriminate]. exists (rest1 ++ s2).
    rewrite app_assoc, E1. reflexivity.
Qed.

Lemma scripted_silent {A X} (proj : event -> option X) (m : M D A) :
  emits (fun e => proj e = None) m -> scripted proj [] m.
Proof.
  intros Hm w. rewrite (filter_map_none proj (emitted (m w)) (Hm w)).
  split; [exists []|]; reflexivity.
Qed.

Lemma scripted_bind_silent {A B X} (proj : event -> option X) s
    (m : M D A) (f : A -> M D B) :
  emits (fun e => proj e = None) m -> (forall a, scripted proj s (f a)) ->
  scripted proj s (bind m f).
Proof.
  intros Hm Hf. apply (scripted_bind proj [] s).
  - apply scripted_silent. exact Hm.
  - exact Hf.
Qed.

Lemma scripted_bind_cons {A B X} (proj : event -> option X) x s
    (m : M D A) (f : A -> M D B) :
  scripted proj [x] m -> (forall a, scripted proj s (f a)) ->
  scripted proj (x :: s) (bind m f).
Proof. intros Hm Hf. apply (scripted_bind proj [x] s); assumption. Qed.

Lemma scripted_g_prefix_error {A X} (proj : event -> option X) s format args
    (m : M D A) :
  scripted proj s m -> scripted proj s (g_prefix_error format args m).
Proof.
  intros Hm w. unfold g_prefix_error. specialize (Hm w).
  destruct (result (m w)) as [a|[e|]|] eqn:R; simpl;
    try (rewrite <- R in Hm; exact Hm).
  split; [apply Hm|discriminate].
Qed.

Lemma scripted_reg_write address value :
  scripted reg_write [[guint8 address; guint8 value]]
    (mst_write_register address value).
Proof.
  intros w. unfold mst_write_register, fu_udev_device_pwrite_full.
  destruct (bus_pwrite _ (bus w)) as [ok d]. simpl.
  split; [exists []|]; reflexivity.
Qed.

Lemma scripted_reg_write_multi address b data :
  scripted reg_write [guint8 address :: b :: data]
    (mst_write_register_multi address (b :: data)).
Proof.
  intros w. unfold mst_write_register_multi, fu_udev_device_pwrite_full.
  destruct (bus_pwrite _ (bus w)) as [ok d]. simpl.
  split; [exists []|]; reflexivity.
Qed.

Lemma poll_quiet_reg_write : poll_quiet (fun e => reg_write e = None).
Proof. repeat split. Qed.

Lemma poll_quiet_bus_read_free P :
  (forall b ok, P (EvPwrite [b] ok)) ->
  (forall count answer, P (EvPread count answer)) ->
  (forall now, P (EvClock now)) ->
  (forall us, P (EvUsleep us)) ->
  poll_quiet P.
Proof. intros. repeat split; assumption. Qed.

End Logic.

(** Walk down a chain of binds whose register writes are listed in the
    script of the goal. *)
Ltac script_step :=
  lazymatch goal with
  | |- scripted reg_write _ (bind (mst_write_register _ _) _) =>
      apply scripted_bind_cons; [apply scripted_reg_write|intros _]
  | |- scripted reg_write _ (bind (mst_poll_register _ _ _ _ _) _) =>
      apply scripted_bind_silent;
      [apply emits_mst_poll_register; apply poll_quiet_reg_write|intros _]
  | |- scripted reg_write _ (bind (g_return_val_if_fail ?c) _) =>
      apply scripted_bind_silent;
      [apply emits_g_return_val_if_fail|intros _]
  | |- scripted reg_write _ (bind (g_debug _ _) _) =>
      apply scripted_bind_silent;
      [apply emits_g_debug; reflexivity|intros _]
  | |- scripted reg_write _ (bind (fu_udev_device_pwrite _) _) =>
      apply scripted_bind_silent;
      [apply emits_pwrite; apply poll_quiet_reg_write|intros _]
  | |- scripted reg_write _ (bind fu_udev_device_pread _) =>
      apply scripted_bind_silent;
      [apply emits_pread; apply poll_quiet_reg_write|intros ?]
  | |- scripted reg_write _ (bind (fu_device_set_progress_full _ _) _) =>
      apply scripted_bind_silent;
      [apply emits_set_progress; reflexivity|intros _]
  end.

(** ** Register scripts of the flash interface *)

Lemma guint8_mod x : guint8 x = x mod 256.
Proof.
  unfold guint8. change 0xFF with (Z.ones 8).
  rewrite Z.land_ones by lia. reflexivity.
Qed.

Lemma guint8_shiftr x n : 0 <= n -> guint8 (Z.shiftr x n) = (x / 2 ^ n) mod 256.
Proof. intros Hn. rewrite guint8_mod, Z.shiftr_div_pow2 by lia. reflexivity. Qed.

Lemma read_address_wrap address :
  Z.land (guint32 (address - 1)) 0xFFFFFF = (address - 1) mod 2 ^ 24.
Proof.
  unfold guint32. change 0xFFFFFF with (Z.ones 24).
  rewrite Z.land_ones by lia.
  apply Z.mod_mod_divide. exists (2 ^ 8). reflexivity.
Qed.

Section Scripts.
Context {D : Type} `{Backend D}.

Lemma emits_read_loop_reg_write n buf_size :
  forall bytes_read,
    emits (fun e => reg_write e = None)
      (flash_iface_read_loop n buf_size bytes_read).
Proof.
  induction n as [|n IH]; intros bytes_read; simpl;
    destruct (bytes_read <? buf_size);
    try apply emits_ret; try apply emits_diverge.
  apply emits_bind; [apply emits_pread_full; reflexivity|intros chunk].
  apply emits_bind; [apply emits_set_progress; reflexivity|intros _].
  apply emits_bind; [apply IH|intros rest]. apply emits_ret.
Qed.

Lemma set_address_script_eq a :
  set_address_script a =
  [[guint8 REG_CMD_ADDR_HI; guint8 (Z.shiftr a 16)];
   [guint8 REG_CMD_ADDR_MID; guint8 (Z.shiftr a 8)];
   [guint8 REG_CMD_ADDR_LO; guint8 a]].
Proof.
  unfold set_address_script.
  rewrite !guint8_shiftr by lia. rewrite (guint8_mod a). reflexivity.
Qed.

Lemma flash_iface_read_script address buf_size :
  scripted reg_write (read_script address)
    (flash_iface_read address buf_size).
Proof.
  unfold flash_iface_read, read_script.
  rewrite read_address_wrap, set_address_script_eq. simpl app.
  do 3 script_step. do 4 script_step. do 2 script_step.
  apply scripted_silent. apply emits_read_loop_reg_write.
Qed.

Lemma flash_iface_erase_sector_script budget address :
  scripted reg_write (erase_sector_script address)
    (flash_iface_erase_sector budget address).
Proof.
  unfold flash_iface_erase_sector, erase_sector_script.
  rewrite set_address_script_eq. simpl app.
  do 2 script_step. do 6 script_step.
  apply scripted_silent. apply emits_mst_poll_register.
  apply poll_quiet_reg_write.
Qed.

Lemma flash_iface_erase_block_script budget address :
  scripted reg_write (erase_block_script address)
    (flash_iface_erase_block budget address).
Proof.
  unfold flash_iface_erase_block, erase_block_script.
  change 65536 with (2 ^ 16). rewrite <- (guint8_shiftr address 16) by lia.
  do 2 script_step. do 6 script_step.
  apply scripted_silent. apply emits_mst_poll_register.
  apply poll_quiet_reg_write.
Qed.

Lemma pages_nil n address : pages n address [] = [].
Proof. destruct n; reflexivity. Qed.

Lemma flash_iface_write_chunk_script budget address chunk_size data :
  1 <= chunk_size <= 256 ->
  chunk_size <= Z.of_nat (List.length data) ->
  scripted reg_write
    (page_write_script address (firstn (Z.to_nat chunk_size) data))
    (flash_iface_write_chunk budget address chunk_size data).
Proof.
  intros Hc Hd. unfold flash_iface_write_chunk, page_write_script.
  rewrite set_address_script_eq. simpl app.
  rewrite length_firstn, Nat.min_l by lia.
  rewrite Z2Nat.id by lia.
  rewrite <- (guint8_small (chunk_size - 1)) at 1 by lia.
  do 5 script_step. script_step.
  destruct (firstn (Z.to_nat chunk_size) data) as [|b chunk] eqn:E.
  { apply (f_equal (@List.length Z)) in E.
    rewrite length_firstn, Nat.min_l in E by lia. simpl in E. lia. }
  apply scripted_bind_cons; [apply scripted_reg_write_multi|intros _].
  script_step.
  apply scripted_g_prefix_error. apply scripted_silent.
  apply emits_mst_poll_register. apply poll_quiet_reg_write.
Qed.

Lemma flash_iface_write_loop_script budget total_size :
  forall n data address,
    (List.length data <= n)%nat ->
    scripted reg_write
      (flat_map (fun p => page_write_script (fst p) (snd p))
         (pages n address data))
      (flash_iface_write_loop n budget total_size
         (Z.of_nat (List.length data)) address data).
Proof.
  induction n as [|n IH]; intros data address Hn.
  - destruct data; [|simpl in Hn; lia]. simpl. apply scripted_ret.
  - destruct data as [|b data'].
    { simpl. apply scripted_ret. }
    set (data := b :: data') in *.
    assert (Hlen : 0 < Z.of_nat (List.length data)) by (subst data; simpl; lia).
    cbn [flash_iface_write_loop].
    replace (Z.of_nat (List.length data) >? 0) with true
      by (symmetry; apply Z.gtb_lt; lia).
    change (pages (S n) address data)
      with ((address, firstn 256 data)
            :: pages n (guint32 (address + 256)) (skipn 256 data)).
    cbn [flat_map fst snd].
    unfold chunk_size_of.
    destruct (Z.of_nat (List.length data) >? 256) eqn:Hbig.
    + apply Z.gtb_lt in Hbig.
      apply scripted_bind.
      * change 256%nat with (Z.to_nat 256).
        apply flash_iface_write_chunk_script; lia.
      * intros _. script_step.
        change (Z.to_nat 256) with 256%nat.
        replace (Z.of_nat (List.length data) - 256)
          with (Z.of_nat (List.length (skipn 256 data)))
          by (rewrite length_skipn; lia).
        apply IH. rewrite length_skipn. lia.
    + assert (Hsmall : Z.of_nat (List.length data) <= 256)
        by (destruct (Z.gtb_spec (Z.of_nat (List.length data)) 256);
            [discriminate|lia]).
      rewrite Nat2Z.id.
      rewrite (firstn_all2 (n := 256)) by lia.
      rewrite (skipn_all2 (n := 256)) by lia.
      rewrite pages_nil. cbn [flat_map]. rewrite app_nil_r.
      apply (scripted_bind reg_write (page_write_script address data) []).
      * rewrite <- (firstn_all data) at 1.
        rewrite <- (Nat2Z.id (List.length data)) at 1.
        apply flash_iface_write_chunk_script; lia.
      * intros _. script_step.
        rewrite skipn_all, Z.sub_diag.
        destruct n; simpl; apply scripted_ret.
Qed.

Lemma flash_iface_write_script budget address data :
  scripted reg_write (write_script address data)
    (flash_iface_write budget address data).
Proof.
  unfold flash_iface_write, write_script.
  script_step. apply flash_iface_write_loop_script. lia.
Qed.

(** *** What a successful read delivers *)

Lemma bind_ok_inv {A B} (m : M D A) (f : A -> M D B) w b :
  result (bind m f w) = Ok b ->
  exists a,
    result (m w) = Ok a
    /\ result (f a (final (m w))) = Ok b
    /\ emitted (bind m f w) = emitted (m w) ++ emitted (f a (final (m w)))
    /\ final (bind m f w) = final (f a (final (m w))).
Proof.
  unfold bind. destruct (result (m w)) as [a| |] eqn:R; simpl;
    try discriminate.
  intros E. exists a. repeat split. exact E.
Qed.

Lemma pread_full_ok_inv count w bytes :
  result (fu_udev_device_pread_full count w) = Ok bytes ->
  exists raw,
    emitted (fu_udev_device_pread_full count w) = [EvPread count (Some raw)]
    /\ bytes = map guint8 raw
    /\ Z.of_nat (List.length raw) = count.
Proof.
  unfold fu_udev_device_pread_full.
  destruct (bus_pread count (bus w)) as [[raw|] d]; simpl; try discriminate.
  destruct (Z.eqb_spec (Z.of_nat (List.length raw)) count); simpl;
    try discriminate.
  intros E. inversion E. exists raw. repeat split. assumption.
Qed.

Lemma bus_reads_silent {A} (m : M D A) w :
  emits (fun e => bus_read e = None) m ->
  filter_map bus_read (emitted (m w)) = [].
Proof. intros Hm. apply filter_map_none. apply Hm. Qed.

Lemma flash_iface_read_loop_ok n buf_size :
  forall bytes_read w buf,
    bytes_read <= buf_size ->
    result (flash_iface_read_loop n buf_size bytes_read w) = Ok buf ->
    exists chunks,
      bus_reads (emitted (flash_iface_read_loop n buf_size bytes_read w))
      = map (fun c => (Z.of_nat (List.length c), Some c)) chunks
      /\ buf = map guint8 (List.concat chunks)
      /\ Forall (fun c => 1 <= Z.of_nat (List.length c) <= 256) chunks
      /\ Z.of_nat (List.length buf) = buf_size - bytes_read.
Proof.
  induction n as [|n IH]; intros bytes_read w buf Hle; simpl;
    destruct (Z.ltb_spec bytes_read buf_size) as [Hlt|Hge].
  - discriminate.
  - intros E. inversion E. exists []. simpl. repeat split; [constructor|lia].
  - intros E.
    apply bind_ok_inv in E. destruct E as (chunk & R1 & E & Em1 & _).
    apply bind_ok_inv in E. destruct E as ([] & _ & E & Em2 & _).
    apply bind_ok_inv in E. destruct E as (rest & R3 & E & Em3 & _).
    inversion E; subst buf; clear E.
    apply pread_full_ok_inv in R1. destruct R1 as (raw & Er & -> & Hraw).
    set (read_len := if buf_size - bytes_read >? 256 then 256
                     else buf_size - bytes_read) in *.
    assert (Hrl : 1 <= read_len <= 256 /\ bytes_read + read_len <= buf_size).
    { subst read_len.
      destruct (Z.gtb_spec (buf_size - bytes_read) 256); lia. }
    apply IH in R3; [|lia]. destruct R3 as (chunks & Eb & -> & Hf & Hl).
    exists (raw :: chunks). rewrite Em1, Em2, Em3, Er.
    unfold bus_reads in *. rewrite !filter_map_app, Eb. simpl.
    rewrite Hraw, map_app, app_nil_r.
    repeat split.
    + constructor; [lia|exact Hf].
    + rewrite length_app, Nat2Z.inj_add, length_map, Hl. lia.
  - intros E. inversion E. exists []. simpl. repeat split; [constructor|lia].
Qed.

Lemma flash_iface_read_ok address buf_size w buf :
  0 <= buf_size ->
  result (flash_iface_read address buf_size w) = Ok buf ->
  exists discarded chunks,
    bus_reads (emitted (flash_iface_read address buf_size w))
    = (1, Some [discarded])
      :: map (fun c => (Z.of_nat (List.length c), Some c)) chunks
    /\ buf = map guint8 (List.concat chunks)
    /\ Forall (fun c => 1 <= Z.of_nat (List.length c) <= 256) chunks
    /\ Z.of_nat (List.length buf) = buf_size.
Proof.
  intros Hs E. unfold flash_iface_read in *. cbv zeta in E |- *.
  apply bind_ok_inv in E. destruct E as ([] & _ & E & Em1 & _).
  apply bind_ok_inv in E. destruct E as ([] & _ & E & Em2 & _).
  apply bind_ok_inv in E. destruct E as ([] & _ & E & Em3 & _).
  apply bind_ok_inv in E. destruct E as ([] & _ & E & Em4 & _).
  apply bind_ok_inv in E. destruct E as ([] & _ & E & Em5 & _).
  apply bind_ok_inv in E. destruct E as ([] & _ & E & Em6 & _).
  apply bind_ok_inv in E. destruct E as ([] & _ & E & Em7 & _).
  apply bind_ok_inv in E. destruct E as ([] & _ & E & Em8 & _).
  apply bind_ok_inv in E. destruct E as (byte & R9 & E & Em9 & _).
  unfold fu_udev_device_pread in R9.
  apply bind_ok_inv in R9. destruct R9 as (bytes & R9 & _ & Em9' & _).
  apply pread_full_ok_inv in R9. destruct R9 as (raw & Er & -> & Hraw).
  destruct raw as [|discarded [|? ?]]; simpl in Hraw; try lia.
  apply flash_iface_read_loop_ok in E; [|lia].
  destruct E as (chunks & Eb & -> & Hf & Hl).
  exists discarded, chunks.
  rewrite Em1, Em2, Em3, Em4, Em5, Em6, Em7, Em8, Em9.
  unfold fu_udev_device_pread at 1. rewrite Em9', Er.
  unfold bus_reads in *. rewrite !filter_map_app.
  rewrite Eb.
  repeat match goal with
         | |- context [filter_map bus_read (emitted (?m ?w))] =>
             rewrite (bus_reads_silent (A := unit) m w)
               by first [ apply emits_g_return_val_if_fail
                        | apply emits_g_debug; reflexivity
                        | apply emits_pwrite_full; reflexivity ]
         end.
  simpl. repeat split; [exact Hf|lia].
Qed.

End Scripts.

(** ** Runs on the scripted chip *)

Lemma with_bus_same {D} (w : World D) : with_bus (bus w) w = w.
Proof. destruct w. reflexivity. Qed.

Lemma runs_ok_bind {D A B} (m : M D A) (f : A -> M D B) w a b :
  runs_ok m w a -> runs_ok (f a) w b -> runs_ok (bind m f) w b.
Proof.
  intros [R F] [R' F']. unfold runs_ok, bind. rewrite R. simpl.
  rewrite F. split; assumption.
Qed.

Lemma runs_ok_ret {D A} (a : A) (w : World D) : runs_ok (ret a) w a.
Proof. split; reflexivity. Qed.

Lemma runs_ok_emit {D} e (w : World D) : runs_ok (emit e) w tt.
Proof. split; reflexivity. Qed.

Lemma runs_ok_g_return_val_if_fail {D} c (w : World D) :
  c = true -> runs_ok (g_return_val_if_fail c) w tt.
Proof. intros ->. split; reflexivity. Qed.

Lemma ideal_pwrite_full data w :
  ideal w -> runs_ok (fu_udev_device_pwrite_full data) w tt.
Proof.
  intros [_ Hn]. unfold runs_ok, fu_udev_device_pwrite_full. simpl.
  unfold mock_pwrite. rewrite Hn.
  destruct data as [|a [|b l]]; simpl; rewrite with_bus_same; split;
    reflexivity.
Qed.

Lemma ideal_pread_full count w :
  ideal w -> 0 <= count ->
  runs_ok (fu_udev_device_pread_full count) w
    (repeat (guint8 (mock_fill (bus w))) (Z.to_nat count)).
Proof.
  intros [Ha _] Hc. unfold runs_ok, fu_udev_device_pread_full. simpl.
  unfold mock_pread. rewrite Ha, repeat_length, Z2Nat.id by lia.
  rewrite Z.eqb_refl, with_bus_same, map_repeat. split; reflexivity.
Qed.

Lemma ideal_mst_write_register address value w :
  ideal w -> runs_ok (mst_write_register address value) w tt.
Proof. apply ideal_pwrite_full. Qed.

Lemma ideal_mst_read_register address w :
  ideal w ->
  runs_ok (mst_read_register address) w (guint8 (mock_fill (bus w))).
Proof.
  intros Hi. unfold mst_read_register, fu_udev_device_pwrite,
    fu_udev_device_pread.
  eapply runs_ok_bind; [apply ideal_pwrite_full; exact Hi|].
  eapply runs_ok_bind; [apply ideal_pread_full; [exact Hi|lia]|].
  apply runs_ok_ret.
Qed.

Lemma ideal_read_loop buf_size :
  forall n bytes_read w,
    ideal w -> 0 <= bytes_read <= buf_size ->
    (Z.to_nat (buf_size - bytes_read) <= n)%nat ->
    runs_ok (flash_iface_read_loop n buf_size bytes_read) w
      (repeat (guint8 (mock_fill (bus w)))
         (Z.to_nat (buf_size - bytes_read))).
Proof.
  induction n as [|n IH]; intros bytes_read w Hi Hb Hn; simpl;
    destruct (Z.ltb_spec bytes_read buf_size) as [Hlt|Hge].
  - lia.
  - replace (buf_size - bytes_read) with 0 by lia. apply runs_ok_ret.
  - set (read_len := if buf_size - bytes_read >? 256 then 256
                     else buf_size - bytes_read).
    assert (Hrl : 1 <= read_len /\ bytes_read + read_len <= buf_size).
    { subst read_len.
      destruct (Z.gtb_spec (buf_size - bytes_read) 256); lia. }
    eapply runs_ok_bind; [apply ideal_pread_full; [exact Hi|lia]|].
    eapply runs_ok_bind; [apply runs_ok_emit|].
    eapply runs_ok_bind; [apply IH; [exact Hi|lia|lia]|].
    rewrite <- repeat_app.
    replace (Z.to_nat read_len + Z.to_nat (buf_size - (bytes_read + read_len)))%nat
      with (Z.to_nat (buf_size - bytes_read)) by lia.
    apply runs_ok_ret.
  - replace (buf_size - bytes_read) with 0 by lia. apply runs_ok_ret.
Qed.

Lemma ideal_flash_iface_read address buf_size w :
  ideal w -> address < FLASH_SIZE -> 0 <= buf_size <= FLASH_SIZE ->
  runs_ok (flash_iface_read address buf_size) w
    (repeat (guint8 (mock_fill (bus w))) (Z.to_nat buf_size)).
Proof.
  intros Hi Ha Hs. unfold flash_iface_read.
  eapply runs_ok_bind;
    [apply runs_ok_g_return_val_if_fail; apply Z.ltb_lt; lia|].
  eapply runs_ok_bind;
    [apply runs_ok_g_return_val_if_fail; apply Z.leb_le; lia|].
  eapply runs_ok_bind; [apply runs_ok_emit|]. cbv zeta.
  do 4 (eapply runs_ok_bind; [apply ideal_mst_write_register; exact Hi|]).
  eapply runs_ok_bind; [apply ideal_pwrite_full; exact Hi|].
  eapply runs_ok_bind.
  { eapply runs_ok_bind; [apply ideal_pread_full; [exact Hi|lia]|].
    apply runs_ok_ret. }
  pose proof (ideal_read_loop buf_size (Z.to_nat buf_size) 0 w Hi) as L.
  rewrite Z.sub_0_r in L. apply L; lia.
Qed.

(** ** Flash interface: order of the register writes *)

Lemma address_first_from_prefix l1 l2 :
  forall seen,
    address_first_from seen (l1 ++ l2) = true ->
    address_first_from seen l1 = true.
Proof.
  induction l1 as [|t l1 IH]; intros seen; [reflexivity|].
  cbn [address_first_from app].
  destruct (existsb (Z.eqb (hd 0 t)) command_registers).
  - intros E. apply andb_true_iff in E. destruct E as [E1 E2].
    rewrite E1. simpl. apply IH. exact E2.
  - repeat match goal with
           | |- context [if ?c then _ else _] => destruct c
           end; apply IH.
Qed.

Lemma address_first_scripted {D} `{Backend D} {A} s (m : M D A) w :
  scripted reg_write s m -> address_first s = true ->
  address_first (reg_writes (emitted (m w))) = true.
Proof.
  intros Hs Ha. destruct (Hs w) as [[rest E] _].
  unfold address_first in *. rewrite <- E in Ha.
  apply address_first_from_prefix in Ha. exact Ha.
Qed.

(** The sequence of registers one page write goes through. *)
Lemma page_write_script_registers address chunk :
  map (hd 0) (page_write_script address chunk)
  = [REG_WRITE_OPCODE; REG_WRITE_LEN; REG_CMD_ADDR_HI; REG_CMD_ADDR_MID;
     REG_CMD_ADDR_LO; REG_WRITE_FIFO; REG_MCU_MODE].
Proof. reflexivity. Qed.

(** C3, as stated, fails on page writes: writing one byte on a chip that
    acknowledges everything, the first register written is the write
    opcode, before any address byte. *)
Lemma page_write_opcode_precedes_address :
  reg_writes (emitted (flash_iface_write 3 0x80000 [0xA5]
                         (mock_world (mock_chip [] 0) FLASH_BANK_USER1)))
  = [[REG_WRITE_OPCODE; CMD_OPCODE_WRITE]; [REG_WRITE_LEN; 0];
     [REG_CMD_ADDR_HI; 0x08]; [REG_CMD_ADDR_MID; 0]; [REG_CMD_ADDR_LO; 0];
     [REG_WRITE_FIFO; 0xA5]; [REG_MCU_MODE; 0xA0]]
  /\ address_first
       (reg_writes (emitted (flash_iface_write 3 0x80000 [0xA5]
                               (mock_world (mock_chip [] 0)
                                  FLASH_BANK_USER1))))
     = false.
Proof. split; vm_compute; reflexivity. Qed.

(** C3 (amended): whatever the chip does, read, sector erase and block
    erase write the address bytes HI, MID, LO, in that order, before any
    opcode or ATTR register; a page write goes, page after page, through
    write opcode, WRITE_LEN, then HI, MID, LO, then the FIFO burst and the
    MCU_MODE start. *)
Theorem flash_scripts_address_order {D} `{Backend D} (budget : nat)
    (address buf_size : Z) (data : list Z) (w : World D) :
  address_first
    (reg_writes (emitted (flash_iface_read address buf_size w))) = true
  /\ address_first
       (reg_writes (emitted (flash_iface_erase_sector budget address w)))
     = true
  /\ address_first
       (reg_writes (emitted (flash_iface_erase_block budget address w)))
     = true
  /\ (exists rest,
        reg_writes (emitted (flash_iface_write budget address data w)) ++ rest
        = flat_map (fun p => page_write_script (fst p) (snd p))
            (pages (List.length data) address data))
  /\ (forall a chunk,
        map (hd 0) (page_write_script a chunk)
        = [REG_WRITE_OPCODE; REG_WRITE_LEN; REG_CMD_ADDR_HI;
           REG_CMD_ADDR_MID; REG_CMD_ADDR_LO; REG_WRITE_FIFO; REG_MCU_MODE]).
Proof.
  repeat split.
  - apply (address_first_scripted (read_script address));
      [apply flash_iface_read_script|reflexivity].
  - apply (address_first_scripted (erase_sector_script address));
      [apply flash_iface_erase_sector_script|reflexivity].
  - apply (address_first_scripted (erase_block_script address));
      [apply flash_iface_erase_block_script|reflexivity].
  - apply (flash_iface_write_script budget address data w).
Qed.

(** ** Flash interface: reads *)




(** C10: the two preconditions of [flash_iface_read] are checked one by
    one.  A call with [address >= FLASH_SIZE] or [buf_size > FLASH_SIZE]
    returns [FALSE] before anything reaches the bus; every other call gets
    as far as the first register write, and on a chip that acknowledges
    everything it delivers [buf_size] bytes, also when
    [address + buf_size] lies beyond the end of the flash. *)
Theorem flash_iface_read_preconditions (address buf_size : Z) :
  (forall D (B : Backend D) (w : World D),
     FLASH_SIZE <= address \/ FLASH_SIZE < buf_size ->
     flash_iface_read address buf_size w
     = {| result := Fail None; final := w; emitted := [] |})
  /\ (forall D (B : Backend D) (w : World D),
        address < FLASH_SIZE -> buf_size <= FLASH_SIZE ->
        exists value ok rest,
          emitted (flash_iface_read address buf_size w)
          = EvDebug "read %#zx bytes from %#08x" [buf_size; address]
            :: EvPwrite [REG_CMD_ADDR_HI; value] ok :: rest)
  /\ (forall fill bank,
        address < FLASH_SIZE -> 0 <= buf_size <= FLASH_SIZE ->
        exists buf,
          result (flash_iface_read address buf_size
                    (mock_world (mock_chip [] fill) bank)) = Ok buf
          /\ Z.of_nat (List.length buf) = buf_size).
Proof.
  repeat split.
  - intros D B w Hbad. unfold flash_iface_read.
    destruct (Z.ltb_spec address FLASH_SIZE) as [Ha|Ha].
    + destruct (Z.leb_spec buf_size FLASH_SIZE) as [Hs|Hs]; [lia|].
      reflexivity.
    + reflexivity.
  - intros D B w Ha Hs. unfold flash_iface_read.
    replace (address <? FLASH_SIZE) with true
      by (symmetry; apply Z.ltb_lt; lia).
    replace (buf_size <=? FLASH_SIZE) with true
      by (symmetry; apply Z.leb_le; lia).
    cbv zeta.
    unfold bind at 1. cbn [g_return_val_if_fail ret result final emitted].
    unfold bind at 1. cbn [g_return_val_if_fail ret result final emitted].
    unfold bind at 1. cbn [g_debug emit result final emitted app].
    match goal with
    | |- context [emitted (bind (mst_write_register ?a ?v) ?f ?w')] =>
        destruct (emitted_bind_prefix (mst_write_register a v) f w')
          as [tail ->];
        destruct (emitted_pwrite_full [guint8 a; guint8 v] w') as [ok Eok]
    end.
    unfold mst_write_register. rewrite Eok.
    eexists _, ok, tail. reflexivity.
  - intros fill bank Ha Hs.
    destruct (ideal_flash_iface_read address buf_size
                (mock_world (mock_chip [] fill) bank)) as [R _];
      [split; reflexivity|lia|lia|].
    eexists. split; [exact R|]. rewrite repeat_length. lia.
Qed.

Lemma flash_iface_read_preconditions_witness :
  flash_iface_read 0x100000 1 (mock_world (mock_chip [] 0) FLASH_BANK_USER1)
  = {| result := Fail None;
       final := mock_world (mock_chip [] 0) FLASH_BANK_USER1;
       emitted := [] |}
  /\ exists buf,
       result (flash_iface_read 0xFFFFF 0x100000
                 (mock_world (mock_chip [] 0) FLASH_BANK_USER1)) = Ok buf
       /\ Z.of_nat (List.length buf) = 0x100000
       /\ FLASH_SIZE < 0xFFFFF + 0x100000.
Proof.
  split.
  - apply (proj1 (flash_iface_read_preconditions 0x100000 1)).
    left. unfold FLASH_SIZE. lia.
  - assert (Ha : 0xFFFFF < FLASH_SIZE) by reflexivity.
    assert (Hs : 0 <= 0x100000 <= FLASH_SIZE) by (split; discriminate).
    destruct (proj2 (proj2 (flash_iface_read_preconditions 0xFFFFF 0x100000))
                0 FLASH_BANK_USER1 Ha Hs) as (buf & R & L).
    exists buf. split; [exact R|]. split; [exact L|reflexivity].
Defined.

(** ** Flash interface: page writes *)

Lemma pages_concat :
  forall n address data,
    (List.length data <= n)%nat ->
    List.concat (map snd (pages n address data)) = data.
Proof.
  induction n as [|n IH]; intros address data Hn.
  - destruct data; [reflexivity|simpl in Hn; lia].
  - destruct data as [|b data']; [reflexivity|].
    set (data := b :: data') in *.
    change (pages (S n) address data)
      with ((address, firstn 256 data)
            :: pages n (guint32 (address + 256)) (skipn 256 data)).
    cbn [map snd List.concat]. rewrite IH.
    + apply firstn_skipn.
    + rewrite length_skipn. subst data. simpl in *. lia.
Qed.

Lemma pages_sizes :
  forall n address data,
    Forall (fun p => 1 <= Z.of_nat (List.length (snd p)) <= 256)
      (pages n address data).
Proof.
  induction n as [|n IH]; intros address data; [constructor|].
  destruct data as [|b data']; [constructor|].
  set (data := b :: data').
  change (pages (S n) address data)
    with ((address, firstn 256 data)
          :: pages n (guint32 (address + 256)) (skipn 256 data)).
  constructor; [|apply IH].
  cbn [snd]. rewrite length_firstn. subst data. simpl List.length. lia.
Qed.

Lemma pages_single address data :
  (1 <= List.length data <= 256)%nat ->
  pages (List.length data) address data = [(address, data)].
Proof.
  intros Hl. destruct data as [|b data']; [simpl in Hl; lia|].
  set (data := b :: data') in *.
  change (List.length data) with (S (List.length data')).
  change (pages (S (List.length data')) address data)
    with ((address, firstn 256 data)
          :: pages (List.length data') (guint32 (address + 256))
               (skipn 256 data)).
  rewrite firstn_all2, skipn_all2, pages_nil by lia. reflexivity.
Qed.

(** C6: the data goes out in chunks of 1 to 256 bytes; for each chunk
    WRITE_LEN is written with the chunk size minus one and the FIFO burst
    carries the chunk.  256 bytes make one page with WRITE_LEN = 0xFF,
    one byte makes one page with WRITE_LEN = 0 and a one-byte burst. *)
Theorem flash_iface_write_chunks {D} `{Backend D} (budget : nat)
    (address : Z) (data : list Z) (w : World D) :
  let r := flash_iface_write budget address data w in
  let chunks := pages (List.length data) address data in
  let script :=
    flat_map
      (fun p =>
         [[REG_WRITE_OPCODE; CMD_OPCODE_WRITE];
          [REG_WRITE_LEN; Z.of_nat (List.length (snd p)) - 1];
          [REG_CMD_ADDR_HI; (fst p / 65536) mod 256];
          [REG_CMD_ADDR_MID; (fst p / 256) mod 256];
          [REG_CMD_ADDR_LO; fst p mod 256];
          REG_WRITE_FIFO :: snd p;
          [REG_MCU_MODE; 0xA0]]) chunks in
  List.concat (map snd chunks) = data
  /\ Forall (fun p => 1 <= Z.of_nat (List.length (snd p)) <= 256) chunks
  /\ (exists rest, reg_writes (emitted r) ++ rest = script)
  /\ (result r = Ok tt -> reg_writes (emitted r) = script)
  /\ (List.length data = 256%nat ->
      script = [[REG_WRITE_OPCODE; CMD_OPCODE_WRITE];
                [REG_WRITE_LEN; 0xFF];
                [REG_CMD_ADDR_HI; (address / 65536) mod 256];
                [REG_CMD_ADDR_MID; (address / 256) mod 256];
                [REG_CMD_ADDR_LO; address mod 256];
                REG_WRITE_FIFO :: data;
                [REG_MCU_MODE; 0xA0]])
  /\ (forall b, data = [b] ->
      script = [[REG_WRITE_OPCODE; CMD_OPCODE_WRITE];
                [REG_WRITE_LEN; 0x00];
                [REG_CMD_ADDR_HI; (address / 65536) mod 256];
                [REG_CMD_ADDR_MID; (address / 256) mod 256];
                [REG_CMD_ADDR_LO; address mod 256];
                [REG_WRITE_FIFO; b];
                [REG_MCU_MODE; 0xA0]]).
Proof.
  intros r chunks script.
  pose proof (flash_iface_write_script budget address data w) as [Hpre Hall].
  fold r in Hpre, Hall.
  repeat split.
  - apply pages_concat. lia.
  - apply pages_sizes.
  - exact Hpre.
  - intros R. apply Hall. rewrite R. reflexivity.
  - intros L. subst script chunks. rewrite pages_single by lia.
    cbn [flat_map fst snd app]. rewrite L. reflexivity.
  - intros b ->. reflexivity.
Qed.

Lemma flash_iface_write_chunks_witness :
  reg_writes (emitted (flash_iface_write 3 0x80000 (repeat 0xA5 256)
                         (mock_world (mock_chip [] 0) FLASH_BANK_USER1)))
  = [[REG_WRITE_OPCODE; CMD_OPCODE_WRITE];
     [REG_WRITE_LEN; 0xFF];
     [REG_CMD_ADDR_HI; 0x08];
     [REG_CMD_ADDR_MID; 0];
     [REG_CMD_ADDR_LO; 0];
     REG_WRITE_FIFO :: repeat 0xA5 256;
     [REG_MCU_MODE; 0xA0]].
Proof.
  pose proof (flash_iface_write_chunks 3 0x80000 (repeat 0xA5 256)
                (mock_world (mock_chip [] 0) FLASH_BANK_USER1))
    as (_ & _ & _ & Hok & H256 & _).
  rewrite Hok by (vm_compute; reflexivity).
  rewrite H256 by (vm_compute; reflexivity).
  reflexivity.
Defined.

(** ** Register polling *)

Section Poll.
Context {D : Type} `{Backend D}.

Lemma pwrite_full_cases data w :
  (result (fu_udev_device_pwrite_full data w) = Ok tt
   /\ emitted (fu_udev_device_pwrite_full data w) = [EvPwrite data true])
  \/ (exists err,
        result (fu_udev_device_pwrite_full data w) = Fail (Some err)
        /\ err_code err = G_IO_ERROR_FAILED
        /\ emitted (fu_udev_device_pwrite_full data w)
           = [EvPwrite data false]).
Proof.
  unfold fu_udev_device_pwrite_full.
  destruct (bus_pwrite data (bus w)) as [[|] d]; simpl.
  - left. split; reflexivity.
  - right. eexists. repeat split.
Qed.

Lemma pread_full_cases count w :
  (exists raw,
     result (fu_udev_device_pread_full count w) = Ok (map guint8 raw)
     /\ Z.of_nat (List.length raw) = count
     /\ emitted (fu_udev_device_pread_full count w)
        = [EvPread count (Some raw)])
  \/ (exists err answer,
        result (fu_udev_device_pread_full count w) = Fail (Some err)
        /\ err_code err = G_IO_ERROR_FAILED
        /\ emitted (fu_udev_device_pread_full count w)
           = [EvPread count answer]
        /\ forall raw, answer = Some raw ->
                       Z.of_nat (List.length raw) <> count).
Proof.
  unfold fu_udev_device_pread_full.
  destruct (bus_pread count (bus w)) as [[raw|] d]; simpl.
  - destruct (Z.eqb_spec (Z.of_nat (List.length raw)) count) as [E|E].
    + left. exists raw. repeat split. exact E.
    + right. eexists _, (Some raw). repeat split.
      intros raw' E'. inversion E'. subst. exact E.
  - right. eexists _, None. repeat split. discriminate.
Qed.

(** The three ways a register read can end. *)
Lemma mst_read_register_cases address w :
  match result (mst_read_register address w) with
  | Ok v =>
      exists raw,
        v = guint8 raw
        /\ emitted (mst_read_register address w) = read_events address raw
  | Fail e =>
      (exists err, e = Some err /\ err_code err = G_IO_ERROR_FAILED)
      /\ read_failure address (emitted (mst_read_register address w))
  | Diverge => False
  end.
Proof.
  unfold mst_read_register, fu_udev_device_pwrite, fu_udev_device_pread.
  destruct (pwrite_full_cases [guint8 address] w)
    as [[R E]|(err & R & C & E)].
  - rewrite (bind_ok _ _ _ _ R). cbn [result final emitted]. rewrite E.
    set (w1 := final (fu_udev_device_pwrite_full [guint8 address] w)).
    destruct (pread_full_cases 1 w1)
      as [(raw & R' & L & E')|(err & answer & R' & C & E' & L)].
    + rewrite (bind_ok _ _ _ _ R'). cbn [result final emitted ret].
      rewrite E'. destruct raw as [|b [|c raw]]; simpl in L; try lia.
      exists b. split; reflexivity.
    + rewrite (bind_fail _ _ _ _ R'). cbn [result final emitted].
      rewrite E'. split; [exists err; split; [reflexivity|exact C]|].
      right. exists answer. split; [reflexivity|].
      intros raw ->. apply (L [raw]); reflexivity.
  - rewrite (bind_fail _ _ _ _ R). cbn [result final emitted]. rewrite E.
    split; [exists err; split; [reflexivity|exact C]|].
    left. reflexivity.
Qed.

Lemma last_cons_default {X} (l : list X) :
  forall x d, last (x :: l) d = last l x.
Proof.
  induction l as [|y l IH]; intros x d; [reflexivity|].
  change (last (x :: y :: l) d) with (last (y :: l) d).
  rewrite (IH y d), (IH y x). reflexivity.
Qed.

Lemma final_sample_cons now value r rounds :
  final_sample now value (r :: rounds)
  = final_sample (fst r) (guint8 (snd r)) rounds.
Proof. unfold final_sample. cbn [map]. apply last_cons_default. Qed.

Lemma earlier_samples_cons now value r rounds :
  removelast (samples_of now value (r :: rounds))
  = (now, value) :: removelast (samples_of (fst r) (guint8 (snd r)) rounds).
Proof. reflexivity. Qed.

Lemma samples_of_cons now value r rounds :
  samples_of now value (r :: rounds)
  = (now, value) :: samples_of (fst r) (guint8 (snd r)) rounds.
Proof. reflexivity. Qed.

Lemma last_value_rounds address :
  forall rounds pre now raw,
    last_value (pre ++ read_events address raw
                ++ flat_map (poll_round address) rounds)
    = Some (snd (final_sample now (guint8 raw) rounds)).
Proof.
  induction rounds as [|r rounds IH]; intros pre now raw.
  - cbn [flat_map]. rewrite app_nil_r. unfold read_events, last_value.
    change [EvPwrite [guint8 address] true; EvPread 1 (Some [raw])]
      with ([EvPwrite [guint8 address] true] ++ [EvPread 1 (Some [raw])]).
    rewrite app_assoc, last_last. reflexivity.
  - rewrite final_sample_cons. cbn [flat_map]. unfold poll_round at 1.
    rewrite <- (IH (pre ++ read_events address raw
                    ++ [EvUsleep G_TIME_SPAN_MILLISECOND; EvClock (fst r)])
                   (fst r) (snd r)).
    f_equal. rewrite <- !app_assoc. reflexivity.
Qed.

Lemma last_value_poll_trace address now0 raw0 rounds :
  last_value (poll_trace address now0 raw0 rounds)
  = Some (snd (final_sample now0 (guint8 raw0) rounds)).
Proof. apply (last_value_rounds address rounds [EvClock now0] now0 raw0). Qed.

Lemma last_value_read_failure address pre tail :
  read_failure address tail -> last_value (pre ++ tail) = None.
Proof.
  intros [->|(answer & -> & Hn)]; unfold last_value.
  - rewrite last_last. reflexivity.
  - change [EvPwrite [guint8 address] true; EvPread 1 answer]
      with ([EvPwrite [guint8 address] true] ++ [EvPread 1 answer]).
    rewrite app_assoc, last_last.
    destruct answer as [[|b [|c l]]|]; try reflexivity.
    exfalso. apply (Hn b). reflexivity.
Qed.

(** How the polling loop can end, from the sample [(now, value)] on. *)
Lemma mst_poll_register_loop_cases address mask expected deadline :
  forall budget value now w,
    let L := mst_poll_register_loop budget address mask expected deadline
               value now w in
    match result L with
    | Ok v =>
        exists rounds,
          emitted L = flat_map (poll_round address) rounds
          /\ forallb (pending_sample mask expected deadline)
               (removelast (samples_of now value rounds)) = true
          /\ snd (final_sample now value rounds) = v
          /\ pending_sample mask expected deadline
               (final_sample now value rounds) = false
    | Fail e =>
        (exists err, e = Some err /\ err_code err = G_IO_ERROR_FAILED)
        /\ exists pre tail,
             emitted L = pre ++ tail /\ read_failure address tail
    | Diverge =>
        exists rounds,
          emitted L = flat_map (poll_round address) rounds
          /\ forallb (pending_sample mask expected deadline)
               (samples_of now value rounds) = true
          /\ List.length rounds = budget
    end.
Proof.
  induction budget as [|budget IH]; intros value now w;
    cbn [mst_poll_register_loop];
    destruct (poll_pending mask expected deadline value now) eqn:P;
    cbn zeta.
  - exists []. cbn. unfold pending_sample. cbn. rewrite P. repeat split.
  - exists []. cbn. unfold pending_sample. cbn. rewrite P. repeat split.
  - rewrite (bind_ok (g_usleep G_TIME_SPAN_MILLISECOND) _ w tt eq_refl).
    cbn [result final emitted g_usleep].
    set (w1 := with_bus (bus_usleep G_TIME_SPAN_MILLISECOND (bus w)) w).
    rewrite (bind_ok clock_gettime _ w1 (bus_clock (bus w1)) eq_refl).
    cbn [result final emitted clock_gettime].
    set (now' := bus_clock (bus w1)).
    pose proof (mst_read_register_cases address w1) as Hr.
    destruct (result (mst_read_register address w1)) as [v'|e|] eqn:R;
      [|rewrite (bind_fail _ _ _ _ R)|contradiction].
    + rewrite (bind_ok _ _ _ _ R). cbn [result final emitted].
      destruct Hr as (raw & -> & Er). rewrite Er.
      set (w2 := final (mst_read_register address w1)).
      specialize (IH (guint8 raw) now' w2). cbn zeta in IH.
      destruct (result (mst_poll_register_loop budget address mask expected
                          deadline (guint8 raw) now' w2)) as [v|e|].
      * destruct IH as (rounds & E & Hp & Hv & Hl).
        exists ((now', raw) :: rounds).
        rewrite final_sample_cons, earlier_samples_cons.
        cbn [fst snd forallb flat_map]. rewrite E, Hp.
        unfold pending_sample at 1. cbn [fst snd]. rewrite P.
        repeat split; assumption.
      * destruct IH as (He & pre & tail & E & Hf). split; [exact He|].
        exists ([EvUsleep G_TIME_SPAN_MILLISECOND] ++ [EvClock now']
                ++ read_events address raw ++ pre), tail.
        rewrite E. split; [|exact Hf]. rewrite <- !app_assoc. reflexivity.
      * destruct IH as (rounds & E & Hp & Hl).
        exists ((now', raw) :: rounds).
        rewrite samples_of_cons. cbn [fst snd forallb flat_map List.length].
        rewrite E, Hp, Hl. unfold pending_sample at 1. cbn [fst snd].
        rewrite P. repeat split.
    + cbn [result final emitted]. destruct Hr as [He Hf]. split; [exact He|].
      exists ([EvUsleep G_TIME_SPAN_MILLISECOND] ++ [EvClock now']),
        (emitted (mst_read_register address w1)).
      split; [|exact Hf]. rewrite <- !app_assoc. reflexivity.
  - exists []. cbn. unfold pending_sample. cbn. rewrite P. repeat split.
Qed.

(** How [mst_poll_register] can end. *)
Lemma mst_poll_register_cases budget address mask expected timeout w :
  let r := mst_poll_register budget address mask expected timeout w in
  match result r with
  | Ok _ =>
      exists now0 raw0 rounds,
        emitted r = poll_trace address now0 raw0 rounds
        /\ forallb (pending_sample mask expected (poll_deadline now0 timeout))
             (removelast (samples_of now0 (guint8 raw0) rounds)) = true
        /\ Z.land (snd (final_sample now0 (guint8 raw0) rounds)) mask
           = expected
  | Fail e =>
      ((exists err, e = Some err /\ err_code err = G_IO_ERROR_FAILED)
       /\ exists pre tail, emitted r = pre ++ tail /\ read_failure address tail)
      \/ (exists now0 raw0 rounds,
            emitted r = poll_trace address now0 raw0 rounds
            /\ forallb
                 (pending_sample mask expected (poll_deadline now0 timeout))
                 (removelast (samples_of now0 (guint8 raw0) rounds)) = true
            /\ Z.land (snd (final_sample now0 (guint8 raw0) rounds)) mask
               <> expected
            /\ timespec_le (fst (final_sample now0 (guint8 raw0) rounds))
                 (poll_deadline now0 timeout) = false
            /\ e = Some (poll_timeout_error address
                           (snd (final_sample now0 (guint8 raw0) rounds))
                           timeout expected mask))
  | Diverge =>
      exists now0 raw0 rounds,
        emitted r = poll_trace address now0 raw0 rounds
        /\ forallb (pending_sample mask expected (poll_deadline now0 timeout))
             (samples_of now0 (guint8 raw0) rounds) = true
        /\ List.length rounds = budget
  end.
Proof.
  unfold mst_poll_register.
  rewrite (bind_ok clock_gettime _ w (bus_clock (bus w)) eq_refl).
  cbn [result final emitted clock_gettime].
  set (now0 := bus_clock (bus w)).
  fold (poll_deadline now0 timeout).
  pose proof (mst_read_register_cases address w) as Hr.
  destruct (result (mst_read_register address w)) as [v0|e|] eqn:R;
    [|rewrite (bind_fail _ _ _ _ R)|contradiction].
  - rewrite (bind_ok _ _ _ _ R). cbn [result final emitted].
    destruct Hr as (raw0 & -> & Er). rewrite Er.
    set (w1 := final (mst_read_register address w)).
    pose proof (mst_poll_register_loop_cases address mask expected
                  (poll_deadline now0 timeout) budget (guint8 raw0) now0 w1)
      as Hl.
    cbn zeta in Hl.
    destruct (result (mst_poll_register_loop budget address mask expected
                        (poll_deadline now0 timeout) (guint8 raw0) now0 w1))
      as [v|e|] eqn:RL.
    + rewrite (bind_ok _ _ _ _ RL). cbn [result final emitted].
      destruct Hl as (rounds & E & Hp & Hv & Hf). rewrite E.
      destruct (Z.eqb_spec (Z.land v mask) expected) as [Hm|Hm];
        cbn [ret g_set_error fail result emitted]; rewrite app_nil_r.
      * exists now0, raw0, rounds. rewrite Hv. repeat split; assumption.
      * right. exists now0, raw0, rounds. rewrite Hv.
        repeat split; try assumption.
        unfold pending_sample, poll_pending in Hf. rewrite Hv in Hf.
        destruct (Z.eqb_spec (Z.land v mask) expected); [contradiction|].
        exact Hf.
    + rewrite (bind_fail _ _ _ _ RL). cbn [result final emitted].
      destruct Hl as (He & pre & tail & E & Hf). left. split; [exact He|].
      exists (EvClock now0 :: read_events address raw0 ++ pre), tail.
      rewrite E. split; [|exact Hf].
      cbn [app]. rewrite <- !app_assoc. reflexivity.
    + rewrite (bind_diverge _ _ _ RL). cbn [result final emitted].
      destruct Hl as (rounds & E & Hp & Hn). rewrite E.
      exists now0, raw0, rounds. repeat split; assumption.
  - cbn [result final emitted]. destruct Hr as [He Hf]. left.
    split; [exact He|].
    exists [EvClock now0], (emitted (mst_read_register address w)).
    split; [reflexivity|exact Hf].
Qed.

Lemma forallb_last {X} (f : X -> bool) (l : list X) d :
  forallb f (d :: l) = true -> f (last l d) = true.
Proof.
  revert d. induction l as [|x l IH]; intros d E.
  - simpl in *. apply andb_true_iff in E. apply E.
  - rewrite last_cons_default. apply IH.
    change (forallb f (d :: x :: l)) with (f d && forallb f (x :: l)) in E.
    apply andb_true_iff in E. apply E.
Qed.

(** *** Termination under a monotonic clock *)

Lemma timespec_le_ns now deadline :
  0 <= tv_nsec now < 1000000000 ->
  0 <= tv_nsec deadline < 1000000000 ->
  timespec_le now deadline = true ->
  timespec_ns now <= timespec_ns deadline.
Proof.
  unfold timespec_le, timespec_ns. intros Hn Hd E.
  apply orb_true_iff in E. destruct E as [E|E].
  - apply Z.ltb_lt in E. lia.
  - apply andb_true_iff in E. destruct E as [E1 E2].
    apply Z.eqb_eq in E1. apply Z.leb_le in E2. lia.
Qed.

Lemma clock_mst_read_register (Hm : monotonic_clock D) address w :
  timespec_ns (bus_clock (bus w))
  <= timespec_ns (bus_clock (bus (final (mst_read_register address w)))).
Proof.
  unfold mst_read_register, fu_udev_device_pwrite, fu_udev_device_pread,
    bind, fu_udev_device_pwrite_full, fu_udev_device_pread_full.
  pose proof (clock_pwrite D Hm [guint8 address] (bus w)) as Hw.
  destruct (bus_pwrite [guint8 address] (bus w)) as [[|] d];
    cbn [result final emitted bus with_bus snd] in *; [|exact Hw].
  pose proof (clock_pread D Hm 1 d) as Hp.
  destruct (bus_pread 1 d) as [[raw|] d'];
    cbn [result final emitted bus with_bus snd] in *.
  - destruct (Z.of_nat (List.length raw) =? 1);
      cbn [result final emitted bus with_bus ret io_error g_set_error fail];
      lia.
  - cbn [result final emitted bus with_bus ret io_error g_set_error fail].
    lia.
Qed.

Lemma mst_poll_register_loop_returns (Hm : monotonic_clock D)
    address mask expected deadline :
  0 <= tv_nsec deadline < 1000000000 ->
  forall budget value now w,
    0 <= tv_nsec now < 1000000000 ->
    timespec_ns now <= timespec_ns (bus_clock (bus w)) ->
    timespec_ns deadline - timespec_ns now < 1000000 * Z.of_nat budget ->
    result (mst_poll_register_loop budget address mask expected deadline
              value now w) <> Diverge.
Proof.
  intros Hd. induction budget as [|budget IH]; intros value now w Hn Hc Hb;
    cbn [mst_poll_register_loop];
    destruct (poll_pending mask expected deadline value now) eqn:P;
    try discriminate.
  - unfold poll_pending in P. apply andb_true_iff in P. destruct P as [_ P].
    apply timespec_le_ns in P; try assumption. simpl in Hb. lia.
  - rewrite (bind_ok (g_usleep G_TIME_SPAN_MILLISECOND) _ w tt eq_refl).
    cbn [result final emitted g_usleep].
    set (w1 := with_bus (bus_usleep G_TIME_SPAN_MILLISECOND (bus w)) w).
    rewrite (bind_ok clock_gettime _ w1 (bus_clock (bus w1)) eq_refl).
    cbn [result final emitted clock_gettime].
    pose proof (clock_usleep D Hm G_TIME_SPAN_MILLISECOND (bus w)) as Hs.
    change (bus_usleep G_TIME_SPAN_MILLISECOND (bus w)) with (bus w1) in Hs.
    unfold G_TIME_SPAN_MILLISECOND in Hs.
    pose proof (clock_mst_read_register Hm address w1) as Hr.
    destruct (result (mst_read_register address w1)) as [v'|e|] eqn:R.
    + rewrite (bind_ok _ _ _ _ R). cbn [result final emitted].
      apply IH.
      * apply (clock_normal D Hm).
      * exact Hr.
      * unfold poll_pending in P. apply andb_true_iff in P.
        destruct P as [_ P]. lia.
    + rewrite (bind_fail _ _ _ _ R). discriminate.
    + pose proof (mst_read_register_cases address w1) as Hx.
      rewrite R in Hx. contradiction.
Qed.

Lemma mst_poll_register_returns (Hm : monotonic_clock D)
    budget address mask expected timeout w :
  1000 * timeout < Z.of_nat budget ->
  result (mst_poll_register budget address mask expected timeout w)
  <> Diverge.
Proof.
  intros Hb. unfold mst_poll_register.
  rewrite (bind_ok clock_gettime _ w (bus_clock (bus w)) eq_refl).
  cbn [result final emitted clock_gettime].
  pose proof (clock_normal D Hm (bus w)) as Hn.
  pose proof (clock_mst_read_register Hm address w) as Hr.
  destruct (result (mst_read_register address w)) as [v0|e|] eqn:R.
  - rewrite (bind_ok _ _ _ _ R). cbn [result final emitted].
    match goal with
    | |- result (bind ?m _ ?w1) <> _ =>
        assert (HL : result (m w1) <> Diverge)
    end.
    { apply mst_poll_register_loop_returns; try assumption.
      unfold timespec_ns. cbn [tv_sec tv_nsec]. lia. }
    match goal with
    | |- result (bind ?m _ ?w1) <> _ =>
        destruct (result (m w1)) as [v|e|] eqn:RL
    end.
    + rewrite (bind_ok _ _ _ _ RL). cbn [result].
      destruct (Z.land v mask =? expected); discriminate.
    + rewrite (bind_fail _ _ _ _ RL). discriminate.
    + contradiction.
  - rewrite (bind_fail _ _ _ _ R). discriminate.
  - pose proof (mst_read_register_cases address w) as Hx.
    rewrite R in Hx. contradiction.
Qed.

End Poll.

Lemma mock_clock_ns m : timespec_ns (mock_clock m) = mock_time m.
Proof.
  unfold timespec_ns, mock_clock. cbn [tv_sec tv_nsec].
  pose proof (Z.div_mod (mock_time m) 1000000000). lia.
Qed.

Lemma mock_monotonic : monotonic_clock Mock.
Proof.
  constructor; cbn [bus_clock bus_usleep bus_pwrite bus_pread Mock_Backend].
  - intros d. cbn [mock_clock tv_nsec]. apply Z.mod_pos_bound. lia.
  - intros us d. rewrite !mock_clock_ns. cbn [mock_usleep mock_time]. lia.
  - intros data d. rewrite !mock_clock_ns. unfold mock_pwrite.
    destruct data as [|a [|b l]]; cbn [snd]; lia.
  - intros count d. rewrite !mock_clock_ns. unfold mock_pread.
    destruct (mock_answers d); cbn [snd mock_time]; lia.
Qed.

(** C4, as stated, fails: with a one-second timeout the matching value is
    read two seconds after the deadline and the poll still succeeds. *)
Lemma poll_succeeds_after_deadline :
  result (mst_poll_register 5 REG_MCU_MODE MCU_MODE_WRITE_BUF 0 1 slow_host)
  = Ok tt
  /\ emitted (mst_poll_register 5 REG_MCU_MODE MCU_MODE_WRITE_BUF 0 1
                slow_host)
     = [EvClock {| tv_sec := 5; tv_nsec := 0 |};
        EvPwrite [REG_MCU_MODE] true; EvPread 1 (Some [0x10]);
        EvUsleep 1000;
        EvClock {| tv_sec := 7; tv_nsec := 1000000 |};
        EvPwrite [REG_MCU_MODE] true; EvPread 1 (Some [0x00])]
  /\ matched_in_time MCU_MODE_WRITE_BUF 0 1
       (emitted (mst_poll_register 5 REG_MCU_MODE MCU_MODE_WRITE_BUF 0 1
                   slow_host))
     = false.
Proof. repeat split; vm_compute; reflexivity. Qed.

Lemma poll_rounds_inj address :
  forall rounds rounds',
    flat_map (poll_round address) rounds
    = flat_map (poll_round address) rounds' ->
    rounds = rounds'.
Proof.
  induction rounds as [|[t v] rounds IH]; intros [|[t' v'] rounds'] E;
    cbn [flat_map poll_round read_events app fst snd] in E;
    try reflexivity; try discriminate.
  inversion E. subst. f_equal. apply IH. assumption.
Qed.

Lemma poll_trace_inj address now0 raw0 rounds now0' raw0' rounds' :
  poll_trace address now0 raw0 rounds = poll_trace address now0' raw0' rounds'
  -> now0 = now0' /\ raw0 = raw0' /\ rounds = rounds'.
Proof.
  unfold poll_trace, read_events. cbn [app]. intros E. inversion E.
  repeat split. apply (poll_rounds_inj address). assumption.
Qed.

(** C4 (amended): the deadline is the first clock sample plus the timeout.
    The register is read once and then again, after a 1 ms sleep and a new
    clock sample, for as long as the value read does not match and the
    latest sample is not past the deadline.  The poll succeeds iff the run
    ends with a register read whose value matches, whenever that read was
    taken.  A run that ends on a value that does not match with the
    latest sample past the deadline fails with the timeout error, of
    code TIMED_OUT, which carries address, last value, timeout, expected
    value and mask; a run that ends in a failing register read fails
    with an I/O error; and there is no other failure.  With a monotonic
    clock the poll returns within 1000 rounds per second of timeout and
    one more. *)
Theorem mst_poll_register_outcome {D} `{Backend D} (budget : nat)
    (address mask expected timeout : Z) (w : World D) :
  let r := mst_poll_register budget address mask expected timeout w in
  (result r = Ok tt
   <-> exists v, last_value (emitted r) = Some v /\ Z.land v mask = expected)
  /\ (result r = Ok tt ->
      exists now0 raw0 rounds,
        emitted r = poll_trace address now0 raw0 rounds
        /\ forallb (pending_sample mask expected (poll_deadline now0 timeout))
             (removelast (samples_of now0 (guint8 raw0) rounds)) = true)
  /\ (forall now0 raw0 rounds,
        emitted r = poll_trace address now0 raw0 rounds ->
        Z.land (snd (final_sample now0 (guint8 raw0) rounds)) mask
        <> expected ->
        timespec_le (fst (final_sample now0 (guint8 raw0) rounds))
          (poll_deadline now0 timeout) = false ->
        result r
        = Fail (Some (poll_timeout_error address
                        (snd (final_sample now0 (guint8 raw0) rounds))
                        timeout expected mask))
        /\ err_code (poll_timeout_error address
                       (snd (final_sample now0 (guint8 raw0) rounds))
                       timeout expected mask) = G_IO_ERROR_TIMED_OUT)
  /\ (forall pre tail,
        emitted r = pre ++ tail -> read_failure address tail ->
        exists err,
          result r = Fail (Some err) /\ err_code err = G_IO_ERROR_FAILED)
  /\ (forall e,
        result r = Fail e ->
        exists err,
          e = Some err
          /\ ((err_code err = G_IO_ERROR_FAILED
               /\ exists pre tail,
                    emitted r = pre ++ tail /\ read_failure address tail)
              \/ (err_code err = G_IO_ERROR_TIMED_OUT
                  /\ exists now0 raw0 rounds,
                       emitted r = poll_trace address now0 raw0 rounds
                       /\ forallb
                            (pending_sample mask expected
                               (poll_deadline now0 timeout))
                            (removelast
                               (samples_of now0 (guint8 raw0) rounds))
                          = true
                       /\ Z.land
                            (snd (final_sample now0 (guint8 raw0) rounds))
                            mask <> expected
                       /\ timespec_le
                            (fst (final_sample now0 (guint8 raw0) rounds))
                            (poll_deadline now0 timeout) = false
                       /\ err = poll_timeout_error address
                                  (snd (final_sample now0 (guint8 raw0)
                                          rounds))
                                  timeout expected mask)))
  /\ (monotonic_clock D -> 1000 * timeout < Z.of_nat budget ->
      result r <> Diverge).
Proof.
  intros r.
  pose proof (mst_poll_register_cases budget address mask expected timeout w)
    as Hc.
  cbn zeta in Hc. fold r in Hc.
  split; [split|split; [|split; [|split; [|split]]]].
  - intros R. rewrite R in Hc. destruct Hc as (now0 & raw0 & rounds & E & _ & Hm).
    exists (snd (final_sample now0 (guint8 raw0) rounds)).
    split; [|exact Hm]. rewrite E. apply last_value_poll_trace.
  - intros (v & Hv & Hm). destruct (result r) as [[]|e|]; [reflexivity| |].
    + exfalso.
      destruct Hc as [(_ & pre & tail & E & Hf)
                     |(now0 & raw0 & rounds & E & _ & Hn & _)].
      * rewrite E, (last_value_read_failure address pre tail Hf) in Hv.
        discriminate.
      * rewrite E, last_value_poll_trace in Hv.
        inversion Hv. subst v. contradiction.
    + exfalso. destruct Hc as (now0 & raw0 & rounds & E & Hp & _).
      rewrite E, last_value_poll_trace in Hv.
      inversion Hv. subst v.
      apply forallb_last in Hp. fold (final_sample now0 (guint8 raw0) rounds) in Hp.
      unfold pending_sample, poll_pending in Hp.
      apply andb_true_iff in Hp. destruct Hp as [Hp _].
      rewrite Hm, Z.eqb_refl in Hp. discriminate.
  - intros R. rewrite R in Hc.
    destruct Hc as (now0 & raw0 & rounds & E & Hp & _).
    exists now0, raw0, rounds. split; assumption.
  - intros now0 raw0 rounds E Hn Hl. split; [|reflexivity].
    destruct (result r) as [[]|e|].
    + exfalso. destruct Hc as (now1 & raw1 & rounds1 & E1 & _ & Hm).
      rewrite E in E1. apply poll_trace_inj in E1.
      destruct E1 as (-> & -> & ->). contradiction.
    + destruct Hc as [(_ & pre & tail & E1 & Hf)
                     |(now1 & raw1 & rounds1 & E1 & _ & _ & _ & ->)].
      * exfalso. rewrite E in E1.
        apply (f_equal last_value) in E1.
        rewrite last_value_poll_trace,
          (last_value_read_failure address pre tail Hf) in E1.
        discriminate.
      * rewrite E in E1. apply poll_trace_inj in E1.
        destruct E1 as (-> & -> & ->). reflexivity.
    + exfalso. destruct Hc as (now1 & raw1 & rounds1 & E1 & Hp & _).
      rewrite E in E1. apply poll_trace_inj in E1.
      destruct E1 as (-> & -> & ->).
      apply forallb_last in Hp.
      fold (final_sample now1 (guint8 raw1) rounds1) in Hp.
      unfold pending_sample, poll_pending in Hp.
      apply andb_true_iff in Hp. destruct Hp as [_ Hp].
      cbn [fst snd] in Hp. rewrite Hl in Hp. discriminate.
  - intros pre tail E Hf.
    assert (Hv : last_value (emitted r) = None)
      by (rewrite E; apply (last_value_read_failure address pre tail Hf)).
    destruct (result r) as [[]|e|].
    + exfalso. destruct Hc as (now1 & raw1 & rounds1 & E1 & _).
      rewrite E1, last_value_poll_trace in Hv. discriminate.
    + destruct Hc as [((err & -> & Hcode) & _)
                     |(now1 & raw1 & rounds1 & E1 & _)].
      * exists err. split; [reflexivity|exact Hcode].
      * exfalso. rewrite E1, last_value_poll_trace in Hv. discriminate.
    + exfalso. destruct Hc as (now1 & raw1 & rounds1 & E1 & _).
      rewrite E1, last_value_poll_trace in Hv. discriminate.
  - intros e R. rewrite R in Hc.
    destruct Hc as [((err & -> & Hcode) & Htr)
                   |(now0 & raw0 & rounds & E & Hp & Hn & Hl & ->)].
    + exists err. split; [reflexivity|]. left. split; assumption.
    + eexists. split; [reflexivity|]. right. split; [reflexivity|].
      exists now0, raw0, rounds. repeat split; assumption.
  - intros Hm Hb. apply mst_poll_register_returns; assumption.
Qed.

(** Three runs: the host oversleeps and the match is read two seconds
    after the deadline; the chip stays busy and the poll times out after
    1001 rounds, 1000 rounds not being enough to come back; the first
    read is not answered. *)
Lemma mst_poll_register_outcome_witness :
  result (mst_poll_register 5 REG_MCU_MODE MCU_MODE_WRITE_BUF 0 1 slow_host)
  = Ok tt
  /\ result (mst_poll_register 1001 REG_CMD_ATTR CMD_ERASE_BUSY 0 1 busy_chip)
     <> Diverge
  /\ result (mst_poll_register 1001 REG_CMD_ATTR CMD_ERASE_BUSY 0 1 busy_chip)
     = Fail (Some (poll_timeout_error REG_CMD_ATTR 0xFF 1 0 CMD_ERASE_BUSY))
  /\ result (mst_poll_register 1000 REG_CMD_ATTR CMD_ERASE_BUSY 0 1 busy_chip)
     = Diverge
  /\ exists err,
       result (mst_poll_register 5 REG_CMD_ATTR CMD_ERASE_BUSY 0 1 dead_bus)
       = Fail (Some err)
       /\ err_code err = G_IO_ERROR_FAILED.
Proof.
  split; [|split; [|split; [|split]]].
  - apply (proj1 (mst_poll_register_outcome 5 REG_MCU_MODE
                    MCU_MODE_WRITE_BUF 0 1 slow_host)).
    exists 0. split; vm_compute; reflexivity.
  - apply (proj2 (proj2 (proj2 (proj2 (proj2
             (mst_poll_register_outcome 1001 REG_CMD_ATTR
                CMD_ERASE_BUSY 0 1 busy_chip)))))).
    + exact mock_monotonic.
    + reflexivity.
  - destruct (mst_poll_register_outcome 1001 REG_CMD_ATTR CMD_ERASE_BUSY 0 1
                busy_chip) as (_ & _ & Ht & _).
    destruct (Ht {| tv_sec := 5; tv_nsec := 0 |} 0xFF (busy_rounds 1001))
      as [R _].
    + vm_compute. reflexivity.
    + vm_compute. discriminate.
    + vm_compute. reflexivity.
    + rewrite R. vm_compute. reflexivity.
  - vm_compute. reflexivity.
  - destruct (mst_poll_register_outcome 5 REG_CMD_ATTR CMD_ERASE_BUSY 0 1
                dead_bus) as (_ & _ & _ & Hi & _).
    apply (Hi [EvClock {| tv_sec := 5; tv_nsec := 0 |}]
              [EvPwrite [REG_CMD_ATTR] true; EvPread 1 None]).
    + vm_compute. reflexivity.
    + right. exists None. split; [reflexivity|discriminate].
Defined.

(** ** Device state across bus traffic *)

Section BusOnly.
Context {D : Type} `{Backend D}.

Lemma bus_only_ret {A} (a : A) : bus_only (ret (D := D) a).
Proof. intros w. repeat split. Qed.

Lemma bus_only_fail {A} e : bus_only (fail (D := D) (A := A) e).
Proof. intros w. repeat split. Qed.

Lemma bus_only_diverge {A} : bus_only (diverge (D := D) (A := A)).
Proof. intros w. repeat split. Qed.

Lemma bus_only_emit e : bus_only (emit (D := D) e).
Proof. intros w. repeat split. Qed.

Lemma bus_only_bind {A B} (m : M D A) (f : A -> M D B) :
  bus_only m -> (forall a, bus_only (f a)) -> bus_only (bind m f).
Proof.
  intros Hm Hf w. unfold bind. destruct (Hm w) as (F1 & V1 & B1).
  destruct (result (m w)) as [a| |]; cbn [final]; try (repeat split; assumption).
  destruct (Hf a (final (m w))) as (F2 & V2 & B2).
  rewrite F2, V2, B2. repeat split; assumption.
Qed.

Lemma bus_only_pwrite_full data : bus_only (fu_udev_device_pwrite_full data).
Proof.
  intros w. unfold fu_udev_device_pwrite_full.
  destruct (bus_pwrite data (bus w)). repeat split.
Qed.

Lemma bus_only_pread_full count : bus_only (fu_udev_device_pread_full count).
Proof.
  intros w. unfold fu_udev_device_pread_full.
  destruct (bus_pread count (bus w)). repeat split.
Qed.

Lemma bus_only_g_usleep us : bus_only (g_usleep us).
Proof. intros w. repeat split. Qed.

Lemma bus_only_clock_gettime : bus_only clock_gettime.
Proof. intros w. repeat split. Qed.

Lemma bus_only_ignore_result {A} (m : M D A) :
  bus_only m -> bus_only (ignore_result m).
Proof.
  intros Hm w. unfold ignore_result.
  destruct (result (m w)); cbn [final]; apply Hm.
Qed.

Lemma bus_only_mst_write_register address value :
  bus_only (mst_write_register address value).
Proof. apply bus_only_pwrite_full. Qed.

Lemma bus_only_mst_read_register address :
  bus_only (mst_read_register address).
Proof.
  apply bus_only_bind; [apply bus_only_pwrite_full|intros _].
  apply bus_only_bind; [apply bus_only_pread_full|intros bytes].
  apply bus_only_ret.
Qed.

Lemma bus_only_mst_set_indirect_address address :
  bus_only (mst_set_indirect_address address).
Proof.
  repeat (apply bus_only_bind; [apply bus_only_mst_write_register|intros _]).
  apply bus_only_mst_write_register.
Qed.

Lemma bus_only_mst_set_gpio88 level : bus_only (mst_set_gpio88 level).
Proof.
  unfold mst_set_gpio88, mst_read_register_indirect,
    mst_write_register_indirect.
  repeat first
    [ apply bus_only_mst_write_register
    | apply bus_only_mst_read_register
    | apply bus_only_mst_set_indirect_address
    | apply bus_only_emit
    | apply bus_only_bind; [|intros ?] ].
Qed.

End BusOnly.

(** ** Version probe *)

Section Probe.
Context {D : Type} `{Backend D}.

Lemma get_dual_bank_info_ok info0 w info :
  result (fu_realtek_mst_device_get_dual_bank_info info0 w) = Ok info ->
  exists raw,
    info = decode_dual_bank_info (map guint8 raw) info0
    /\ In (EvPread 11 (Some raw))
         (emitted (fu_realtek_mst_device_get_dual_bank_info info0 w)).
Proof.
  unfold fu_realtek_mst_device_get_dual_bank_info. intros E.
  apply bind_ok_inv in E. destruct E as ([] & _ & E & -> & _).
  apply bind_ok_inv in E. destruct E as ([] & _ & E & -> & _).
  apply bind_ok_inv in E. destruct E as ([] & _ & E & -> & _).
  apply bind_ok_inv in E. destruct E as (response & R & E & -> & _).
  apply pread_full_ok_inv in R. destruct R as (raw & Er & -> & _).
  exists raw. split.
  - unfold decode_dual_bank_info. cbv zeta in E |- *.
    repeat match type of E with
           | context [if ?c then _ else _] => destruct c
           end;
      repeat (apply bind_ok_inv in E; destruct E as ([] & _ & E & _));
      inversion E; reflexivity.
  - rewrite Er. rewrite !in_app_iff. right. right. right. left. left.
    reflexivity.
Qed.

Lemma bus_only_get_dual_bank_info info0 :
  bus_only (fu_realtek_mst_device_get_dual_bank_info info0).
Proof.
  unfold fu_realtek_mst_device_get_dual_bank_info.
  apply bus_only_bind; [apply bus_only_mst_write_register|intros _].
  apply bus_only_bind; [apply bus_only_g_usleep|intros _].
  apply bus_only_bind; [apply bus_only_pwrite_full|intros _].
  apply bus_only_bind; [apply bus_only_pread_full|intros response].
  cbv zeta.
  repeat match goal with
         | |- context [if ?c then _ else _] => destruct c
         end;
    repeat first [ apply bus_only_ret | apply bus_only_emit
                 | apply bus_only_bind; [|intros ?] ].
Qed.

Lemma decode_enabled_ranges response info0 :
  is_enabled (decode_dual_bank_info response info0) = true ->
  mode (decode_dual_bank_info response info0) <= DUAL_BANK_MAX_VALUE
  /\ info_active_bank (decode_dual_bank_info response info0)
     <= FLASH_BANK_MAX_VALUE.
Proof.
  unfold decode_dual_bank_info. cbv zeta.
  destruct (negb (nth 0 response 0 =? 202) || negb (nth 1 response 0 =? 9));
    [discriminate|].
  destruct (negb (nth 2 response 0 =? 1)); [discriminate|].
  cbn [mode set_mode set_is_enabled].
  destruct (Z.gtb_spec (nth 3 response 0) DUAL_BANK_MAX_VALUE) as [Hm|Hm];
    [discriminate|].
  cbn [info_active_bank set_info_active_bank set_mode set_is_enabled].
  destruct (Z.gtb_spec (nth 4 response 0) FLASH_BANK_MAX_VALUE) as [Hb|Hb];
    [discriminate|].
  cbn. intros _. split; assumption.
Qed.

Lemma has_flag_remove f g l :
  has_flag f (filter (fun x => negb (flag_eqb g x)) l)
  = has_flag f l && negb (flag_eqb g f).
Proof.
  unfold has_flag. induction l as [|x l IH]; [reflexivity|].
  cbn [filter existsb].
  destruct (flag_eqb g x) eqn:Eg; cbn [negb existsb]; rewrite IH.
  - destruct x, g, f; try discriminate; cbn;
      destruct (existsb _ l); reflexivity.
  - destruct x, g, f; try discriminate; cbn;
      destruct (existsb _ l); reflexivity.
Qed.

Lemma has_flag_add f g l :
  has_flag f (if has_flag g l then l else g :: l)
  = has_flag f l || flag_eqb f g.
Proof.
  destruct (has_flag g l) eqn:E.
  - destruct (flag_eqb f g) eqn:Ef; [|rewrite orb_false_r; reflexivity].
    assert (f = g) by (destruct f, g; try discriminate; reflexivity).
    subst. rewrite E. reflexivity.
  - unfold has_flag. cbn [existsb]. apply orb_comm.
Qed.

(** A successful probe, with the version as the code formats it. *)
Lemma probe_version_run (info0 : dual_bank_info) (w : World D) :
  let r := fu_realtek_mst_device_probe_version info0 w in
  result r = Ok tt ->
  exists raw,
    In (EvPread 11 (Some raw)) (emitted r)
    /\ let response := map guint8 raw in
       let info := decode_dual_bank_info response info0 in
       let updatable := is_enabled info && (mode info =? DUAL_BANK_DIFF) in
       has_flag FWUPD_DEVICE_FLAG_UPDATABLE (flags (final r)) = updatable
       /\ (forall f, f <> FWUPD_DEVICE_FLAG_UPDATABLE ->
                     has_flag f (flags (final r)) = has_flag f (flags w))
       /\ (updatable = true ->
           info = {| is_enabled := true; mode := DUAL_BANK_DIFF;
                     info_active_bank := nth 4 response 0;
                     user1_version := (nth 5 response 0, nth 6 response 0);
                     user2_version := (nth 7 response 0, nth 8 response 0) |}
           /\ active_bank (final r) = info_active_bank info
           /\ (info_active_bank info = FLASH_BANK_USER1 ->
               version (final r)
               = Some (format_version (user1_version info)))
           /\ (info_active_bank info = FLASH_BANK_USER2 ->
               version (final r)
               = Some (format_version (user2_version info)))
           /\ (info_active_bank info = FLASH_BANK_BOOT ->
               version (final r) = None))
       /\ (updatable = false ->
           active_bank (final r) = FLASH_BANK_INVALID
           /\ version (final r) = None).
Proof.
  intros r R. subst r. unfold fu_realtek_mst_device_probe_version in *.
  set (w0 := final (fu_device_set_version None
               (final (set_active_bank FLASH_BANK_INVALID
                  (final (fu_device_remove_flag FWUPD_DEVICE_FLAG_UPDATABLE
                            w)))))).
  rewrite (bind_ok (fu_device_remove_flag _) _ w tt eq_refl) in R |- *.
  cbn [result final emitted] in R |- *.
  rewrite (bind_ok (set_active_bank _) _ _ tt eq_refl) in R |- *.
  cbn [result final emitted] in R |- *.
  rewrite (bind_ok (fu_device_set_version _) _ _ tt eq_refl) in R |- *.
  cbn [result final emitted] in R |- *.
  fold w0 in R |- *.
  destruct (result (fu_realtek_mst_device_get_dual_bank_info info0 w0))
    as [info| |] eqn:G;
    [ rewrite (bind_ok _ _ _ _ G) in R |- *
    | rewrite (bind_fail _ _ _ _ G) in R; discriminate
    | rewrite (bind_diverge _ _ _ G) in R; discriminate ].
  cbn [result final emitted] in R |- *.
  destruct (get_dual_bank_info_ok _ _ _ G) as (raw & Ei & HIn).
  destruct (bus_only_get_dual_bank_info info0 w0) as (F1 & V1 & B1).
  set (w1 := final (fu_realtek_mst_device_get_dual_bank_info info0 w0)) in *.
  exists raw. split.
  { do 3 (apply in_or_app; right). apply in_or_app. left. exact HIn. }
  cbv zeta. rewrite <- Ei.
  assert (Hflags0 : forall f, has_flag f (flags w1)
                              = has_flag f (flags w)
                                && negb (flag_eqb FWUPD_DEVICE_FLAG_UPDATABLE f)).
  { intros f. rewrite F1. apply has_flag_remove. }
  destruct (is_enabled info) eqn:En; cbn [negb andb] in R |- *.
  - destruct (Z.eqb_spec (mode info) DUAL_BANK_DIFF) as [Hm|Hm];
      cbn [negb] in R |- *.
    + assert (Hrange : info_active_bank info <= FLASH_BANK_MAX_VALUE).
      { rewrite Ei in En |- *. apply decode_enabled_ranges. exact En. }
      apply Z.leb_le in Hrange.
      unfold bind in R |- *.
      cbn [fu_device_add_flag g_debug emit result final emitted] in R |- *.
      rewrite Hrange in R |- *.
      cbn [g_return_val_if_fail ret set_active_bank result final emitted
             flags version active_bank bus] in R |- *.
      split; [|split; [|split]].
      * destruct (info_active_bank info =? FLASH_BANK_USER1);
          [|destruct (info_active_bank info =? FLASH_BANK_USER2)];
          cbn [fu_device_set_version ret result final flags];
          rewrite has_flag_add, Hflags0; cbn; apply orb_true_r.
      * intros f Hf.
        assert (Hne : flag_eqb f FWUPD_DEVICE_FLAG_UPDATABLE = false)
          by (destruct f; try reflexivity; contradiction).
        assert (Hne' : flag_eqb FWUPD_DEVICE_FLAG_UPDATABLE f = false)
          by (destruct f; try reflexivity; contradiction).
        destruct (info_active_bank info =? FLASH_BANK_USER1);
          [|destruct (info_active_bank info =? FLASH_BANK_USER2)];
          cbn [fu_device_set_version ret result final flags];
          rewrite has_flag_add, Hflags0, Hne, Hne'; cbn;
          rewrite orb_false_r, andb_true_r; reflexivity.
      * intros _. split; [|split; [|split; [|split]]].
        -- rewrite Ei in En, Hm |- *. clear -En Hm.
           unfold decode_dual_bank_info in *. cbv zeta in *.
           repeat match goal with
                  | H : context [if ?c then _ else _] |- _ =>
                      destruct c; try discriminate
                  end.
           cbn in Hm. cbn. rewrite Hm. reflexivity.
        -- destruct (info_active_bank info =? FLASH_BANK_USER1);
             [|destruct (info_active_bank info =? FLASH_BANK_USER2)];
             reflexivity.
        -- intros Hb. rewrite Hb. reflexivity.
        -- intros Hb. rewrite Hb. reflexivity.
        -- intros Hb. rewrite Hb. cbn. exact V1.
      * discriminate.
    + unfold bind. cbn [g_debug emit ret result final emitted].
      split; [|split; [|split]].
      * rewrite Hflags0. cbn. apply andb_false_r.
      * intros f Hf. rewrite Hflags0.
        assert (Hne' : flag_eqb FWUPD_DEVICE_FLAG_UPDATABLE f = false)
          by (destruct f; try reflexivity; contradiction).
        rewrite Hne'. apply andb_true_r.
      * discriminate.
      * intros _. split; [exact B1|exact V1].
  - unfold bind. cbn [g_debug emit ret result final emitted].
    split; [|split; [|split]].
    * rewrite Hflags0. cbn. apply andb_false_r.
    * intros f Hf. rewrite Hflags0.
      assert (Hne' : flag_eqb FWUPD_DEVICE_FLAG_UPDATABLE f = false)
        by (destruct f; try reflexivity; contradiction).
      rewrite Hne'. apply andb_true_r.
    * discriminate.
    * intros _. split; [exact B1|exact V1].
Qed.

Lemma format_u_byte x : 0 <= x < 256 -> format_u x = decimal_of_byte x.
Proof.
  intros Hx.
  assert (Hall : forallb (fun n => String.eqb (format_u (Z.of_nat n))
                                     (decimal_of_byte (Z.of_nat n)))
                   (seq 0 256) = true) by (vm_compute; reflexivity).
  rewrite forallb_forall in Hall.
  specialize (Hall (Z.to_nat x)).
  rewrite Z2Nat.id in Hall by lia. apply String.eqb_eq. apply Hall.
  apply in_seq. lia.
Qed.

Lemma nth_guint8_range i raw : 0 <= nth i (map guint8 raw) 0 < 256.
Proof.
  destruct (Nat.lt_ge_cases i (List.length raw)) as [Hi|Hi].
  - assert (E : nth i (map guint8 raw) 0 = guint8 (nth i raw 0))
      by (change 0 with (guint8 0) at 1; apply map_nth).
    rewrite E. apply guint8_range.
  - rewrite nth_overflow by (rewrite length_map; exact Hi). lia.
Qed.

Lemma format_version_text a b :
  0 <= a < 256 -> 0 <= b < 256 -> format_version (a, b) = version_text (a, b).
Proof.
  intros Ha Hb. unfold format_version, version_text. cbn [fst snd].
  rewrite !format_u_byte by assumption. reflexivity.
Qed.

(** C9: after a successful probe the UPDATABLE flag says whether the
    decoded status is enabled in diff mode.  If so the active bank is
    recorded, and the version is the pair of that bank for a user bank,
    written major, dot, minor in decimal, and stays unset for the boot
    bank; if not, active bank and version stay as cleared on entry.  No
    other flag changes. *)
Theorem probe_version_outcome (info0 : dual_bank_info) (w : World D) :
  let r := fu_realtek_mst_device_probe_version info0 w in
  result r = Ok tt ->
  exists raw,
    In (EvPread 11 (Some raw)) (emitted r)
    /\ let response := map guint8 raw in
       let info := decode_dual_bank_info response info0 in
       let updatable := is_enabled info && (mode info =? DUAL_BANK_DIFF) in
       has_flag FWUPD_DEVICE_FLAG_UPDATABLE (flags (final r)) = updatable
       /\ (forall f, f <> FWUPD_DEVICE_FLAG_UPDATABLE ->
                     has_flag f (flags (final r)) = has_flag f (flags w))
       /\ (updatable = true ->
           info = {| is_enabled := true; mode := DUAL_BANK_DIFF;
                     info_active_bank := nth 4 response 0;
                     user1_version := (nth 5 response 0, nth 6 response 0);
                     user2_version := (nth 7 response 0, nth 8 response 0) |}
           /\ active_bank (final r) = nth 4 response 0
           /\ (nth 4 response 0 = FLASH_BANK_USER1 ->
               version (final r)
               = Some (version_text (nth 5 response 0, nth 6 response 0)))
           /\ (nth 4 response 0 = FLASH_BANK_USER2 ->
               version (final r)
               = Some (version_text (nth 7 response 0, nth 8 response 0)))
           /\ (nth 4 response 0 = FLASH_BANK_BOOT ->
               version (final r) = None))
       /\ (updatable = false ->
           active_bank (final r) = FLASH_BANK_INVALID
           /\ version (final r) = None).
Proof.
  intros r R.
  destruct (probe_version_run info0 w R) as (raw & HIn & Hrun).
  exists raw. split; [exact HIn|].
  cbv zeta in Hrun |- *. fold r in Hrun.
  destruct Hrun as (Hf & Ho & Hu & Hn).
  split; [exact Hf|]. split; [exact Ho|]. split; [|exact Hn].
  intros Hup. destruct (Hu Hup) as (Ei & Hb & H1 & H2 & H0).
  rewrite Ei in Hb, H1, H2, H0.
  cbn [info_active_bank user1_version user2_version] in Hb, H1, H2, H0.
  split; [exact Ei|]. split; [exact Hb|].
  split; [|split; [|exact H0]].
  - intros E. rewrite (H1 E).
    rewrite format_version_text by apply nth_guint8_range. reflexivity.
  - intros E. rewrite (H2 E).
    rewrite format_version_text by apply nth_guint8_range. reflexivity.
Qed.

End Probe.

Example probe_version_e1 :
  let r := fu_realtek_mst_device_probe_version stack_garbage e1_world in
  result r = Ok tt
  /\ flags (final r)
     = [FWUPD_DEVICE_FLAG_UPDATABLE; FWUPD_DEVICE_FLAG_INTERNAL;
        FWUPD_DEVICE_FLAG_DUAL_IMAGE]
  /\ version (final r) = Some "3.7"
  /\ active_bank (final r) = FLASH_BANK_USER2.
Proof. vm_compute. repeat split. Qed.

(** Scenario E1: the response [CA 09 01 01 02 02 05 03 07 00 00] makes
    the device updatable, running from USER2, at version 3.7. *)
Lemma probe_version_outcome_witness :
  has_flag FWUPD_DEVICE_FLAG_UPDATABLE
    (flags (final (fu_realtek_mst_device_probe_version stack_garbage
                     e1_world))) = true
  /\ active_bank (final (fu_realtek_mst_device_probe_version stack_garbage
                           e1_world)) = FLASH_BANK_USER2
  /\ version (final (fu_realtek_mst_device_probe_version stack_garbage
                       e1_world)) = Some "3.7".
Proof.
  assert (R : result (fu_realtek_mst_device_probe_version stack_garbage
                        e1_world) = Ok tt) by (vm_compute; reflexivity).
  destruct (probe_version_outcome stack_garbage e1_world R)
    as (raw & HIn & Hrun).
  assert (Hraw : raw = [0xCA; 0x09; 0x01; 0x01; 0x02; 0x02; 0x05; 0x03;
                        0x07; 0x00; 0x00]).
  { vm_compute in HIn.
    repeat (destruct HIn as [E|HIn];
            [try discriminate; inversion E; reflexivity|]).
    destruct HIn. }
  subst raw. cbv zeta in Hrun. destruct Hrun as (Hf & _ & Hu & _).
  destruct Hu as (_ & Hb & _ & H2 & _); [vm_compute; reflexivity|].
  split; [rewrite Hf; vm_compute; reflexivity|].
  split; [rewrite Hb; vm_compute; reflexivity|].
  rewrite H2 by (vm_compute; reflexivity). vm_compute. reflexivity.
Defined.

(** ** Attach *)

Section Attach.
Context {D : Type} `{Backend D}.



End Attach.


(** ** Update sequencer: the flash operations of a run *)

Lemma poll_quiet_flash_op : poll_quiet (fun e => flash_op_of e = None).
Proof. repeat split. Qed.

Ltac op_silent :=
  first
    [ apply emits_g_return_val_if_fail
    | apply emits_g_debug; reflexivity
    | apply emits_set_status; reflexivity
    | apply emits_set_progress; reflexivity
    | apply emits_mst_write_register; reflexivity
    | apply emits_mst_write_register_multi; reflexivity
    | apply emits_mst_poll_register; apply poll_quiet_flash_op
    | apply emits_pwrite; apply poll_quiet_flash_op
    | apply emits_pread; apply poll_quiet_flash_op
    | apply emits_pread_full; reflexivity
    | apply emits_g_prefix_error; apply emits_mst_poll_register;
      apply poll_quiet_flash_op
    | apply emits_g_set_error
    | apply emits_ret ].

Ltac op_silent_chain :=
  repeat first [ op_silent | apply emits_bind; [|intros ?] ].

Section Sequencer.
Context {D : Type} `{Backend D}.

Lemma scripted_g_debug {X} (proj : event -> option X) x format args :
  proj (EvDebug format args) = Some x ->
  scripted proj [x] (g_debug (D := D) format args).
Proof.
  intros E w. cbn [g_debug emit emitted result filter_map]. rewrite E.
  split; [exists []|]; reflexivity.
Qed.

Lemma flash_iface_erase_block_op budget address :
  scripted flash_op_of [OpEraseBlock address]
    (flash_iface_erase_block budget address).
Proof.
  unfold flash_iface_erase_block.
  apply scripted_bind_silent; [op_silent|intros _].
  apply scripted_bind_cons; [apply scripted_g_debug; reflexivity|intros _].
  apply scripted_silent. op_silent_chain.
Qed.

Lemma flash_iface_erase_sector_op budget address :
  scripted flash_op_of [OpEraseSector address]
    (flash_iface_erase_sector budget address).
Proof.
  unfold flash_iface_erase_sector.
  apply scripted_bind_silent; [op_silent|intros _].
  apply scripted_bind_cons; [apply scripted_g_debug; reflexivity|intros _].
  apply scripted_silent. op_silent_chain.
Qed.

Lemma emits_read_loop_flash_op n buf_size :
  forall bytes_read,
    emits (fun e => flash_op_of e = None)
      (flash_iface_read_loop n buf_size bytes_read).
Proof.
  induction n as [|n IH]; intros bytes_read; simpl;
    destruct (bytes_read <? buf_size);
    try apply emits_ret; try apply emits_diverge.
  apply emits_bind; [op_silent|intros chunk].
  apply emits_bind; [op_silent|intros _].
  apply emits_bind; [apply IH|intros rest]. apply emits_ret.
Qed.

Lemma flash_iface_read_op address buf_size :
  scripted flash_op_of [OpRead address buf_size]
    (flash_iface_read address buf_size).
Proof.
  unfold flash_iface_read.
  apply scripted_bind_silent; [op_silent|intros _].
  apply scripted_bind_silent; [op_silent|intros _].
  apply scripted_bind_cons; [apply scripted_g_debug; reflexivity|intros _].
  cbv zeta. apply scripted_silent.
  do 6 (apply emits_bind; [op_silent|intros ?]).
  apply emits_read_loop_flash_op.
Qed.

Lemma emits_write_chunk_flash_op budget address chunk_size data :
  emits (fun e => flash_op_of e = None)
    (flash_iface_write_chunk budget address chunk_size data).
Proof. unfold flash_iface_write_chunk. op_silent_chain. Qed.

Lemma emits_write_loop_flash_op budget total_size :
  forall n remaining_size address data,
    emits (fun e => flash_op_of e = None)
      (flash_iface_write_loop n budget total_size remaining_size address
         data).
Proof.
  induction n as [|n IH]; intros remaining_size address data; simpl;
    destruct (remaining_size >? 0);
    try apply emits_ret; try apply emits_diverge.
  apply emits_bind; [apply emits_write_chunk_flash_op|intros _].
  apply emits_bind; [op_silent|intros _].
  apply IH.
Qed.

Lemma flash_iface_write_op budget address data :
  scripted flash_op_of [OpWrite address (Z.of_nat (List.length data))]
    (flash_iface_write budget address data).
Proof.
  unfold flash_iface_write.
  apply scripted_bind_cons; [apply scripted_g_debug; reflexivity|intros _].
  apply scripted_silent. apply emits_write_loop_flash_op.
Qed.

(** The erase loop of [write_firmware] goes through its body once. *)
Lemma erase_old_image_loop_once n budget base_addr w :
  erase_old_image_loop (S n) budget base_addr 0 w
  = bind (fu_device_set_progress_full 0 FLASH_USER_SIZE)
      (fun _ =>
         bind (flash_iface_erase_block budget (guint32 (base_addr + 0)))
           (fun _ => ret tt)) w.
Proof.
  cbn [erase_old_image_loop].
  change (0 <? FLASH_USER_SIZE) with true. cbv iota.
  unfold bind.
  destruct (result (fu_device_set_progress_full 0 FLASH_USER_SIZE w));
    try reflexivity.
  destruct (result (flash_iface_erase_block budget (guint32 (base_addr + 0))
                      _)); try reflexivity.
  destruct n; reflexivity.
Qed.

Lemma erase_old_image_loop_op n budget base_addr :
  0 <= base_addr < 2 ^ 32 ->
  scripted flash_op_of [OpEraseBlock base_addr]
    (erase_old_image_loop (S n) budget base_addr 0).
Proof.
  intros Hb w. rewrite erase_old_image_loop_once.
  rewrite Z.add_0_r, guint32_small by exact Hb.
  revert w.
  apply scripted_bind_silent; [op_silent|intros _].
  apply (scripted_bind flash_op_of [OpEraseBlock base_addr] []).
  - apply flash_iface_erase_block_op.
  - intros _. apply scripted_ret.
Qed.

Lemma run_eta {A} (r : Run D A) :
  {| result := result r; final := final r; emitted := emitted r |} = r.
Proof. destruct r. reflexivity. Qed.

Lemma bind_ext {A B} (m : M D A) (f g : A -> M D B) w :
  (forall a w', f a w' = g a w') -> bind m f w = bind m g w.
Proof.
  intros E. unfold bind. destruct (result (m w)); try reflexivity.
  rewrite E. reflexivity.
Qed.

(** A container that holds its payload: the update is the one of the
    payload. *)
Lemma write_firmware_of_bytes budget firmware_bytes :
  fu_realtek_mst_device_write_firmware budget (FirmwareBytes firmware_bytes)
  = write_firmware_image budget firmware_bytes.
Proof. reflexivity. Qed.

(** A container without payload: [FALSE] at the size check, with the
    error of [fu_firmware_get_bytes], before any call. *)
Lemma write_firmware_no_bytes budget error w :
  fu_realtek_mst_device_write_firmware budget (FirmwareNoBytes error) w
  = {| result := Fail (Some error); final := w; emitted := [] |}.
Proof. reflexivity. Qed.

Lemma write_firmware_split budget firmware_bytes w :
  write_firmware_image budget firmware_bytes w
  = bind (write_firmware_upto_readback budget firmware_bytes (active_bank w))
      (write_firmware_after_readback budget firmware_bytes (active_bank w))
      w.
Proof.
  unfold write_firmware_image.
  rewrite (bind_ok get_active_bank _ w (active_bank w) eq_refl).
  cbn [get_active_bank result final emitted app]. rewrite run_eta.
  unfold write_firmware_upto_readback, write_firmware_after_readback.
  cbv zeta. symmetry.
  do 8 (rewrite bind_assoc_run; apply bind_ext; intros ? ?).
  reflexivity.
Qed.

Lemma write_firmware_upto_readback_ops budget firmware_bytes bank :
  scripted flash_op_of
    [OpEraseBlock (write_target_base bank);
     OpWrite (write_target_base bank) FLASH_USER_SIZE;
     OpRead (write_target_base bank) FLASH_USER_SIZE]
    (write_firmware_upto_readback budget firmware_bytes bank).
Proof.
  unfold write_firmware_upto_readback. cbv zeta.
  destruct (Z.eqb_spec (Z.of_nat (List.length firmware_bytes)) FLASH_USER_SIZE)
    as [Hl|Hl].
  - apply scripted_bind_silent; [op_silent|intros _].
    apply scripted_bind_silent; [op_silent|intros _].
    apply scripted_bind_silent; [op_silent|intros _].
    change (Z.to_nat (FLASH_USER_SIZE / BLOCK_SIZE)) with 7%nat.
    apply scripted_bind_cons.
    { apply erase_old_image_loop_op. unfold write_target_base.
      destruct (bank =? FLASH_BANK_USER1); cbv; split; congruence. }
    intros _.
    apply scripted_bind_silent; [op_silent|intros _].
    apply scripted_bind_silent; [op_silent|intros _].
    rewrite <- Hl.
    apply scripted_bind_cons; [apply flash_iface_write_op|intros _].
    rewrite Hl.
    apply scripted_bind_silent; [op_silent|intros _].
    apply flash_iface_read_op.
  - cbn [g_return_val_if_fail]. intros w.
    rewrite (bind_fail (fail None) _ w None eq_refl).
    cbn [result emitted fail filter_map].
    split; [eexists; reflexivity|discriminate].
Qed.

Lemma flag_sector_address bank :
  Z.land (write_target_flag bank) (guint32 (Z.lnot (SECTOR_SIZE - 1)))
  = write_target_flag bank - write_target_flag bank mod SECTOR_SIZE.
Proof. unfold write_target_flag. destruct (bank =? FLASH_BANK_USER1); reflexivity. Qed.

Lemma write_firmware_after_readback_ops budget firmware_bytes bank readback :
  scripted flash_op_of
    [OpEraseSector (write_target_flag bank
                    - write_target_flag bank mod SECTOR_SIZE);
     OpWrite (write_target_flag bank) 5]
    (write_firmware_after_readback budget firmware_bytes bank readback).
Proof.
  unfold write_firmware_after_readback. cbv zeta. rewrite flag_sector_address.
  apply scripted_bind_silent.
  { destruct (memcmp_differs _ _ _); op_silent. }
  intros _.
  apply scripted_bind_silent; [op_silent|intros _].
  apply scripted_bind_cons; [apply flash_iface_erase_sector_op|intros _].
  apply scripted_bind_silent; [op_silent|intros _].
  apply (flash_iface_write_op budget (write_target_flag bank) flag_data).
Qed.

(** The flash operations of an update, whatever the chip does. *)
Lemma write_firmware_ops budget firmware_bytes w :
  (exists rest,
     flash_ops (emitted (write_firmware_image budget
                           firmware_bytes w)) ++ rest
     = update_ops (active_bank w))
  /\ (result (write_firmware_image budget firmware_bytes w)
      = Ok tt ->
      flash_ops (emitted (write_firmware_image budget
                            firmware_bytes w))
      = update_ops (active_bank w)).
Proof.
  rewrite write_firmware_split.
  pose proof (scripted_bind flash_op_of _ _
                (write_firmware_upto_readback budget firmware_bytes
                   (active_bank w))
                (write_firmware_after_readback budget firmware_bytes
                   (active_bank w))
                (write_firmware_upto_readback_ops budget firmware_bytes
                   (active_bank w))
                (write_firmware_after_readback_ops budget firmware_bytes
                   (active_bank w)) w) as [Hpre Hall].
  split; [exact Hpre|].
  intros R. apply Hall. rewrite R. reflexivity.
Qed.

End Sequencer.

(** ** The update on a chip that acknowledges everything and reads zero *)

Lemma runs_ok_clock_gettime {D} `{Backend D} (w : World D) :
  runs_ok clock_gettime w (bus_clock (bus w)).
Proof. split; reflexivity. Qed.

Lemma runs_ok_g_prefix_error {D A} format args (m : M D A) w a :
  runs_ok m w a -> runs_ok (g_prefix_error format args m) w a.
Proof.
  intros [R F]. unfold runs_ok, g_prefix_error. rewrite R. split; assumption.
Qed.

Lemma ideal0_mst_poll_register budget address mask timeout w :
  ideal0 w -> runs_ok (mst_poll_register budget address mask 0 timeout) w tt.
Proof.
  intros [Hi Hf]. unfold mst_poll_register.
  eapply runs_ok_bind; [apply runs_ok_clock_gettime|].
  eapply runs_ok_bind; [apply ideal_mst_read_register; exact Hi|].
  rewrite Hf. change (guint8 0) with 0.
  eapply runs_ok_bind.
  - instantiate (1 := 0). destruct budget; apply runs_ok_ret.
  - apply runs_ok_ret.
Qed.

Lemma ideal0_flash_iface_erase_block budget address w :
  ideal0 w -> Z.land address 0xFFFF = 0 ->
  runs_ok (flash_iface_erase_block budget address) w tt.
Proof.
  intros Hi Ha. pose proof Hi as [Hi' _]. unfold flash_iface_erase_block.
  eapply runs_ok_bind;
    [apply runs_ok_g_return_val_if_fail; apply Z.eqb_eq; exact Ha|].
  eapply runs_ok_bind; [apply runs_ok_emit|].
  do 6 (eapply runs_ok_bind; [apply ideal_mst_write_register; exact Hi'|]).
  apply ideal0_mst_poll_register. exact Hi.
Qed.

Lemma ideal0_flash_iface_erase_sector budget address w :
  ideal0 w -> Z.land address 0xFFF = 0 ->
  runs_ok (flash_iface_erase_sector budget address) w tt.
Proof.
  intros Hi Ha. pose proof Hi as [Hi' _]. unfold flash_iface_erase_sector.
  eapply runs_ok_bind;
    [apply runs_ok_g_return_val_if_fail; apply Z.eqb_eq; exact Ha|].
  eapply runs_ok_bind; [apply runs_ok_emit|].
  do 6 (eapply runs_ok_bind; [apply ideal_mst_write_register; exact Hi'|]).
  apply ideal0_mst_poll_register. exact Hi.
Qed.

Lemma ideal0_flash_iface_write_chunk budget address chunk_size data w :
  ideal0 w ->
  runs_ok (flash_iface_write_chunk budget address chunk_size data) w tt.
Proof.
  intros Hi. pose proof Hi as [Hi' _]. unfold flash_iface_write_chunk.
  do 5 (eapply runs_ok_bind; [apply ideal_mst_write_register; exact Hi'|]).
  eapply runs_ok_bind; [apply ideal0_mst_poll_register; exact Hi|].
  eapply runs_ok_bind; [apply ideal_pwrite_full; exact Hi'|].
  eapply runs_ok_bind; [apply ideal_mst_write_register; exact Hi'|].
  apply runs_ok_g_prefix_error. apply ideal0_mst_poll_register. exact Hi.
Qed.

Lemma ideal0_flash_iface_write_loop budget total_size w :
  ideal0 w ->
  forall n remaining_size address data,
    (Z.to_nat remaining_size <= n)%nat ->
    runs_ok (flash_iface_write_loop n budget total_size remaining_size
               address data) w tt.
Proof.
  intros Hi. induction n as [|n IH]; intros remaining_size address data Hn;
    cbn [flash_iface_write_loop];
    destruct (Z.gtb_spec remaining_size 0) as [Hr|Hr];
    try apply runs_ok_ret; [lia|].
  eapply runs_ok_bind; [apply ideal0_flash_iface_write_chunk; exact Hi|].
  eapply runs_ok_bind; [apply runs_ok_emit|].
  apply IH. unfold chunk_size_of.
  destruct (Z.gtb_spec remaining_size 256); lia.
Qed.

Lemma ideal0_flash_iface_write budget address data w :
  ideal0 w -> runs_ok (flash_iface_write budget address data) w tt.
Proof.
  intros Hi. unfold flash_iface_write.
  eapply runs_ok_bind; [apply runs_ok_emit|].
  apply ideal0_flash_iface_write_loop; [exact Hi|lia].
Qed.

Lemma write_target_base_aligned bank :
  Z.land (guint32 (write_target_base bank + 0)) 0xFFFF = 0
  /\ write_target_base bank < FLASH_SIZE.
Proof.
  unfold write_target_base. destruct (bank =? FLASH_BANK_USER1);
    split; reflexivity.
Qed.

Lemma ideal0_upto_readback budget firmware_bytes bank w :
  ideal0 w ->
  Z.of_nat (List.length firmware_bytes) = FLASH_USER_SIZE ->
  runs_ok (write_firmware_upto_readback budget firmware_bytes bank) w
    blank_image.
Proof.
  intros Hi Hl. pose proof Hi as [Hi' Hf].
  destruct (write_target_base_aligned bank) as [Hal Hlt].
  unfold write_firmware_upto_readback. cbv zeta.
  eapply runs_ok_bind;
    [apply runs_ok_g_return_val_if_fail; apply Z.eqb_eq; exact Hl|].
  eapply runs_ok_bind; [apply runs_ok_emit|].
  eapply runs_ok_bind; [apply runs_ok_emit|].
  eapply runs_ok_bind.
  { change (Z.to_nat (FLASH_USER_SIZE / BLOCK_SIZE)) with 7%nat.
    unfold runs_ok. rewrite erase_old_image_loop_once.
    eapply runs_ok_bind; [apply runs_ok_emit|].
    eapply runs_ok_bind;
      [apply ideal0_flash_iface_erase_block; [exact Hi|exact Hal]|].
    apply runs_ok_ret. }
  eapply runs_ok_bind; [apply runs_ok_emit|].
  eapply runs_ok_bind; [apply runs_ok_emit|].
  eapply runs_ok_bind; [apply ideal0_flash_iface_write; exact Hi|].
  eapply runs_ok_bind; [apply runs_ok_emit|].
  pose proof (ideal_flash_iface_read (write_target_base bank) FLASH_USER_SIZE
                w Hi' Hlt) as Hr.
  rewrite Hf in Hr. change (guint8 0) with 0 in Hr.
  unfold blank_image. apply Hr. split; discriminate.
Qed.

Lemma bytes_eqb_eq a : forall b, bytes_eqb a b = true <-> a = b.
Proof.
  induction a as [|x a IH]; intros [|y b]; cbn [bytes_eqb];
    try (split; [discriminate|discriminate]); [tauto|].
  rewrite andb_true_iff, Z.eqb_eq, IH. split.
  - intros [-> ->]. reflexivity.
  - intros E. inversion E. split; reflexivity.
Qed.

Lemma memcmp_differs_iff a b n :
  Z.of_nat (List.length a) = n -> Z.of_nat (List.length b) = n ->
  memcmp_differs a b n = true <-> a <> b.
Proof.
  intros Ha Hb. unfold memcmp_differs.
  rewrite !firstn_all2 by lia.
  rewrite negb_true_iff. split.
  - intros E ->. rewrite (proj2 (bytes_eqb_eq b b) eq_refl) in E.
    discriminate.
  - intros Hn. destruct (bytes_eqb a b) eqn:E; [|reflexivity].
    apply bytes_eqb_eq in E. contradiction.
Qed.

Lemma write_target_flag_aligned bank :
  Z.land (Z.land (write_target_flag bank)
            (guint32 (Z.lnot (SECTOR_SIZE - 1)))) 0xFFF = 0.
Proof.
  unfold write_target_flag. destruct (bank =? FLASH_BANK_USER1); reflexivity.
Qed.

Lemma ideal0_after_readback budget firmware_bytes bank readback w :
  ideal0 w ->
  memcmp_differs firmware_bytes readback FLASH_USER_SIZE = false ->
  runs_ok (write_firmware_after_readback budget firmware_bytes bank readback)
    w tt.
Proof.
  intros Hi Hm. unfold write_firmware_after_readback. cbv zeta. rewrite Hm.
  eapply runs_ok_bind; [apply runs_ok_ret|].
  eapply runs_ok_bind; [apply runs_ok_emit|].
  eapply runs_ok_bind;
    [apply ideal0_flash_iface_erase_sector;
     [exact Hi|apply write_target_flag_aligned]|].
  eapply runs_ok_bind; [apply runs_ok_emit|].
  apply ideal0_flash_iface_write. exact Hi.
Qed.

Lemma blank_image_length : Z.of_nat (List.length blank_image) = FLASH_USER_SIZE.
Proof.
  unfold blank_image. rewrite repeat_length. apply Z2Nat.id. discriminate.
Qed.

(** A blank image goes through on such a chip. *)
Lemma ideal0_write_firmware budget w :
  ideal0 w ->
  runs_ok (write_firmware_image budget blank_image) w tt.
Proof.
  intros Hi. unfold runs_ok. rewrite write_firmware_split.
  eapply runs_ok_bind;
    [apply ideal0_upto_readback; [exact Hi|exact blank_image_length]|].
  apply ideal0_after_readback; [exact Hi|].
  destruct (memcmp_differs _ _ _) eqn:E; [|reflexivity].
  apply memcmp_differs_iff in E;
    [contradiction E; reflexivity|exact blank_image_length
    |exact blank_image_length].
Qed.

(** ** Update sequencer: erase phase *)

(** Whatever the chip does, an update goes into at most one block erase,
    the one at the base of the target bank. *)
Lemma write_firmware_block_erases {D} `{Backend D} (budget : nat)
    (firmware : FuFirmware) (w : World D) :
  exists rest,
    filter is_block_erase
      (flash_ops (emitted (fu_realtek_mst_device_write_firmware budget
                             firmware w))) ++ rest
    = [OpEraseBlock (write_target_base (active_bank w))].
Proof.
  destruct firmware as [firmware_bytes|error];
    [rewrite write_firmware_of_bytes
    |rewrite write_firmware_no_bytes; eexists; reflexivity].
  destruct (write_firmware_ops budget firmware_bytes w) as [[rest E] _].
  apply (f_equal (filter is_block_erase)) in E.
  rewrite filter_app in E. cbn [update_ops filter is_block_erase] in E.
  eexists. exact E.
Qed.

(** C1 fails on the code.  Updating from USER1 with a blank image, on a
    chip that acknowledges everything and reads zero, the update succeeds
    after a single block erase at 0x80000: the six blocks from 0x90000 to
    0xE0000 are programmed without having been erased. *)
Theorem write_firmware_erases_one_block :
  result (fu_realtek_mst_device_write_firmware 3 (FirmwareBytes blank_image)
            update_from_user1) = Ok tt
  /\ flash_ops (emitted (fu_realtek_mst_device_write_firmware 3 (FirmwareBytes blank_image)
                           update_from_user1))
     = [OpEraseBlock 0x80000; OpWrite 0x80000 0x70000; OpRead 0x80000 0x70000;
        OpEraseSector 0xFF000; OpWrite 0xFF304 5]
  /\ filter is_block_erase
       (flash_ops (emitted (fu_realtek_mst_device_write_firmware 3 (FirmwareBytes blank_image) update_from_user1)))
     = [OpEraseBlock 0x80000]
  /\ image_blocks 0x80000
     = [OpEraseBlock 0x80000; OpEraseBlock 0x90000; OpEraseBlock 0xA0000;
        OpEraseBlock 0xB0000; OpEraseBlock 0xC0000; OpEraseBlock 0xD0000;
        OpEraseBlock 0xE0000].
Proof.
  rewrite write_firmware_of_bytes.
  assert (Hi : ideal0 update_from_user1) by (repeat split).
  destruct (ideal0_write_firmware 3 update_from_user1 Hi) as [R _].
  pose proof (proj2 (write_firmware_ops 3 blank_image update_from_user1) R)
    as E.
  change (update_ops (active_bank update_from_user1))
    with [OpEraseBlock 0x80000; OpWrite 0x80000 0x70000;
          OpRead 0x80000 0x70000; OpEraseSector 0xFF000; OpWrite 0xFF304 5]
    in E.
  split; [exact R|]. split; [exact E|]. split; [rewrite E|]; reflexivity.
Qed.

(** ** Update sequencer: target selection *)

Ltac spare_ops :=
  repeat apply Forall_cons; try apply Forall_nil;
  intros r E; inversion E; subst r;
  repeat apply Forall_cons; try apply Forall_nil;
  unfold disjoint; cbn [fst snd];
  unfold FLASH_USER1_ADDR, FLASH_USER2_ADDR, FLASH_FLAG1_ADDR,
    FLASH_FLAG2_ADDR, FLASH_USER_SIZE, BLOCK_SIZE, SECTOR_SIZE;
  lia.

Lemma update_ops_spare bank : Forall (spares bank) (update_ops bank).
Proof.
  unfold update_ops, write_target_base, write_target_flag, spares,
    active_regions.
  destruct (Z.eqb_spec bank FLASH_BANK_USER1) as [Hb|Hb]; [spare_ops|].
  destruct (Z.eqb_spec bank FLASH_BANK_USER2) as [Hb'|Hb']; spare_ops.
Qed.

Lemma pages_range :
  forall n address data,
    0 <= address ->
    address + Z.of_nat (List.length data) <= 2 ^ 32 ->
    Forall (fun p => address <= fst p
                     /\ fst p + Z.of_nat (List.length (snd p))
                        <= address + Z.of_nat (List.length data))
      (pages n address data).
Proof.
  induction n as [|n IH]; intros address data Ha Hd; [constructor|].
  destruct data as [|b data']; [constructor|].
  set (data := b :: data') in *.
  change (pages (S n) address data)
    with ((address, firstn 256 data)
          :: pages n (guint32 (address + 256)) (skipn 256 data)).
  constructor.
  - cbn [fst snd]. rewrite length_firstn. lia.
  - destruct (Nat.le_gt_cases (List.length data) 256) as [Hs|Hs].
    + rewrite skipn_all2 by exact Hs. rewrite pages_nil. constructor.
    + rewrite guint32_small by lia.
      eapply Forall_impl; [|apply IH; [lia|rewrite length_skipn; lia]].
      intros p [H1 H2]. rewrite length_skipn in H2. lia.
Qed.

Section Targets.
Context {D : Type} `{Backend D}.

Lemma erase_old_image_loop_script n budget base_addr :
  0 <= base_addr < 2 ^ 32 ->
  scripted reg_write (erase_block_script base_addr)
    (erase_old_image_loop (S n) budget base_addr 0).
Proof.
  intros Hb w. rewrite erase_old_image_loop_once.
  rewrite Z.add_0_r, guint32_small by exact Hb.
  revert w.
  apply scripted_bind_silent; [apply emits_set_progress; reflexivity|intros _].
  rewrite <- (app_nil_r (erase_block_script base_addr)).
  apply scripted_bind.
  - apply flash_iface_erase_block_script.
  - intros _. apply scripted_ret.
Qed.

Lemma write_target_base_range bank : 0 <= write_target_base bank < 2 ^ 32.
Proof.
  unfold write_target_base. destruct (bank =? FLASH_BANK_USER1);
    split; (discriminate || reflexivity).
Qed.

(** The register writes of an update, whatever the chip does. *)
Lemma write_firmware_reg_scripted budget firmware_bytes bank :
  scripted reg_write
    (erase_block_script (write_target_base bank)
     ++ write_script (write_target_base bank) firmware_bytes
     ++ read_script (write_target_base bank)
     ++ erase_sector_script
          (write_target_flag bank
           - write_target_flag bank mod SECTOR_SIZE)
     ++ write_script (write_target_flag bank) flag_data)
    (bind (write_firmware_upto_readback budget firmware_bytes bank)
       (write_firmware_after_readback budget firmware_bytes
          bank)).
Proof.
  replace (erase_block_script (write_target_base bank)
           ++ write_script (write_target_base bank) firmware_bytes
           ++ read_script (write_target_base bank)
           ++ erase_sector_script
                (write_target_flag bank
                 - write_target_flag bank mod SECTOR_SIZE)
           ++ write_script (write_target_flag bank) flag_data)
    with ((erase_block_script (write_target_base bank)
           ++ write_script (write_target_base bank) firmware_bytes
           ++ read_script (write_target_base bank))
          ++ (erase_sector_script
                (write_target_flag bank
                 - write_target_flag bank mod SECTOR_SIZE)
              ++ write_script (write_target_flag bank) flag_data))
    by (rewrite <- !app_assoc; reflexivity).
  apply scripted_bind.
  - unfold write_firmware_upto_readback. cbv zeta.
    apply scripted_bind_silent;
      [apply emits_g_return_val_if_fail|intros _].
    apply scripted_bind_silent; [apply emits_g_debug; reflexivity|intros _].
    apply scripted_bind_silent;
      [apply emits_set_status; reflexivity|intros _].
    apply scripted_bind.
    { change (Z.to_nat (FLASH_USER_SIZE / BLOCK_SIZE)) with 7%nat.
      apply erase_old_image_loop_script. apply write_target_base_range. }
    intros _.
    apply scripted_bind_silent; [apply emits_g_debug; reflexivity|intros _].
    apply scripted_bind_silent;
      [apply emits_set_status; reflexivity|intros _].
    apply scripted_bind; [apply flash_iface_write_script|intros _].
    apply scripted_bind_silent;
      [apply emits_set_status; reflexivity|intros _].
    apply flash_iface_read_script.
  - intros readback. unfold write_firmware_after_readback. cbv zeta.
    rewrite flag_sector_address.
    apply scripted_bind_silent.
    { destruct (memcmp_differs _ _ _);
        [apply emits_g_set_error|apply emits_ret]. }
    intros _.
    apply scripted_bind_silent;
      [apply emits_set_status; reflexivity|intros _].
    apply scripted_bind; [apply flash_iface_erase_sector_script|intros _].
    apply scripted_bind_silent;
      [apply emits_set_status; reflexivity|intros _].
    apply flash_iface_write_script.
Qed.

Lemma write_firmware_reg_script budget firmware_bytes w :
  exists rest,
    reg_writes (emitted (write_firmware_image budget
                           firmware_bytes w)) ++ rest
    = erase_block_script (write_target_base (active_bank w))
      ++ write_script (write_target_base (active_bank w)) firmware_bytes
      ++ read_script (write_target_base (active_bank w))
      ++ erase_sector_script
           (write_target_flag (active_bank w)
            - write_target_flag (active_bank w) mod SECTOR_SIZE)
      ++ write_script (write_target_flag (active_bank w)) flag_data.
Proof.
  rewrite write_firmware_split.
  apply (write_firmware_reg_scripted budget firmware_bytes (active_bank w) w).
Qed.

Lemma write_firmware_reg_script_ok budget firmware_bytes w :
  result (write_firmware_image budget firmware_bytes w) = Ok tt ->
  reg_writes (emitted (write_firmware_image budget firmware_bytes w))
  = erase_block_script (write_target_base (active_bank w))
    ++ write_script (write_target_base (active_bank w)) firmware_bytes
    ++ read_script (write_target_base (active_bank w))
    ++ erase_sector_script
         (write_target_flag (active_bank w)
          - write_target_flag (active_bank w) mod SECTOR_SIZE)
    ++ write_script (write_target_flag (active_bank w)) flag_data.
Proof.
  rewrite write_firmware_split. intros R.
  apply (write_firmware_reg_scripted budget firmware_bytes (active_bank w) w).
  rewrite R. reflexivity.
Qed.

Lemma begins_bind_first {A B X} (proj : event -> option X) x (m : M D A)
    (f : A -> M D B) :
  begins proj x m -> begins proj x (bind m f).
Proof.
  intros Hm w. destruct (Hm w) as [rest E].
  destruct (emitted_bind_prefix m f w) as [tail Et].
  rewrite Et, filter_map_app, E. eexists. reflexivity.
Qed.

Lemma begins_bind_next {A B X} (proj : event -> option X) x (m : M D A)
    (f : A -> M D B) :
  (forall w, exists a, result (m w) = Ok a) ->
  emits (fun e => proj e = None) m ->
  (forall a, begins proj x (f a)) ->
  begins proj x (bind m f).
Proof.
  intros Hok Hm Hf w. destruct (Hok w) as [a R].
  rewrite (bind_ok _ _ _ _ R). cbn [emitted].
  rewrite filter_map_app, (filter_map_none proj _ (Hm w)).
  apply Hf.
Qed.

Lemma begins_emit {X} (proj : event -> option X) x e :
  proj e = Some x -> begins proj x (emit (D := D) e).
Proof.
  intros E w. cbn [emit emitted filter_map]. rewrite E.
  exists []. reflexivity.
Qed.

(** An update with an image of the right size always gets as far as the
    block erase at the base of the target bank. *)
Lemma write_firmware_begins_with_erase budget firmware_bytes w :
  Z.of_nat (List.length firmware_bytes) = FLASH_USER_SIZE ->
  exists rest,
    flash_ops (emitted (write_firmware_image budget firmware_bytes w))
    = OpEraseBlock (write_target_base (active_bank w)) :: rest.
Proof.
  intros Hl. rewrite write_firmware_split.
  generalize (active_bank w). intros bank. revert w.
  change (begins flash_op_of (OpEraseBlock (write_target_base bank))
            (bind (write_firmware_upto_readback budget firmware_bytes bank)
               (write_firmware_after_readback budget firmware_bytes bank))).
  apply begins_bind_first.
  unfold write_firmware_upto_readback. cbv zeta.
  apply Z.eqb_eq in Hl. rewrite Hl.
  apply begins_bind_next;
    [intros w; exists tt; reflexivity|op_silent|intros _].
  apply begins_bind_next;
    [intros w; exists tt; reflexivity|op_silent|intros _].
  apply begins_bind_next;
    [intros w; exists tt; reflexivity|op_silent|intros _].
  apply begins_bind_first.
  change (Z.to_nat (FLASH_USER_SIZE / BLOCK_SIZE)) with 7%nat.
  intros w. rewrite erase_old_image_loop_once. revert w.
  apply begins_bind_next;
    [intros w; exists tt; reflexivity|op_silent|intros _].
  apply begins_bind_first.
  rewrite Z.add_0_r, guint32_small by apply write_target_base_range.
  unfold flash_iface_erase_block.
  assert (Ha : (Z.land (write_target_base bank) 0xFFFF =? 0) = true)
    by (unfold write_target_base; destruct (bank =? FLASH_BANK_USER1);
        reflexivity).
  rewrite Ha.
  apply begins_bind_next;
    [intros w; exists tt; reflexivity|op_silent|intros _].
  apply begins_bind_first. apply begins_emit. reflexivity.
Qed.

(** C2: with USER1 active the target is USER2 (base 0x80000, flag
    0xFF304), otherwise USER1 (base 0x10000, flag 0xFE304).  Whatever the
    chip does, every erase and write an update goes into is one of: the
    block erase at the target base, the image write at the target base,
    the erase of the target's flag sector, the write of the target's flag
    record, in this order; none of them overlaps the image or the flag
    record of the active user bank, and every page of the image write
    lies inside the target image.  An update that succeeds has gone
    through all of them, with the register writes of the target's
    scripts, and an update with an image of the right size always
    begins with the block erase at the target base. *)
Theorem write_firmware_spares_active_bank (budget : nat)
    (firmware_bytes : list Z) (w : World D) :
  let bank := active_bank w in
  let base_addr := write_target_base bank in
  let flag_addr := write_target_flag bank in
  let r := fu_realtek_mst_device_write_firmware budget
             (FirmwareBytes firmware_bytes) w in
  let ops := [OpEraseBlock base_addr;
              OpWrite base_addr FLASH_USER_SIZE;
              OpRead base_addr FLASH_USER_SIZE;
              OpEraseSector (flag_addr - flag_addr mod SECTOR_SIZE);
              OpWrite flag_addr 5] in
  let script := erase_block_script base_addr
                ++ write_script base_addr firmware_bytes
                ++ read_script base_addr
                ++ erase_sector_script (flag_addr - flag_addr mod SECTOR_SIZE)
                ++ write_script flag_addr flag_data in
  (bank = FLASH_BANK_USER1 -> base_addr = 0x80000 /\ flag_addr = 0xFF304)
  /\ (bank <> FLASH_BANK_USER1 -> base_addr = 0x10000 /\ flag_addr = 0xFE304)
  /\ (exists rest, flash_ops (emitted r) ++ rest = ops)
  /\ Forall (spares bank) (flash_ops (emitted r))
  /\ (exists rest, reg_writes (emitted r) ++ rest = script)
  /\ (Z.of_nat (List.length firmware_bytes) = FLASH_USER_SIZE ->
      Forall (fun p => base_addr <= fst p
                       /\ fst p + Z.of_nat (List.length (snd p))
                          <= base_addr + FLASH_USER_SIZE)
        (pages (List.length firmware_bytes) base_addr firmware_bytes))
  /\ (result r = Ok tt ->
      flash_ops (emitted r) = ops /\ reg_writes (emitted r) = script)
  /\ (Z.of_nat (List.length firmware_bytes) = FLASH_USER_SIZE ->
      exists rest, flash_ops (emitted r) = OpEraseBlock base_addr :: rest).
Proof.
  rewrite write_firmware_of_bytes.
  intros bank base_addr flag_addr r ops script.
  destruct (write_firmware_ops budget firmware_bytes w) as [[rest E] Eok].
  fold r bank in E, Eok.
  split; [|split; [|split; [|split; [|split; [|split; [|split]]]]]].
  - intros Hb. subst base_addr flag_addr. rewrite Hb. split; reflexivity.
  - intros Hb. apply Z.eqb_neq in Hb.
    subst base_addr flag_addr.
    unfold write_target_base, write_target_flag. rewrite Hb.
    split; reflexivity.
  - exists rest. exact E.
  - pose proof (update_ops_spare bank) as Hs. rewrite <- E in Hs.
    apply Forall_app in Hs. apply Hs.
  - apply write_firmware_reg_script.
  - intros Hl. rewrite <- Hl. apply pages_range.
    + apply write_target_base_range.
    + rewrite Hl. subst base_addr. unfold write_target_base.
      destruct (bank =? FLASH_BANK_USER1); discriminate.
  - intros R. split; [exact (Eok R)|].
    apply write_firmware_reg_script_ok. exact R.
  - intros Hl. apply write_firmware_begins_with_erase. exact Hl.
Qed.

End Targets.

Lemma write_firmware_spares_active_bank_witness :
  write_target_base (active_bank update_from_user1) = 0x80000
  /\ write_target_flag (active_bank update_from_user1) = 0xFF304
  /\ result (fu_realtek_mst_device_write_firmware 3
               (FirmwareBytes blank_image) update_from_user1) = Ok tt
  /\ flash_ops (emitted (fu_realtek_mst_device_write_firmware 3
                           (FirmwareBytes blank_image) update_from_user1))
     = [OpEraseBlock 0x80000; OpWrite 0x80000 0x70000; OpRead 0x80000 0x70000;
        OpEraseSector 0xFF000; OpWrite 0xFF304 5]
  /\ Forall (spares FLASH_BANK_USER1)
       (flash_ops (emitted (fu_realtek_mst_device_write_firmware 3
                              (FirmwareBytes blank_image)
                              update_from_user1)))
  /\ Forall (fun p => 0x80000 <= fst p
                      /\ fst p + Z.of_nat (List.length (snd p))
                         <= 0x80000 + FLASH_USER_SIZE)
       (pages (List.length blank_image) 0x80000 blank_image).
Proof.
  assert (R : result (fu_realtek_mst_device_write_firmware 3
                        (FirmwareBytes blank_image) update_from_user1)
              = Ok tt).
  { rewrite write_firmware_of_bytes.
    apply (ideal0_write_firmware 3 update_from_user1). repeat split. }
  pose proof (write_firmware_spares_active_bank 3 blank_image
                update_from_user1) as (H1 & _ & _ & H4 & _ & H6 & H7 & _).
  split; [exact (proj1 (H1 eq_refl))|].
  split; [exact (proj2 (H1 eq_refl))|].
  split; [exact R|].
  split; [exact (proj1 (H7 R))|].
  split; [exact H4|]. exact (H6 blank_image_length).
Defined.

(** ** Update sequencer: verification *)

Section Verify.
Context {D : Type} `{Backend D}.

Lemma upto_readback_ok_inv budget firmware_bytes bank w readback :
  result (write_firmware_upto_readback budget firmware_bytes bank w)
  = Ok readback ->
  Z.of_nat (List.length firmware_bytes) = FLASH_USER_SIZE
  /\ Z.of_nat (List.length readback) = FLASH_USER_SIZE.
Proof.
  unfold write_firmware_upto_readback. cbv zeta. intros E.
  destruct (Z.eqb_spec (Z.of_nat (List.length firmware_bytes)) FLASH_USER_SIZE)
    as [Hl|Hl].
  - split; [exact Hl|].
    do 8 (apply bind_ok_inv in E; destruct E as ([] & _ & E & _)).
    apply flash_iface_read_ok in E; [|discriminate].
    destruct E as (discarded & chunks & _ & _ & _ & L). exact L.
  - cbn [g_return_val_if_fail] in E.
    rewrite (bind_fail (fail None) _ w None eq_refl) in E. discriminate.
Qed.

(** C7: when the read-back of the 0x70000 bytes at the target base
    succeeds and differs from the image, the update fails with the WRITE
    error and nothing happens after the read-back: the run has gone into
    one block erase, one image write and one read, and into no sector
    erase and no flag write. *)
Theorem write_firmware_verify_mismatch (budget : nat)
    (firmware_bytes : list Z) (w : World D) (readback : list Z) :
  let bank := active_bank w in
  let base_addr := write_target_base bank in
  let p := write_firmware_upto_readback budget firmware_bytes bank w in
  let r := fu_realtek_mst_device_write_firmware budget (FirmwareBytes firmware_bytes) w in
  result p = Ok readback ->
  readback <> firmware_bytes ->
  result r = Fail (Some verify_error)
  /\ err_code verify_error = FWUPD_ERROR_WRITE
  /\ err_format verify_error
     = "flash contents after write do not match firmware image"
  /\ emitted r = emitted p
  /\ final r = final p
  /\ flash_ops (emitted r)
     = [OpEraseBlock base_addr;
        OpWrite base_addr FLASH_USER_SIZE;
        OpRead base_addr FLASH_USER_SIZE].
Proof.
  rewrite write_firmware_of_bytes.
  intros bank base_addr p r Hp Hne.
  destruct (upto_readback_ok_inv _ _ _ _ _ Hp) as [Hl Hr].
  assert (Hm : memcmp_differs firmware_bytes readback FLASH_USER_SIZE = true).
  { apply memcmp_differs_iff; try assumption. congruence. }
  assert (Er : r = {| result := Fail (Some verify_error);
                      final := final p; emitted := emitted p |}).
  { subst r. rewrite write_firmware_split. fold bank.
    rewrite (bind_ok _ _ _ _ Hp). fold p.
    unfold write_firmware_after_readback. cbv zeta. rewrite Hm.
    rewrite (bind_fail (g_set_error FWUPD_ERROR_WRITE verify_error_message [])
               _ (final p) (Some verify_error) eq_refl).
    cbn [result final emitted g_set_error fail]. rewrite app_nil_r.
    reflexivity. }
  rewrite Er. cbn [result final emitted].
  assert (Hops : flash_ops (emitted p)
                 = [OpEraseBlock base_addr;
                    OpWrite base_addr FLASH_USER_SIZE;
                    OpRead base_addr FLASH_USER_SIZE]).
  { apply (proj2 (write_firmware_upto_readback_ops budget firmware_bytes
                    bank w)).
    fold p. rewrite Hp. reflexivity. }
  repeat split; assumption.
Qed.

End Verify.

Lemma a5_image_length : Z.of_nat (List.length a5_image) = FLASH_USER_SIZE.
Proof.
  unfold a5_image. rewrite repeat_length. apply Z2Nat.id. discriminate.
Qed.

Lemma blank_is_not_a5 : blank_image <> a5_image.
Proof.
  unfold blank_image, a5_image.
  assert (Hn : (0 < Z.to_nat FLASH_USER_SIZE)%nat)
    by (apply (Z2Nat.inj_lt 0 FLASH_USER_SIZE); [discriminate|discriminate|
        reflexivity]).
  destruct (Z.to_nat FLASH_USER_SIZE) as [|n]; [inversion Hn|].
  cbn [repeat]. intros E. inversion E.
Qed.

Lemma write_firmware_verify_mismatch_witness :
  result (fu_realtek_mst_device_write_firmware 3 (FirmwareBytes a5_image) update_from_user1)
  = Fail (Some verify_error)
  /\ flash_ops (emitted (fu_realtek_mst_device_write_firmware 3 (FirmwareBytes a5_image)
                           update_from_user1))
     = [OpEraseBlock 0x80000; OpWrite 0x80000 FLASH_USER_SIZE;
        OpRead 0x80000 FLASH_USER_SIZE].
Proof.
  assert (Hi : ideal0 update_from_user1) by (repeat split).
  destruct (ideal0_upto_readback 3 a5_image FLASH_BANK_USER1
              update_from_user1 Hi a5_image_length) as [Hp _].
  destruct (write_firmware_verify_mismatch 3 a5_image update_from_user1
              blank_image Hp blank_is_not_a5)
    as (R & _ & _ & _ & _ & Hops).
  split; [exact R|exact Hops].
Defined.

(** * Further properties of the plugin *)

(** ** Transfer sizes of reads and page writes *)

Lemma chunk_sizes_zero : chunk_sizes 0 = [].
Proof. reflexivity. Qed.

Lemma chunk_sizes_last n : 0 < n <= 256 -> chunk_sizes n = [n].
Proof.
  intros Hn. unfold chunk_sizes.
  destruct (Z.eq_dec n 256) as [->|Hne]; [reflexivity|].
  rewrite Z.div_small, Z.mod_small by lia. cbn [Z.to_nat repeat app].
  destruct (Z.eqb_spec n 0); [lia|reflexivity].
Qed.

Lemma chunk_sizes_more n :
  256 < n -> chunk_sizes n = 256 :: chunk_sizes (n - 256).
Proof.
  intros Hn. unfold chunk_sizes.
  assert (Hd : n / 256 = (n - 256) / 256 + 1)
    by (Z.div_mod_to_equations; lia).
  assert (Hm : n mod 256 = (n - 256) mod 256)
    by (Z.div_mod_to_equations; lia).
  rewrite Hd, Hm.
  assert (0 <= (n - 256) / 256) by (apply Z.div_pos; lia).
  rewrite Z2Nat.inj_add by lia. rewrite Nat.add_comm. reflexivity.
Qed.

Lemma chunk_sizes_length n :
  0 <= n -> Z.of_nat (List.length (chunk_sizes n)) = (n + 255) / 256.
Proof.
  intros Hn. unfold chunk_sizes.
  assert (0 <= n / 256) by (apply Z.div_pos; lia).
  rewrite length_app, repeat_length, Nat2Z.inj_add, Z2Nat.id by lia.
  destruct (Z.eqb_spec (n mod 256) 0); cbn [List.length];
    Z.div_mod_to_equations; lia.
Qed.

Lemma chunk_sizes_sum n :
  0 <= n -> fold_right Z.add 0 (chunk_sizes n) = n.
Proof.
  intros Hn. unfold chunk_sizes. rewrite fold_right_app.
  assert (Hr : forall k acc, fold_right Z.add acc (repeat 256 k)
                             = 256 * Z.of_nat k + acc).
  { induction k as [|k IH]; intros acc; [cbn; lia|].
    cbn [repeat fold_right]. rewrite IH. lia. }
  rewrite Hr. assert (0 <= n / 256) by (apply Z.div_pos; lia).
  rewrite Z2Nat.id by lia.
  destruct (Z.eqb_spec (n mod 256) 0); cbn [fold_right];
    Z.div_mod_to_equations; lia.
Qed.

Section Sizes.
Context {D : Type} `{Backend D}.

Lemma scripted_pread_full count :
  scripted read_count [count] (fu_udev_device_pread_full count).
Proof.
  intros w. unfold fu_udev_device_pread_full.
  destruct (bus_pread count (bus w)) as [answer d]. cbn.
  split; [exists []|]; reflexivity.
Qed.

Lemma flash_iface_read_loop_counts buf_size :
  forall n bytes_read,
    bytes_read <= buf_size ->
    scripted read_count (chunk_sizes (buf_size - bytes_read))
      (flash_iface_read_loop n buf_size bytes_read).
Proof.
  induction n as [|n IH]; intros bytes_read Hb; cbn [flash_iface_read_loop];
    destruct (Z.ltb_spec bytes_read buf_size) as [Hlt|Hge].
  - apply scripted_diverge.
  - replace (buf_size - bytes_read) with 0 by lia. apply scripted_ret.
  - cbv zeta.
    destruct (Z.gtb_spec (buf_size - bytes_read) 256) as [Hbig|Hsmall].
    + rewrite chunk_sizes_more by lia.
      apply scripted_bind_cons; [apply scripted_pread_full|intros chunk].
      apply scripted_bind_silent;
        [apply emits_set_progress; reflexivity|intros _].
      rewrite <- (app_nil_r (chunk_sizes _)).
      apply scripted_bind.
      * replace (buf_size - bytes_read - 256)
          with (buf_size - (bytes_read + 256)) by lia.
        apply IH. lia.
      * intros rest. apply scripted_ret.
    + rewrite chunk_sizes_last by lia.
      apply scripted_bind_cons; [apply scripted_pread_full|intros chunk].
      apply scripted_bind_silent;
        [apply emits_set_progress; reflexivity|intros _].
      apply (scripted_bind read_count [] []).
      * replace (chunk_sizes 0) with (@nil Z) in IH by reflexivity.
        specialize (IH (bytes_read + (buf_size - bytes_read))).
        replace (buf_size - (bytes_read + (buf_size - bytes_read))) with 0
          in IH by lia.
        apply IH. lia.
      * intros rest. apply scripted_ret.
  - replace (buf_size - bytes_read) with 0 by lia. apply scripted_ret.
Qed.

(** X5: whatever the chip answers, the bus reads of [flash_iface_read]
    ask for one byte and then for the buffer in 256-byte pieces, a
    shorter last piece taking the remainder: [(buf_size + 255) / 256] data
    reads in all when the read succeeds. *)
Theorem flash_iface_read_transfer_sizes (address buf_size : Z) (w : World D) :
  0 <= buf_size ->
  let counts := filter_map read_count
                  (emitted (flash_iface_read address buf_size w)) in
  (exists rest, counts ++ rest = 1 :: chunk_sizes buf_size)
  /\ (forall buf, result (flash_iface_read address buf_size w) = Ok buf ->
                  counts = 1 :: chunk_sizes buf_size)
  /\ Z.of_nat (List.length (chunk_sizes buf_size)) = (buf_size + 255) / 256
  /\ fold_right Z.add 0 (chunk_sizes buf_size) = buf_size
  /\ Forall (fun c => 1 <= c <= 256) (chunk_sizes buf_size).
Proof.
  intros Hs counts.
  assert (S : scripted read_count (1 :: chunk_sizes buf_size)
                (flash_iface_read address buf_size)).
  { unfold flash_iface_read.
    apply scripted_bind_silent; [apply emits_g_return_val_if_fail|intros _].
    apply scripted_bind_silent; [apply emits_g_return_val_if_fail|intros _].
    apply scripted_bind_silent; [apply emits_g_debug; reflexivity|intros _].
    cbv zeta.
    do 4 (apply scripted_bind_silent;
          [apply emits_mst_write_register; reflexivity|intros _]).
    apply scripted_bind_silent; [apply emits_pwrite_full; reflexivity|intros _].
    apply scripted_bind_cons.
    { unfold fu_udev_device_pread.
      rewrite <- (app_nil_r [1]).
      apply scripted_bind; [apply scripted_pread_full|intros b].
      apply scripted_ret. }
    intros _.
    pose proof (flash_iface_read_loop_counts buf_size (Z.to_nat buf_size) 0)
      as L.
    rewrite Z.sub_0_r in L. apply L. exact Hs. }
  destruct (S w) as [Hpre Hall]. fold counts in Hpre, Hall.
  split; [exact Hpre|]. split.
  { intros buf R. apply Hall. rewrite R. reflexivity. }
  split; [apply chunk_sizes_length; exact Hs|].
  split; [apply chunk_sizes_sum; exact Hs|].
  unfold chunk_sizes. apply Forall_app. split.
  - apply Forall_forall. intros c Hc. apply repeat_spec in Hc. lia.
  - destruct (Z.eqb_spec (buf_size mod 256) 0) as [E|E]; constructor;
      [|constructor].
    pose proof (Z.mod_pos_bound buf_size 256). lia.
Qed.

End Sizes.

Lemma flash_iface_read_transfer_sizes_witness :
  filter_map read_count
    (emitted (flash_iface_read 0x10000 600
                (mock_world (mock_chip [] 0) FLASH_BANK_USER1)))
  = [1; 256; 256; 88].
Proof.
  assert (Hs : 0 <= 600) by discriminate.
  destruct (flash_iface_read_transfer_sizes 0x10000 600
              (mock_world (mock_chip [] 0) FLASH_BANK_USER1) Hs)
    as (_ & Hok & _).
  destruct (ideal_flash_iface_read 0x10000 600
              (mock_world (mock_chip [] 0) FLASH_BANK_USER1)) as [R _];
    [split; reflexivity|reflexivity|split; discriminate|].
  rewrite (Hok _ R). reflexivity.
Defined.

(** ** Failures carry a GError *)

Section Errors.
Context {D : Type} `{Backend D}.

Lemma sets_error_ret {A} (a : A) : sets_error (D := D) (ret a).
Proof. intros w. discriminate. Qed.

Lemma sets_error_diverge {A} : sets_error (D := D) (A := A) diverge.
Proof. intros w. discriminate. Qed.

Lemma sets_error_emit e : sets_error (D := D) (emit e).
Proof. intros w. discriminate. Qed.

Lemma sets_error_g_set_error {A} code format args :
  sets_error (D := D) (A := A) (g_set_error code format args).
Proof. intros w. discriminate. Qed.

Lemma sets_error_bind_post {A B} (Q : A -> Prop) (m : M D A)
    (f : A -> M D B) :
  (forall w a, result (m w) = Ok a -> Q a) ->
  sets_error m -> (forall a, Q a -> sets_error (f a)) ->
  sets_error (bind m f).
Proof.
  intros HQ Hm Hf w. unfold bind.
  destruct (result (m w)) as [a|e|] eqn:R; cbn [result].
  - apply Hf. exact (HQ w a R).
  - intros E. apply (Hm w). rewrite R. inversion E. reflexivity.
  - discriminate.
Qed.

Lemma sets_error_bind {A B} (m : M D A) (f : A -> M D B) :
  sets_error m -> (forall a, sets_error (f a)) -> sets_error (bind m f).
Proof.
  intros Hm Hf.
  apply (sets_error_bind_post (fun _ => True)); auto.
Qed.

Lemma sets_error_g_return_val_if_fail cond :
  cond = true -> sets_error (D := D) (g_return_val_if_fail cond).
Proof. intros ->. apply sets_error_ret. Qed.

Lemma sets_error_g_prefix_error {A} format args (m : M D A) :
  sets_error m -> sets_error (g_prefix_error format args m).
Proof.
  intros Hm w. unfold g_prefix_error.
  destruct (result (m w)) as [a|[e|]|] eqn:R; cbn [result];
    try rewrite R; try discriminate.
  exfalso. exact (Hm w R).
Qed.

Lemma sets_error_ignore_result {A} (m : M D A) :
  sets_error (ignore_result m).
Proof.
  intros w. unfold ignore_result.
  destruct (result (m w)); discriminate.
Qed.

Lemma sets_error_pwrite_full data :
  sets_error (fu_udev_device_pwrite_full data).
Proof.
  intros w.
  destruct (pwrite_full_cases data w) as [[R _]|(err & R & _)]; rewrite R;
    discriminate.
Qed.

Lemma sets_error_pread_full count :
  sets_error (fu_udev_device_pread_full count).
Proof.
  intros w.
  destruct (pread_full_cases count w)
    as [(raw & R & _)|(err & answer & R & _)]; rewrite R; discriminate.
Qed.

Lemma sets_error_g_usleep us : sets_error (g_usleep us).
Proof. intros w. discriminate. Qed.

Lemma sets_error_clock_gettime : sets_error clock_gettime.
Proof. intros w. discriminate. Qed.

Lemma sets_error_add_flag f : sets_error (D := D) (fu_device_add_flag f).
Proof. intros w. discriminate. Qed.

Lemma sets_error_remove_flag f : sets_error (D := D) (fu_device_remove_flag f).
Proof. intros w. discriminate. Qed.

Lemma sets_error_set_version v : sets_error (D := D) (fu_device_set_version v).
Proof. intros w. discriminate. Qed.

Lemma sets_error_set_active_bank b : sets_error (D := D) (set_active_bank b).
Proof. intros w. discriminate. Qed.

Lemma sets_error_get_active_bank : sets_error (D := D) get_active_bank.
Proof. intros w. discriminate. Qed.

End Errors.

(** Walks through a sequence of calls none of which can fail without a
    [GError]. *)
Ltac sets_error_step :=
  first
    [ apply sets_error_ret
    | apply sets_error_diverge
    | apply sets_error_emit
    | apply sets_error_g_set_error
    | apply sets_error_pwrite_full
    | apply sets_error_pread_full
    | apply sets_error_g_usleep
    | apply sets_error_clock_gettime
    | apply sets_error_add_flag
    | apply sets_error_remove_flag
    | apply sets_error_set_version
    | apply sets_error_set_active_bank
    | apply sets_error_get_active_bank
    | apply sets_error_ignore_result
    | apply sets_error_g_prefix_error
    | apply sets_error_bind; [|intros ?] ].

Section ErrorsOfThePlugin.
Context {D : Type} `{Backend D}.

Lemma sets_error_mst_write_register address value :
  sets_error (mst_write_register address value).
Proof. apply sets_error_pwrite_full. Qed.

Lemma sets_error_mst_write_register_multi address data :
  sets_error (mst_write_register_multi address data).
Proof. apply sets_error_pwrite_full. Qed.

Lemma sets_error_mst_read_register address :
  sets_error (mst_read_register address).
Proof.
  unfold mst_read_register, fu_udev_device_pwrite, fu_udev_device_pread.
  repeat sets_error_step.
Qed.

Lemma sets_error_mst_poll_register_loop address mask expected deadline :
  forall budget value now,
    sets_error (mst_poll_register_loop budget address mask expected deadline
                  value now).
Proof.
  induction budget as [|budget IH]; intros value now;
    cbn [mst_poll_register_loop];
    destruct (poll_pending mask expected deadline value now);
    try apply sets_error_ret; try apply sets_error_diverge.
  apply sets_error_bind; [apply sets_error_g_usleep|intros _].
  apply sets_error_bind; [apply sets_error_clock_gettime|intros now'].
  apply sets_error_bind; [apply sets_error_mst_read_register|intros value'].
  apply IH.
Qed.

Lemma sets_error_mst_poll_register budget address mask expected timeout :
  sets_error (mst_poll_register budget address mask expected timeout).
Proof.
  unfold mst_poll_register.
  apply sets_error_bind; [apply sets_error_clock_gettime|intros now].
  cbv zeta.
  apply sets_error_bind; [apply sets_error_mst_read_register|intros value].
  apply sets_error_bind;
    [apply sets_error_mst_poll_register_loop|intros value'].
  destruct (Z.land value' mask =? expected);
    [apply sets_error_ret|apply sets_error_g_set_error].
Qed.

Lemma sets_error_flash_iface_read_loop buf_size :
  forall n bytes_read,
    sets_error (flash_iface_read_loop n buf_size bytes_read).
Proof.
  induction n as [|n IH]; intros bytes_read; cbn [flash_iface_read_loop];
    destruct (bytes_read <? buf_size);
    try apply sets_error_ret; try apply sets_error_diverge.
  cbv zeta.
  apply sets_error_bind; [apply sets_error_pread_full|intros chunk].
  apply sets_error_bind; [apply sets_error_emit|intros _].
  apply sets_error_bind; [apply IH|intros rest]. apply sets_error_ret.
Qed.

Lemma sets_error_flash_iface_read address buf_size :
  address < FLASH_SIZE -> buf_size <= FLASH_SIZE ->
  sets_error (flash_iface_read address buf_size).
Proof.
  intros Ha Hs. unfold flash_iface_read.
  apply sets_error_bind;
    [apply sets_error_g_return_val_if_fail; apply Z.ltb_lt; exact Ha|].
  intros _.
  apply sets_error_bind;
    [apply sets_error_g_return_val_if_fail; apply Z.leb_le; exact Hs|].
  intros _.
  apply sets_error_bind; [apply sets_error_emit|intros _]. cbv zeta.
  do 4 (apply sets_error_bind;
        [apply sets_error_mst_write_register|intros _]).
  apply sets_error_bind; [apply sets_error_pwrite_full|intros _].
  apply sets_error_bind.
  { unfold fu_udev_device_pread. repeat sets_error_step. }
  intros _. apply sets_error_flash_iface_read_loop.
Qed.

Lemma sets_error_flash_iface_erase_sector budget address :
  Z.land address 0xFFF = 0 ->
  sets_error (flash_iface_erase_sector budget address).
Proof.
  intros Ha. unfold flash_iface_erase_sector.
  apply sets_error_bind;
    [apply sets_error_g_return_val_if_fail; apply Z.eqb_eq; exact Ha|].
  intros _.
  apply sets_error_bind; [apply sets_error_emit|intros _].
  do 6 (apply sets_error_bind;
        [apply sets_error_mst_write_register|intros _]).
  apply sets_error_mst_poll_register.
Qed.

Lemma sets_error_flash_iface_erase_block budget address :
  Z.land address 0xFFFF = 0 ->
  sets_error (flash_iface_erase_block budget address).
Proof.
  intros Ha. unfold flash_iface_erase_block.
  apply sets_error_bind;
    [apply sets_error_g_return_val_if_fail; apply Z.eqb_eq; exact Ha|].
  intros _.
  apply sets_error_bind; [apply sets_error_emit|intros _].
  do 6 (apply sets_error_bind;
        [apply sets_error_mst_write_register|intros _]).
  apply sets_error_mst_poll_register.
Qed.

Lemma sets_error_flash_iface_write_chunk budget address chunk_size data :
  sets_error (flash_iface_write_chunk budget address chunk_size data).
Proof.
  unfold flash_iface_write_chunk.
  do 5 (apply sets_error_bind;
        [apply sets_error_mst_write_register|intros _]).
  apply sets_error_bind; [apply sets_error_mst_poll_register|intros _].
  apply sets_error_bind;
    [apply sets_error_mst_write_register_multi|intros _].
  apply sets_error_bind; [apply sets_error_mst_write_register|intros _].
  apply sets_error_g_prefix_error. apply sets_error_mst_poll_register.
Qed.

Lemma sets_error_flash_iface_write_loop budget total :
  forall n remaining address data,
    sets_error (flash_iface_write_loop n budget total remaining address data).
Proof.
  induction n as [|n IH]; intros remaining address data;
    cbn [flash_iface_write_loop];
    destruct (remaining >? 0);
    try apply sets_error_ret; try apply sets_error_diverge.
  cbv zeta.
  apply sets_error_bind;
    [apply sets_error_flash_iface_write_chunk|intros _].
  apply sets_error_bind; [apply sets_error_emit|intros _]. apply IH.
Qed.

Lemma sets_error_flash_iface_write budget address data :
  sets_error (flash_iface_write budget address data).
Proof.
  unfold flash_iface_write. cbv zeta.
  apply sets_error_bind; [apply sets_error_emit|intros _].
  apply sets_error_flash_iface_write_loop.
Qed.

End ErrorsOfThePlugin.

Section SilentFailures.
Context {D : Type} `{Backend D}.

Lemma bind_get_active_bank {B} (f : Z -> M D B) w :
  bind get_active_bank f w = f (active_bank w) w.
Proof.
  unfold bind, get_active_bank. cbn [result final emitted app].
  apply run_eta.
Qed.

Lemma sets_error_erase_old_image_loop n budget bank :
  sets_error (erase_old_image_loop n budget (write_target_base bank) 0).
Proof.
  destruct n as [|n]; [intros w; discriminate|].
  intros w. rewrite erase_old_image_loop_once. revert w.
  apply sets_error_bind; [apply sets_error_emit|intros _].
  apply sets_error_bind; [|intros _; apply sets_error_ret].
  apply sets_error_flash_iface_erase_block.
  apply write_target_base_aligned.
Qed.

Lemma sets_error_write_firmware budget firmware_bytes :
  Z.of_nat (List.length firmware_bytes) = FLASH_USER_SIZE ->
  sets_error (write_firmware_image budget firmware_bytes).
Proof.
  intros Hl. unfold write_firmware_image.
  apply sets_error_bind; [apply sets_error_get_active_bank|intros bank].
  cbv zeta.
  apply sets_error_bind;
    [apply sets_error_g_return_val_if_fail; apply Z.eqb_eq; exact Hl|].
  intros _.
  apply sets_error_bind; [apply sets_error_emit|intros _].
  apply sets_error_bind; [apply sets_error_emit|intros _].
  apply sets_error_bind; [apply sets_error_erase_old_image_loop|intros _].
  apply sets_error_bind; [apply sets_error_emit|intros _].
  apply sets_error_bind; [apply sets_error_emit|intros _].
  apply sets_error_bind; [apply sets_error_flash_iface_write|intros _].
  apply sets_error_bind; [apply sets_error_emit|intros _].
  apply sets_error_bind.
  { apply sets_error_flash_iface_read;
      [apply write_target_base_aligned|discriminate]. }
  intros readback.
  apply sets_error_bind.
  { destruct (memcmp_differs firmware_bytes readback FLASH_USER_SIZE);
      [apply sets_error_g_set_error|apply sets_error_ret]. }
  intros _.
  apply sets_error_bind; [apply sets_error_emit|intros _].
  apply sets_error_bind.
  { apply sets_error_flash_iface_erase_sector.
    apply write_target_flag_aligned. }
  intros _.
  apply sets_error_bind; [apply sets_error_emit|intros _].
  apply sets_error_flash_iface_write.
Qed.

(** X1: [write_firmware] hands back a bare [FALSE], without a [GError],
    exactly when the container holds an image that is not 0x70000 bytes
    long.  A container without payload fails the same size check, with
    the [GError] that [fu_firmware_get_bytes] has set.  Either way the
    update has made no call at all (no status report, nothing on the
    bus) and changed no field of the device.  Every other failure
    carries a [GError] too. *)
Theorem write_firmware_wrong_size (budget : nat) (firmware : FuFirmware)
    (w : World D) :
  let r := fu_realtek_mst_device_write_firmware budget firmware w in
  (result r = Fail None
   <-> exists firmware_bytes,
         firmware = FirmwareBytes firmware_bytes
         /\ Z.of_nat (List.length firmware_bytes) <> FLASH_USER_SIZE)
  /\ (forall error,
        firmware = FirmwareNoBytes error ->
        result r = Fail (Some error) /\ emitted r = [] /\ final r = w)
  /\ (result r = Fail None -> emitted r = [] /\ final r = w).
Proof.
  intros r. destruct firmware as [firmware_bytes|error].
  - unfold r. rewrite write_firmware_of_bytes.
    split; [|split; [intros error E; discriminate|]].
    + destruct (Z.eq_dec (Z.of_nat (List.length firmware_bytes))
                  FLASH_USER_SIZE) as [E|E].
      * assert (N : result (write_firmware_image budget firmware_bytes w)
                    <> Fail None)
          by (apply sets_error_write_firmware; exact E).
        split; [intros R; contradiction|].
        intros (b & Eb & Hb). inversion Eb. subst b. contradiction.
      * split; [intros _; exists firmware_bytes; split; [reflexivity|exact E]|].
        intros _. unfold write_firmware_image.
        rewrite bind_get_active_bank. cbv beta zeta.
        destruct (Z.eqb_spec (Z.of_nat (List.length firmware_bytes))
                    FLASH_USER_SIZE) as [E'|_]; [contradiction|].
        reflexivity.
    + destruct (Z.eq_dec (Z.of_nat (List.length firmware_bytes))
                  FLASH_USER_SIZE) as [E|E].
      * intros R. exfalso.
        exact (sets_error_write_firmware budget firmware_bytes E w R).
      * intros _. unfold write_firmware_image.
        rewrite bind_get_active_bank. cbv beta zeta.
        destruct (Z.eqb_spec (Z.of_nat (List.length firmware_bytes))
                    FLASH_USER_SIZE) as [E'|_]; [contradiction|].
        split; reflexivity.
  - unfold r. rewrite write_firmware_no_bytes. cbn [result emitted final].
    split; [|split].
    + split; [discriminate|]. intros (b & Eb & _). discriminate.
    + intros e E. inversion E. repeat split.
    + discriminate.
Qed.

(** X2: an erase fails without a [GError] exactly when its address is
    not aligned (to 4 KiB for a sector, to 64 KiB for a block), and then
    no register has been written: a misaligned erase never reaches the
    chip. *)
Theorem flash_iface_erase_misaligned (budget : nat) (address : Z)
    (w : World D) :
  let s := flash_iface_erase_sector budget address w in
  let b := flash_iface_erase_block budget address w in
  (result s = Fail None <-> Z.land address 0xFFF <> 0)
  /\ (result b = Fail None <-> Z.land address 0xFFFF <> 0)
  /\ (result s = Fail None -> emitted s = [] /\ final s = w)
  /\ (result b = Fail None -> emitted b = [] /\ final b = w).
Proof.
  intros s b.
  assert (Hs : (Z.land address 0xFFF = 0 /\ result s <> Fail None)
               \/ (Z.land address 0xFFF <> 0
                   /\ s = {| result := Fail None; final := w;
                             emitted := [] |})).
  { destruct (Z.eq_dec (Z.land address 0xFFF) 0) as [E|E].
    - left. split; [exact E|].
      apply sets_error_flash_iface_erase_sector. exact E.
    - right. split; [exact E|].
      unfold s, flash_iface_erase_sector.
      destruct (Z.eqb_spec (Z.land address 0xFFF) 0); [contradiction|].
      reflexivity. }
  assert (Hb : (Z.land address 0xFFFF = 0 /\ result b <> Fail None)
               \/ (Z.land address 0xFFFF <> 0
                   /\ b = {| result := Fail None; final := w;
                             emitted := [] |})).
  { destruct (Z.eq_dec (Z.land address 0xFFFF) 0) as [E|E].
    - left. split; [exact E|].
      apply sets_error_flash_iface_erase_block. exact E.
    - right. split; [exact E|].
      unfold b, flash_iface_erase_block.
      destruct (Z.eqb_spec (Z.land address 0xFFFF) 0); [contradiction|].
      reflexivity. }
  destruct Hs as [[Es Ns]|[Es ->]], Hb as [[Eb Nb]|[Eb ->]];
    cbn [result emitted final];
    repeat split; intros; try contradiction; try assumption;
      try reflexivity.
Qed.

End SilentFailures.

(** ** Status reports *)

(** Discharges [emits P m] along a chain of calls, for a [P] that holds
    of each emitted call by computation. *)
Ltac quiet_step :=
  first
    [ apply emits_ret
    | apply emits_diverge
    | apply emits_g_set_error
    | apply emits_g_return_val_if_fail
    | apply emits_add_flag
    | apply emits_remove_flag
    | apply emits_set_version
    | apply emits_set_active_bank
    | apply emits_get_active_bank
    | apply emits_g_debug; reflexivity
    | apply emits_set_status; reflexivity
    | apply emits_set_progress; reflexivity
    | apply emits_g_usleep; reflexivity
    | apply emits_clock_gettime; reflexivity
    | apply emits_mst_write_register; reflexivity
    | apply emits_mst_write_register_multi; reflexivity
    | apply emits_pwrite_full; reflexivity
    | apply emits_pread_full; reflexivity
    | apply emits_mst_read_register; repeat split
    | apply emits_mst_poll_register; repeat split
    | apply emits_pwrite; repeat split
    | apply emits_pread; repeat split
    | apply emits_g_prefix_error
    | apply emits_ignore_result
    | apply emits_bind; [|intros ?] ].

Section Status.
Context {D : Type} `{Backend D}.

Lemma scripted_set_status {X} (proj : event -> option X) x s :
  proj (EvStatus s) = Some x ->
  scripted proj [x] (fu_device_set_status (D := D) s).
Proof.
  intros E w. cbn [fu_device_set_status emit emitted result filter_map].
  rewrite E. split; [exists []|]; reflexivity.
Qed.

Lemma no_status_flash_iface_read_loop buf_size :
  forall n bytes_read,
    emits (fun e => status_of e = None)
      (flash_iface_read_loop n buf_size bytes_read).
Proof.
  induction n as [|n IH]; intros bytes_read; cbn [flash_iface_read_loop];
    destruct (bytes_read <? buf_size); try apply emits_ret; try apply emits_diverge.
  cbv zeta. do 2 (apply emits_bind; [quiet_step|intros ?]).
  apply emits_bind; [apply IH|intros ?]. quiet_step.
Qed.

Lemma no_status_flash_iface_read address buf_size :
  emits (fun e => status_of e = None) (flash_iface_read address buf_size).
Proof.
  unfold flash_iface_read.
  do 3 (apply emits_bind; [quiet_step|intros ?]). cbv zeta.
  do 6 (apply emits_bind; [quiet_step|intros ?]).
  apply no_status_flash_iface_read_loop.
Qed.

Lemma no_status_flash_iface_erase_sector budget address :
  emits (fun e => status_of e = None)
    (flash_iface_erase_sector budget address).
Proof. unfold flash_iface_erase_sector. repeat quiet_step. Qed.

Lemma no_status_flash_iface_erase_block budget address :
  emits (fun e => status_of e = None)
    (flash_iface_erase_block budget address).
Proof. unfold flash_iface_erase_block. repeat quiet_step. Qed.

Lemma no_status_flash_iface_write_loop budget total :
  forall n remaining address data,
    emits (fun e => status_of e = None)
      (flash_iface_write_loop n budget total remaining address data).
Proof.
  induction n as [|n IH]; intros remaining address data;
    cbn [flash_iface_write_loop];
    destruct (remaining >? 0); try apply emits_ret; try apply emits_diverge.
  cbv zeta.
  apply emits_bind;
    [unfold flash_iface_write_chunk; repeat quiet_step|intros ?].
  apply emits_bind; [quiet_step|intros ?]. apply IH.
Qed.

Lemma no_status_flash_iface_write budget address data :
  emits (fun e => status_of e = None)
    (flash_iface_write budget address data).
Proof.
  unfold flash_iface_write. cbv zeta.
  apply emits_bind; [quiet_step|intros ?].
  apply no_status_flash_iface_write_loop.
Qed.

Lemma no_status_erase_old_image_loop budget base_addr :
  forall n offset,
    emits (fun e => status_of e = None)
      (erase_old_image_loop n budget base_addr offset).
Proof.
  induction n as [|n IH]; intros offset; cbn [erase_old_image_loop];
    destruct (offset <? FLASH_USER_SIZE); try apply emits_ret; try apply emits_diverge.
  apply emits_bind; [quiet_step|intros ?].
  apply emits_bind; [apply no_status_flash_iface_erase_block|intros ?].
  apply IH.
Qed.

Lemma write_firmware_statuses budget firmware_bytes :
  scripted status_of
    [FWUPD_STATUS_DEVICE_ERASE; FWUPD_STATUS_DEVICE_WRITE;
     FWUPD_STATUS_DEVICE_VERIFY; FWUPD_STATUS_DEVICE_ERASE;
     FWUPD_STATUS_DEVICE_WRITE]
    (write_firmware_image budget firmware_bytes).
Proof.
  unfold write_firmware_image.
  apply scripted_bind_silent; [quiet_step|intros bank]. cbv zeta.
  apply scripted_bind_silent; [quiet_step|intros _].
  apply scripted_bind_silent; [quiet_step|intros _].
  apply scripted_bind_cons;
    [apply scripted_set_status; reflexivity|intros _].
  apply scripted_bind_silent;
    [apply no_status_erase_old_image_loop|intros _].
  apply scripted_bind_silent; [quiet_step|intros _].
  apply scripted_bind_cons;
    [apply scripted_set_status; reflexivity|intros _].
  apply scripted_bind_silent;
    [apply no_status_flash_iface_write|intros _].
  apply scripted_bind_cons;
    [apply scripted_set_status; reflexivity|intros _].
  apply scripted_bind_silent;
    [apply no_status_flash_iface_read|intros readback].
  apply scripted_bind_silent.
  { destruct (memcmp_differs firmware_bytes readback FLASH_USER_SIZE);
      quiet_step. }
  intros _.
  apply scripted_bind_cons;
    [apply scripted_set_status; reflexivity|intros _].
  apply scripted_bind_silent;
    [apply no_status_flash_iface_erase_sector|intros _].
  apply scripted_bind_cons;
    [apply scripted_set_status; reflexivity|intros _].
  apply scripted_silent. apply no_status_flash_iface_write.
Qed.

(** X4: the status reports of [write_firmware] follow one fixed order,
    erase, write, verify, erase, write, whatever the chip does: a run
    that stops early has reported a prefix of it, a successful run all
    five.  The update never reports idle itself. *)
Theorem write_firmware_status_order (budget : nat)
    (firmware : FuFirmware) (w : World D) :
  let r := fu_realtek_mst_device_write_firmware budget firmware w in
  let order := [FWUPD_STATUS_DEVICE_ERASE; FWUPD_STATUS_DEVICE_WRITE;
                FWUPD_STATUS_DEVICE_VERIFY; FWUPD_STATUS_DEVICE_ERASE;
                FWUPD_STATUS_DEVICE_WRITE] in
  (exists rest, filter_map status_of (emitted r) ++ rest = order)
  /\ (result r = Ok tt -> filter_map status_of (emitted r) = order)
  /\ ~ In (EvStatus FWUPD_STATUS_IDLE) (emitted r).
Proof.
  intros r order.
  assert (S : (exists rest,
                 filter_map status_of (emitted r) ++ rest = order)
              /\ (is_ok (result r) = true ->
                  filter_map status_of (emitted r) = order)).
  { unfold r. destruct firmware as [firmware_bytes|error].
    - rewrite write_firmware_of_bytes.
      apply (write_firmware_statuses budget firmware_bytes w).
    - rewrite write_firmware_no_bytes. cbn [result emitted filter_map].
      split; [exists order; reflexivity|discriminate]. }
  destruct S as [Hpre Hall]. split; [exact Hpre|].
  split; [intros R; apply Hall; rewrite R; reflexivity|].
  intros Hin. destruct Hpre as [rest Hpre].
  assert (Hs : In FWUPD_STATUS_IDLE (filter_map status_of (emitted r))).
  { clear Hpre Hall. induction (emitted r) as [|e l IH];
      [destruct Hin|].
    destruct Hin as [->|Hin]; [left; reflexivity|].
    cbn [filter_map]. destruct (status_of e); [right|]; apply IH; exact Hin. }
  assert (Ho : In FWUPD_STATUS_IDLE order).
  { rewrite <- Hpre. apply in_or_app. left. exact Hs. }
  unfold order in Ho. cbn [In] in Ho.
  repeat (destruct Ho as [Ho|Ho]; [discriminate|]). exact Ho.
Qed.

End Status.

(** ** Indirect registers and the write-protect pin *)

Section Gpio.
Context {D : Type} `{Backend D}.

Lemma mst_write_register_ok address value w :
  result (mst_write_register address value w) = Ok tt ->
  emitted (mst_write_register address value w)
  = [EvPwrite [guint8 address; guint8 value] true].
Proof.
  unfold mst_write_register. intros R.
  destruct (pwrite_full_cases [guint8 address; guint8 value] w)
    as [[_ E]|(err & R' & _)]; [exact E|].
  rewrite R' in R. discriminate.
Qed.

Lemma mst_read_register_ok address w v :
  result (mst_read_register address w) = Ok v ->
  exists raw,
    v = guint8 raw
    /\ emitted (mst_read_register address w) = read_events address raw.
Proof.
  intros R. pose proof (mst_read_register_cases address w) as C.
  rewrite R in C. exact C.
Qed.

Lemma mst_set_indirect_address_ok address w :
  result (mst_set_indirect_address address w) = Ok tt ->
  emitted (mst_set_indirect_address address w) = indirect_select address.
Proof.
  unfold mst_set_indirect_address. intros E.
  apply bind_ok_inv in E. destruct E as ([] & R1 & E & -> & _).
  apply bind_ok_inv in E. destruct E as ([] & R2 & E & -> & _).
  rewrite (mst_write_register_ok _ _ _ R1), (mst_write_register_ok _ _ _ R2),
    (mst_write_register_ok _ _ _ E).
  reflexivity.
Qed.

Lemma mst_read_register_indirect_ok address w v :
  result (mst_read_register_indirect address w) = Ok v ->
  exists raw,
    v = guint8 raw
    /\ emitted (mst_read_register_indirect address w)
       = indirect_read_events address raw.
Proof.
  unfold mst_read_register_indirect. intros E.
  apply bind_ok_inv in E. destruct E as ([] & R1 & E & -> & _).
  apply mst_read_register_ok in E. destruct E as (raw & -> & ->).
  exists raw. split; [reflexivity|].
  rewrite (mst_set_indirect_address_ok _ _ R1). reflexivity.
Qed.

Lemma mst_write_register_indirect_ok address value w :
  result (mst_write_register_indirect address value w) = Ok tt ->
  emitted (mst_write_register_indirect address value w)
  = indirect_write_events address value.
Proof.
  unfold mst_write_register_indirect. intros E.
  apply bind_ok_inv in E. destruct E as ([] & R1 & E & -> & _).
  rewrite (mst_set_indirect_address_ok _ _ R1),
    (mst_write_register_ok _ _ _ E).
  reflexivity.
Qed.

Lemma mst_set_gpio88_ok level w :
  result (mst_set_gpio88 level w) = Ok tt ->
  exists config value,
    emitted (mst_set_gpio88 level w) = gpio88_events level config value.
Proof.
  unfold mst_set_gpio88. intros E.
  apply bind_ok_inv in E. destruct E as (v1 & R1 & E & -> & _).
  apply bind_ok_inv in E. destruct E as ([] & R2 & E & -> & _).
  apply bind_ok_inv in E. destruct E as ([] & _ & E & -> & _).
  apply bind_ok_inv in E. destruct E as (v2 & R4 & E & -> & _).
  apply mst_read_register_indirect_ok in R1.
  destruct R1 as (config & -> & ->).
  apply mst_read_register_indirect_ok in R4.
  destruct R4 as (value & -> & ->).
  rewrite (mst_write_register_indirect_ok _ _ _ R2),
    (mst_write_register_indirect_ok _ _ _ E).
  exists config, value. reflexivity.
Qed.

Lemma guint8_testbit x i :
  0 <= i -> Z.testbit (guint8 x) i = Z.testbit x i && (i <? 8).
Proof.
  intros Hi. unfold guint8. change 0xFF with (Z.ones 8).
  rewrite Z.land_spec, Z.testbit_ones_nonneg by lia.
  destruct (Z.ltb_spec i 8); reflexivity.
Qed.

(** X6: a successful [mst_set_gpio88] is two read-modify-write cycles
    through the indirect window: register 0x104F is read and written
    back with its low nibble set to 1 and its high nibble kept, then
    register 0xFE3F is read and written back with bit 0 set to the
    level asked for and bits 1 to 7 kept.  Nothing else reaches the
    bus. *)
Theorem mst_set_gpio88_read_modify_write (level : bool) (w : World D) :
  result (mst_set_gpio88 level w) = Ok tt ->
  exists config value,
    emitted (mst_set_gpio88 level w) = gpio88_events level config value
    /\ let new_config := Z.lor (Z.land (guint8 config) 0xF0) 1 in
       let new_value :=
         Z.lor (Z.land (guint8 value) 0xFE) (if level then 1 else 0) in
       guint8 new_config = new_config
       /\ guint8 new_value = new_value
       /\ new_config mod 16 = 1
       /\ (forall i, 4 <= i < 8 ->
                     Z.testbit new_config i = Z.testbit config i)
       /\ Z.testbit new_value 0 = level
       /\ (forall i, 1 <= i < 8 ->
                     Z.testbit new_value i = Z.testbit value i).
Proof.
  intros R. destruct (mst_set_gpio88_ok level w R) as (config & value & E).
  exists config, value. split; [exact E|]. cbv zeta.
  assert (Hc : 0 <= guint8 config < 256) by apply guint8_range.
  assert (Hv : 0 <= guint8 value < 256) by apply guint8_range.
  assert (T240 : forall i, 0 <= i ->
             Z.testbit 0xF0 i = (4 <=? i) && (i <? 8)).
  { intros i Hi. change 0xF0 with (Z.shiftl (Z.ones 4) 4).
    rewrite Z.shiftl_spec by lia.
    destruct (Z.leb_spec 4 i).
    - rewrite Z.testbit_ones_nonneg by lia.
      destruct (Z.ltb_spec (i - 4) 4), (Z.ltb_spec i 8); try lia;
        reflexivity.
    - rewrite Z.testbit_neg_r by lia. reflexivity. }
  assert (T254 : forall i, 0 <= i ->
             Z.testbit 0xFE i = (1 <=? i) && (i <? 8)).
  { intros i Hi. change 0xFE with (Z.shiftl (Z.ones 7) 1).
    rewrite Z.shiftl_spec by lia.
    destruct (Z.leb_spec 1 i).
    - rewrite Z.testbit_ones_nonneg by lia.
      destruct (Z.ltb_spec (i - 1) 7), (Z.ltb_spec i 8); try lia;
        reflexivity.
    - rewrite Z.testbit_neg_r by lia. reflexivity. }
  assert (T1 : forall i, 0 <= i -> Z.testbit 1 i = (i =? 0)).
  { intros i Hi. destruct (Z.eqb_spec i 0) as [->|Hn]; [reflexivity|].
    change 1 with (Z.ones 1). rewrite Z.testbit_ones_nonneg by lia.
    destruct (Z.ltb_spec i 1); [lia|reflexivity]. }
  assert (TL : forall i, 0 <= i ->
             Z.testbit (if level then 1 else 0) i = level && (i =? 0)).
  { intros i Hi. destruct level; [rewrite T1 by lia; reflexivity|].
    apply Z.testbit_0_l. }
  split; [|split; [|split; [|split; [|split]]]].
  - apply Z.bits_inj'. intros i Hi.
    rewrite guint8_testbit, Z.lor_spec, Z.land_spec, T240, T1 by lia.
    destruct (Z.ltb_spec i 8); [apply andb_true_r|].
    destruct (Z.eqb_spec i 0); [lia|].
    rewrite !andb_false_r. reflexivity.
  - apply Z.bits_inj'. intros i Hi.
    rewrite guint8_testbit, Z.lor_spec, Z.land_spec, T254, TL by lia.
    destruct (Z.ltb_spec i 8); [apply andb_true_r|].
    destruct (Z.eqb_spec i 0); [lia|].
    rewrite !andb_false_r. reflexivity.
  - change 16 with (2 ^ 4). rewrite <- Z.land_ones by lia.
    apply Z.bits_inj'. intros i Hi.
    rewrite Z.land_spec, Z.lor_spec, Z.land_spec, T240, T1,
      Z.testbit_ones_nonneg by lia.
    destruct (Z.leb_spec 4 i), (Z.ltb_spec i 4), (Z.eqb_spec i 0);
      try lia; cbn; rewrite ?andb_false_r, ?andb_true_r, ?orb_false_r;
      reflexivity.
  - intros i Hi.
    rewrite Z.lor_spec, Z.land_spec, T240, T1, guint8_testbit by lia.
    destruct (Z.leb_spec 4 i), (Z.ltb_spec i 8), (Z.eqb_spec i 0);
      try lia. cbn. rewrite !andb_true_r, orb_false_r. reflexivity.
  - rewrite Z.lor_spec, Z.land_spec, T254, TL by lia. cbn.
    rewrite andb_false_r, andb_true_r. reflexivity.
  - intros i Hi.
    rewrite Z.lor_spec, Z.land_spec, T254, TL, guint8_testbit by lia.
    destruct (Z.leb_spec 1 i), (Z.ltb_spec i 8), (Z.eqb_spec i 0);
      try lia. cbn. rewrite !andb_true_r, andb_false_r, orb_false_r.
    reflexivity.
Qed.

End Gpio.

(** A chip whose configuration register reads 0x5A and whose value
    register reads 0xC6, asked to drive pin 88 high. *)
Lemma mst_set_gpio88_read_modify_write_witness :
  exists config value,
    emitted (mst_set_gpio88 true
               (mock_world (mock_chip [Some [0x5A]; Some [0xC6]] 0)
                  FLASH_BANK_USER1))
    = gpio88_events true config value
    /\ Z.testbit (Z.lor (Z.land (guint8 value) 0xFE) 1) 0 = true.
Proof.
  assert (R : result (mst_set_gpio88 true
                        (mock_world (mock_chip [Some [0x5A]; Some [0xC6]] 0)
                           FLASH_BANK_USER1)) = Ok tt)
    by (vm_compute; reflexivity).
  destruct (mst_set_gpio88_read_modify_write true _ R)
    as (config & value & E & _ & _ & _ & _ & Hb & _).
  exists config, value. split; [exact E|exact Hb].
Defined.

(** ** What the hooks change of the device *)

Section Frame.
Context {D : Type} `{Backend D}.

Lemma bus_only_g_return_val_if_fail c :
  bus_only (g_return_val_if_fail (D := D) c).
Proof. destruct c; intros w; repeat split. Qed.

Lemma bus_only_get_active_bank : bus_only (get_active_bank (D := D)).
Proof. intros w. repeat split. Qed.

Lemma bus_only_g_prefix_error {A} format args (m : M D A) :
  bus_only m -> bus_only (g_prefix_error format args m).
Proof.
  intros Hm w. unfold g_prefix_error.
  destruct (result (m w)) as [a|[e|]|]; cbn [final]; apply Hm.
Qed.

Lemma bus_only_mst_write_register_indirect address value :
  bus_only (mst_write_register_indirect address value).
Proof.
  apply bus_only_bind; [apply bus_only_mst_set_indirect_address|intros _].
  apply bus_only_mst_write_register.
Qed.

Lemma bus_only_mst_poll_register_loop address mask expected deadline :
  forall budget value now,
    bus_only (mst_poll_register_loop budget address mask expected deadline
                value now).
Proof.
  induction budget as [|budget IH]; intros value now;
    cbn [mst_poll_register_loop];
    destruct (poll_pending mask expected deadline value now);
    try apply bus_only_ret; try apply bus_only_diverge.
  apply bus_only_bind; [apply bus_only_g_usleep|intros _].
  apply bus_only_bind; [apply bus_only_clock_gettime|intros now'].
  apply bus_only_bind; [apply bus_only_mst_read_register|intros value'].
  apply IH.
Qed.

Lemma bus_only_mst_poll_register budget address mask expected timeout :
  bus_only (mst_poll_register budget address mask expected timeout).
Proof.
  unfold mst_poll_register.
  apply bus_only_bind; [apply bus_only_clock_gettime|intros now]. cbv zeta.
  apply bus_only_bind; [apply bus_only_mst_read_register|intros value].
  apply bus_only_bind;
    [apply bus_only_mst_poll_register_loop|intros value'].
  destruct (Z.land value' mask =? expected);
    [apply bus_only_ret|apply bus_only_fail].
Qed.

Lemma bus_only_flash_iface_read_loop buf_size :
  forall n bytes_read,
    bus_only (flash_iface_read_loop n buf_size bytes_read).
Proof.
  induction n as [|n IH]; intros bytes_read; cbn [flash_iface_read_loop];
    destruct (bytes_read <? buf_size);
    try apply bus_only_ret; try apply bus_only_diverge.
  cbv zeta.
  apply bus_only_bind; [apply bus_only_pread_full|intros chunk].
  apply bus_only_bind; [apply bus_only_emit|intros _].
  apply bus_only_bind; [apply IH|intros rest]. apply bus_only_ret.
Qed.

Lemma bus_only_flash_iface_read address buf_size :
  bus_only (flash_iface_read address buf_size).
Proof.
  unfold flash_iface_read.
  do 2 (apply bus_only_bind; [apply bus_only_g_return_val_if_fail|intros _]).
  apply bus_only_bind; [apply bus_only_emit|intros _]. cbv zeta.
  do 4 (apply bus_only_bind; [apply bus_only_mst_write_register|intros _]).
  apply bus_only_bind; [apply bus_only_pwrite_full|intros _].
  apply bus_only_bind.
  { apply bus_only_bind; [apply bus_only_pread_full|intros bytes].
    apply bus_only_ret. }
  intros _. apply bus_only_flash_iface_read_loop.
Qed.

Lemma bus_only_flash_iface_erase_sector budget address :
  bus_only (flash_iface_erase_sector budget address).
Proof.
  unfold flash_iface_erase_sector.
  apply bus_only_bind; [apply bus_only_g_return_val_if_fail|intros _].
  apply bus_only_bind; [apply bus_only_emit|intros _].
  do 6 (apply bus_only_bind; [apply bus_only_mst_write_register|intros _]).
  apply bus_only_mst_poll_register.
Qed.

Lemma bus_only_flash_iface_erase_block budget address :
  bus_only (flash_iface_erase_block budget address).
Proof.
  unfold flash_iface_erase_block.
  apply bus_only_bind; [apply bus_only_g_return_val_if_fail|intros _].
  apply bus_only_bind; [apply bus_only_emit|intros _].
  do 6 (apply bus_only_bind; [apply bus_only_mst_write_register|intros _]).
  apply bus_only_mst_poll_register.
Qed.

Lemma bus_only_flash_iface_write_loop budget total :
  forall n remaining address data,
    bus_only (flash_iface_write_loop n budget total remaining address data).
Proof.
  induction n as [|n IH]; intros remaining address data;
    cbn [flash_iface_write_loop];
    destruct (remaining >? 0);
    try apply bus_only_ret; try apply bus_only_diverge.
  cbv zeta.
  apply bus_only_bind.
  { unfold flash_iface_write_chunk.
    do 5 (apply bus_only_bind; [apply bus_only_mst_write_register|intros _]).
    apply bus_only_bind; [apply bus_only_mst_poll_register|intros _].
    apply bus_only_bind; [apply bus_only_pwrite_full|intros _].
    apply bus_only_bind; [apply bus_only_mst_write_register|intros _].
    apply bus_only_g_prefix_error. apply bus_only_mst_poll_register. }
  intros _.
  apply bus_only_bind; [apply bus_only_emit|intros _]. apply IH.
Qed.

Lemma bus_only_flash_iface_write budget address data :
  bus_only (flash_iface_write budget address data).
Proof.
  unfold flash_iface_write. cbv zeta.
  apply bus_only_bind; [apply bus_only_emit|intros _].
  apply bus_only_flash_iface_write_loop.
Qed.

Lemma bus_only_erase_old_image_loop budget base_addr :
  forall n offset,
    bus_only (erase_old_image_loop n budget base_addr offset).
Proof.
  induction n as [|n IH]; intros offset; cbn [erase_old_image_loop];
    destruct (offset <? FLASH_USER_SIZE);
    try apply bus_only_ret; try apply bus_only_diverge.
  apply bus_only_bind; [apply bus_only_emit|intros _].
  apply bus_only_bind; [apply bus_only_flash_iface_erase_block|intros _].
  apply IH.
Qed.

Lemma bus_only_write_firmware budget firmware_bytes :
  bus_only (write_firmware_image budget firmware_bytes).
Proof.
  unfold write_firmware_image.
  apply bus_only_bind; [apply bus_only_get_active_bank|intros bank].
  cbv zeta.
  apply bus_only_bind; [apply bus_only_g_return_val_if_fail|intros _].
  do 2 (apply bus_only_bind; [apply bus_only_emit|intros _]).
  apply bus_only_bind; [apply bus_only_erase_old_image_loop|intros _].
  do 2 (apply bus_only_bind; [apply bus_only_emit|intros _]).
  apply bus_only_bind; [apply bus_only_flash_iface_write|intros _].
  apply bus_only_bind; [apply bus_only_emit|intros _].
  apply bus_only_bind; [apply bus_only_flash_iface_read|intros readback].
  apply bus_only_bind.
  { destruct (memcmp_differs firmware_bytes readback FLASH_USER_SIZE);
      [apply bus_only_fail|apply bus_only_ret]. }
  intros _.
  apply bus_only_bind; [apply bus_only_emit|intros _].
  apply bus_only_bind; [apply bus_only_flash_iface_erase_sector|intros _].
  apply bus_only_bind; [apply bus_only_emit|intros _].
  apply bus_only_flash_iface_write.
Qed.

Lemma changes_only_bus_only {A} l (m : M D A) :
  bus_only m -> changes_only_flags l m.
Proof.
  intros Hm w. destruct (Hm w) as (F & V & B). rewrite F.
  repeat split; assumption.
Qed.

Lemma changes_only_bind {A B} l (m : M D A) (f : A -> M D B) :
  changes_only_flags l m -> (forall a, changes_only_flags l (f a)) ->
  changes_only_flags l (bind m f).
Proof.
  intros Hm Hf w. unfold bind. destruct (Hm w) as (F1 & V1 & B1).
  destruct (result (m w)) as [a| |]; cbn [final];
    try (repeat split; assumption).
  destruct (Hf a (final (m w))) as (F2 & V2 & B2).
  rewrite V2, B2. repeat split; try assumption.
  intros g Hg. rewrite F2, F1 by exact Hg. reflexivity.
Qed.

Lemma flag_eqb_sym f g : flag_eqb f g = flag_eqb g f.
Proof. destruct f, g; reflexivity. Qed.

Lemma has_flag_false_in f g l :
  has_flag f l = false -> has_flag g [g] = true ->
  has_flag g l = true -> flag_eqb f g = false.
Proof.
  intros Hf _ Hg. destruct (flag_eqb f g) eqn:E; [|reflexivity].
  assert (f = g) by (destruct f, g; try discriminate; reflexivity).
  subst. rewrite Hg in Hf. discriminate.
Qed.

Lemma changes_only_add_flag l g :
  has_flag g l = true ->
  changes_only_flags l (fu_device_add_flag (D := D) g).
Proof.
  intros Hg w. cbn [fu_device_add_flag final flags version active_bank].
  repeat split. intros f Hf. rewrite has_flag_add.
  rewrite (has_flag_false_in f g l Hf); [apply orb_false_r| |exact Hg].
  destruct g; reflexivity.
Qed.

Lemma changes_only_remove_flag l g :
  has_flag g l = true ->
  changes_only_flags l (fu_device_remove_flag (D := D) g).
Proof.
  intros Hg w. cbn [fu_device_remove_flag final flags version active_bank].
  repeat split. intros f Hf. rewrite has_flag_remove, flag_eqb_sym.
  rewrite (has_flag_false_in f g l Hf); [apply andb_true_r| |exact Hg].
  destruct g; reflexivity.
Qed.

Lemma detach_split budget w :
  fu_realtek_mst_device_detach budget w
  = bind (detach_enter_isp budget) (fun _ => detach_after_isp) w.
Proof.
  unfold fu_realtek_mst_device_detach, detach_enter_isp, detach_after_isp.
  symmetry.
  do 3 (rewrite bind_assoc_run; apply bind_ext; intros ? ?).
  reflexivity.
Qed.

Lemma bus_only_detach_enter_isp budget :
  bus_only (detach_enter_isp budget).
Proof.
  unfold detach_enter_isp.
  apply bus_only_bind; [apply bus_only_emit|intros _].
  apply bus_only_bind; [apply bus_only_mst_write_register|intros _].
  apply bus_only_bind; [apply bus_only_emit|intros _].
  apply bus_only_mst_poll_register.
Qed.

Lemma changes_only_detach budget :
  changes_only_flags [FWUPD_DEVICE_FLAG_IS_BOOTLOADER]
    (fu_realtek_mst_device_detach budget).
Proof.
  unfold fu_realtek_mst_device_detach.
  apply changes_only_bind;
    [apply changes_only_bus_only; apply bus_only_emit|intros _].
  apply changes_only_bind;
    [apply changes_only_bus_only; apply bus_only_mst_write_register
    |intros _].
  apply changes_only_bind;
    [apply changes_only_bus_only; apply bus_only_emit|intros _].
  apply changes_only_bind;
    [apply changes_only_bus_only; apply bus_only_mst_poll_register
    |intros _].
  apply changes_only_bind;
    [apply changes_only_bus_only;
     apply bus_only_mst_write_register_indirect|intros _].
  apply changes_only_bind;
    [apply changes_only_add_flag; reflexivity|intros _].
  apply changes_only_bind;
    [apply changes_only_bus_only; apply bus_only_emit|intros _].
  apply changes_only_bus_only. apply bus_only_mst_set_gpio88.
Qed.

Lemma changes_only_attach :
  changes_only_flags
    [FWUPD_DEVICE_FLAG_IS_BOOTLOADER; FWUPD_DEVICE_FLAG_NEEDS_SHUTDOWN]
    (fu_realtek_mst_device_attach (D := D)).
Proof.
  unfold fu_realtek_mst_device_attach.
  apply changes_only_bind;
    [apply changes_only_bus_only; apply bus_only_mst_set_gpio88|intros _].
  apply changes_only_bind;
    [apply changes_only_bus_only; apply bus_only_mst_read_register
    |intros v].
  apply changes_only_bind.
  { destruct (negb (Z.land v MCU_MODE_ISP =? 0));
      [|apply changes_only_bus_only; apply bus_only_emit].
    do 2 (apply changes_only_bind;
          [apply changes_only_bus_only; apply bus_only_emit|intros _]).
    apply changes_only_bind;
      [apply changes_only_bus_only; apply bus_only_mst_read_register
      |intros v2].
    apply changes_only_bind;
      [apply changes_only_bus_only; apply bus_only_ignore_result;
       apply bus_only_mst_write_register|intros _].
    apply changes_only_bind;
      [apply changes_only_bus_only; apply bus_only_g_usleep|intros _].
    apply changes_only_bind;
      [apply changes_only_bus_only; apply bus_only_mst_read_register
      |intros v3].
    destruct (Z.land v3 MCU_MODE_ISP =? MCU_MODE_ISP);
      [|apply changes_only_bus_only; apply bus_only_ret].
    apply changes_only_bind;
      [apply changes_only_add_flag; reflexivity|intros _].
    apply changes_only_bus_only. apply bus_only_fail. }
  intros _.
  apply changes_only_bind;
    [apply changes_only_remove_flag; reflexivity|intros _].
  apply changes_only_bus_only. apply bus_only_emit.
Qed.

(** X8: what each hook may change of the device.  Detach touches no
    flag but IS_BOOTLOADER, attach none but IS_BOOTLOADER and
    NEEDS_SHUTDOWN, and neither changes the version or the recorded
    active bank.  Writing, reading and dumping the firmware change no
    flag, no version and no active bank at all, whatever their outcome:
    after an update the device still records the bank it ran from
    before. *)
Theorem hooks_frame (budget : nat) (firmware : FuFirmware) :
  changes_only_flags (D := D) [FWUPD_DEVICE_FLAG_IS_BOOTLOADER]
    (fu_realtek_mst_device_detach budget)
  /\ changes_only_flags (D := D)
       [FWUPD_DEVICE_FLAG_IS_BOOTLOADER; FWUPD_DEVICE_FLAG_NEEDS_SHUTDOWN]
       fu_realtek_mst_device_attach
  /\ bus_only (D := D)
       (fu_realtek_mst_device_write_firmware budget firmware)
  /\ bus_only (D := D) fu_realtek_mst_device_read_firmware
  /\ bus_only (D := D) fu_realtek_mst_device_dump_firmware.
Proof.
  split; [apply changes_only_detach|].
  split; [apply changes_only_attach|].
  split.
  { destruct firmware as [firmware_bytes|error].
    - rewrite write_firmware_of_bytes. apply bus_only_write_firmware.
    - intros w. rewrite write_firmware_no_bytes. repeat split. }
  split.
  - unfold fu_realtek_mst_device_read_firmware.
    apply bus_only_bind; [apply bus_only_get_active_bank|intros bank].
    apply bus_only_bind; [|intros a; apply bus_only_flash_iface_read].
    destruct (bank =? FLASH_BANK_USER1); [apply bus_only_ret|].
    destruct (bank =? FLASH_BANK_USER2);
      [apply bus_only_ret|apply bus_only_fail].
  - unfold fu_realtek_mst_device_dump_firmware.
    apply bus_only_bind; [apply bus_only_emit|intros _].
    apply bus_only_bind; [apply bus_only_flash_iface_read|intros c].
    apply bus_only_bind; [apply bus_only_emit|intros _].
    apply bus_only_ret.
Qed.

End Frame.

(** ** Detach *)

Section Detach.
Context {D : Type} `{Backend D}.

Lemma detach_enter_isp_ok budget w :
  result (detach_enter_isp budget w) = Ok tt ->
  exists now0 raw0 rounds,
    emitted (detach_enter_isp budget w)
    = EvStatus FWUPD_STATUS_DEVICE_RESTART
      :: EvPwrite [REG_MCU_MODE; MCU_MODE_ISP] true
      :: EvDebug "wait for ISP mode ready" []
      :: poll_trace REG_MCU_MODE now0 raw0 rounds
    /\ Z.land (snd (final_sample now0 (guint8 raw0) rounds)) MCU_MODE_ISP
       = MCU_MODE_ISP.
Proof.
  unfold detach_enter_isp. intros E.
  apply bind_ok_inv in E. destruct E as ([] & _ & E & -> & _).
  apply bind_ok_inv in E. destruct E as ([] & R2 & E & -> & _).
  apply bind_ok_inv in E. destruct E as ([] & _ & E & -> & _).
  rewrite (mst_write_register_ok _ _ _ R2).
  match type of E with
  | result (mst_poll_register _ _ _ _ _ ?w') = _ =>
      pose proof (mst_poll_register_cases budget REG_MCU_MODE MCU_MODE_ISP
                    MCU_MODE_ISP 60 w') as C
  end.
  cbv zeta in C. rewrite E in C.
  destruct C as (now0 & raw0 & rounds & Em & _ & Hf).
  exists now0, raw0, rounds. split; [|exact Hf].
  rewrite Em. reflexivity.
Qed.

Lemma detach_after_isp_flag w :
  result (detach_after_isp w) = Ok tt ->
  has_flag FWUPD_DEVICE_FLAG_IS_BOOTLOADER
    (flags (final (detach_after_isp w))) = true.
Proof.
  unfold detach_after_isp. intros E.
  apply bind_ok_inv in E. destruct E as ([] & _ & E & _ & ->).
  apply bind_ok_inv in E. destruct E as ([] & _ & E & _ & ->).
  apply bind_ok_inv in E. destruct E as ([] & _ & E & _ & ->).
  destruct (bus_only_mst_set_gpio88 true
              (final (fu_device_set_status FWUPD_STATUS_IDLE
                        (final (fu_device_add_flag
                                  FWUPD_DEVICE_FLAG_IS_BOOTLOADER
                                  (final (mst_write_register_indirect
                                            0x06A0 0x74 w)))))))
    as (F & _).
  rewrite F. cbn [fu_device_set_status emit final fu_device_add_flag flags].
  rewrite has_flag_add. apply orb_true_r.
Qed.

Lemma detach_statuses budget :
  scripted status_of [FWUPD_STATUS_DEVICE_RESTART; FWUPD_STATUS_IDLE]
    (fu_realtek_mst_device_detach budget).
Proof.
  unfold fu_realtek_mst_device_detach.
  apply scripted_bind_cons;
    [apply scripted_set_status; reflexivity|intros _].
  do 3 (apply scripted_bind_silent; [quiet_step|intros _]).
  apply scripted_bind_silent.
  { unfold mst_write_register_indirect, mst_set_indirect_address.
    repeat quiet_step. }
  intros _.
  apply scripted_bind_silent; [quiet_step|intros _].
  apply scripted_bind_cons;
    [apply scripted_set_status; reflexivity|intros _].
  apply scripted_silent.
  unfold mst_set_gpio88, mst_read_register_indirect,
    mst_write_register_indirect, mst_set_indirect_address.
  repeat quiet_step.
Qed.

(** X7: a device is flagged IS_BOOTLOADER by detach only once the chip
    has confirmed ISP mode.  If the flag was clear before and is set
    afterwards, the run began with the restart status, the acknowledged
    write of the ISP bit to MCU_MODE and a complete poll of MCU_MODE
    whose last sample had the ISP bit set.  A successful detach always
    sets the flag and has reported restart, then idle. *)
Theorem detach_flags_after_isp (budget : nat) (w : World D) :
  let r := fu_realtek_mst_device_detach budget w in
  (result r = Ok tt ->
   has_flag FWUPD_DEVICE_FLAG_IS_BOOTLOADER (flags (final r)) = true
   /\ filter_map status_of (emitted r)
      = [FWUPD_STATUS_DEVICE_RESTART; FWUPD_STATUS_IDLE])
  /\ (has_flag FWUPD_DEVICE_FLAG_IS_BOOTLOADER (flags w) = false ->
      has_flag FWUPD_DEVICE_FLAG_IS_BOOTLOADER (flags (final r)) = true ->
      exists now0 raw0 rounds tail,
        emitted r
        = EvStatus FWUPD_STATUS_DEVICE_RESTART
          :: EvPwrite [REG_MCU_MODE; MCU_MODE_ISP] true
          :: EvDebug "wait for ISP mode ready" []
          :: poll_trace REG_MCU_MODE now0 raw0 rounds ++ tail
        /\ Z.land (snd (final_sample now0 (guint8 raw0) rounds)) MCU_MODE_ISP
           = MCU_MODE_ISP).
Proof.
  intros r. split.
  - intros R. split.
    + unfold r in *. rewrite detach_split in R |- *.
      apply bind_ok_inv in R. destruct R as ([] & _ & R & _ & ->).
      apply detach_after_isp_flag. exact R.
    + apply (detach_statuses budget w). fold r. rewrite R. reflexivity.
  - intros Hclear Hset. unfold r in *. rewrite detach_split in Hset |- *.
    destruct (bus_only_detach_enter_isp budget w) as (F & _).
    destruct (result (detach_enter_isp budget w)) as [[]|e|] eqn:R.
    + destruct (detach_enter_isp_ok budget w R)
        as (now0 & raw0 & rounds & Em & Hf).
      exists now0, raw0, rounds,
        (emitted (detach_after_isp (final (detach_enter_isp budget w)))).
      split; [|exact Hf].
      rewrite (bind_ok _ _ _ _ R). cbn [emitted]. rewrite Em. reflexivity.
    + rewrite (bind_fail _ _ _ _ R) in Hset. cbn [final] in Hset.
      rewrite F, Hclear in Hset. discriminate.
    + rewrite (bind_diverge _ _ _ R) in Hset. cbn [final] in Hset.
      rewrite F, Hclear in Hset. discriminate.
Qed.

(** X9: whatever the chip does, detach writes to no register but
    MCU_MODE and the indirect window (0x6F, 0xF4, 0xF5), attach to none
    but the indirect window and the reset register (0xF4, 0xF5, 0xEE),
    and the version probe to none but 0xCA: none of them ever writes
    the address, opcode, attribute, length or FIFO registers that drive
    the flash. *)
Theorem hooks_register_writes (budget : nat) (info0 : dual_bank_info)
    (w : World D) :
  Forall (fun e => writes_registers_in
                     [REG_MCU_MODE; REG_INDIRECT_LO; REG_INDIRECT_HI] e
                   = true)
    (emitted (fu_realtek_mst_device_detach budget w))
  /\ Forall (fun e => writes_registers_in
                        [REG_INDIRECT_LO; REG_INDIRECT_HI; 0xEE] e = true)
       (emitted (fu_realtek_mst_device_attach w))
  /\ Forall (fun e => writes_registers_in [0xCA] e = true)
       (emitted (fu_realtek_mst_device_probe_version info0 w)).
Proof.
  split; [|split]; revert w.
  - change (emits (fun e => writes_registers_in
                              [REG_MCU_MODE; REG_INDIRECT_LO;
                               REG_INDIRECT_HI] e = true)
              (fu_realtek_mst_device_detach budget)).
    unfold fu_realtek_mst_device_detach, mst_set_gpio88,
      mst_read_register_indirect, mst_write_register_indirect,
      mst_set_indirect_address.
    repeat quiet_step.
  - change (emits (fun e => writes_registers_in
                              [REG_INDIRECT_LO; REG_INDIRECT_HI; 0xEE] e
                            = true)
              (fu_realtek_mst_device_attach (D := D))).
    unfold fu_realtek_mst_device_attach, mst_set_gpio88,
      mst_read_register_indirect, mst_write_register_indirect,
      mst_set_indirect_address.
    apply emits_bind; [repeat quiet_step|intros _].
    apply emits_bind; [repeat quiet_step|intros v1].
    apply emits_bind; [|intros ?; repeat quiet_step].
    destruct (negb (Z.land v1 MCU_MODE_ISP =? 0)); [|quiet_step].
    do 5 (apply emits_bind; [repeat quiet_step|intros ?]).
    apply emits_bind; [repeat quiet_step|intros v3].
    destruct (Z.land v3 MCU_MODE_ISP =? MCU_MODE_ISP); repeat quiet_step.
  - change (emits (fun e => writes_registers_in [0xCA] e = true)
              (fu_realtek_mst_device_probe_version info0)).
    unfold fu_realtek_mst_device_probe_version,
      fu_realtek_mst_device_get_dual_bank_info.
    do 3 (apply emits_bind; [quiet_step|intros ?]).
    apply emits_bind.
    { do 3 (apply emits_bind; [quiet_step|intros ?]).
      apply emits_bind; [quiet_step|intros response]. cbv zeta.
      repeat match goal with
             | |- context [if ?c then _ else _] => destruct c
             end; repeat quiet_step. }
    intros info.
    repeat match goal with
           | |- context [if ?c then _ else _] => destruct c
           end; repeat quiet_step.
Qed.

End Detach.

(** A chip that reports ISP mode on the first read of MCU_MODE. *)
Lemma detach_flags_after_isp_witness :
  has_flag FWUPD_DEVICE_FLAG_IS_BOOTLOADER
    (flags (final (fu_realtek_mst_device_detach 3
                     (mock_world (mock_chip [Some [0x80]] 0)
                        FLASH_BANK_USER1)))) = true
  /\ filter_map status_of
       (emitted (fu_realtek_mst_device_detach 3
                   (mock_world (mock_chip [Some [0x80]] 0)
                      FLASH_BANK_USER1)))
     = [FWUPD_STATUS_DEVICE_RESTART; FWUPD_STATUS_IDLE].
Proof.
  destruct (detach_flags_after_isp 3
              (mock_world (mock_chip [Some [0x80]] 0) FLASH_BANK_USER1))
    as [Hok _].
  apply Hok. vm_compute. reflexivity.
Defined.

(** ** Reading the firmware back and dumping the flash *)

Section ReadBack.
Context {D : Type} `{Backend D}.

Lemma statuses_silent {A} (m : M D A) w :
  emits (fun e => status_of e = None) m ->
  filter_map status_of (emitted (m w)) = [].
Proof. intros Hm. apply filter_map_none. apply Hm. Qed.

(** X10: [read_firmware] reads the bank the device runs from and nothing
    else.  With USER1 or USER2 active it is one flash read of 0x70000
    bytes from the base of that bank: the register writes follow the
    read script for that base, no erase and no page write is issued,
    and a successful read hands back 0x70000 bytes.  With any other
    active bank it fails with NOT_SUPPORTED without a single call to the
    bus. *)
Theorem read_firmware_reads_active_bank (w : World D) :
  let r := fu_realtek_mst_device_read_firmware w in
  (active_bank w <> FLASH_BANK_USER1 -> active_bank w <> FLASH_BANK_USER2 ->
   result r = Fail (Some (no_user_bank_error (active_bank w)))
   /\ emitted r = [] /\ final r = w)
  /\ (forall base,
        (active_bank w = FLASH_BANK_USER1 /\ base = FLASH_USER1_ADDR)
        \/ (active_bank w = FLASH_BANK_USER2 /\ base = FLASH_USER2_ADDR) ->
        r = flash_iface_read base FLASH_USER_SIZE w
        /\ (exists rest, reg_writes (emitted r) ++ rest = read_script base)
        /\ (exists rest,
              flash_ops (emitted r) ++ rest = [OpRead base FLASH_USER_SIZE])
        /\ forall buf,
             result r = Ok buf ->
             Z.of_nat (List.length buf) = FLASH_USER_SIZE
             /\ reg_writes (emitted r) = read_script base
             /\ flash_ops (emitted r) = [OpRead base FLASH_USER_SIZE]).
Proof.
  intros r. split.
  - intros N1 N2. unfold r, fu_realtek_mst_device_read_firmware.
    rewrite bind_get_active_bank. cbv beta.
    destruct (Z.eqb_spec (active_bank w) FLASH_BANK_USER1);
      [contradiction|].
    destruct (Z.eqb_spec (active_bank w) FLASH_BANK_USER2);
      [contradiction|].
    repeat split.
  - intros base Hb.
    assert (E : r = flash_iface_read base FLASH_USER_SIZE w).
    { unfold r, fu_realtek_mst_device_read_firmware.
      rewrite bind_get_active_bank. cbv beta.
      destruct Hb as [[-> ->]|[-> ->]];
        cbn [Z.eqb FLASH_BANK_USER1 FLASH_BANK_USER2 Pos.eqb];
        rewrite (bind_ok (ret _) _ w _ eq_refl);
        cbn [ret result final emitted app]; apply run_eta. }
    split; [exact E|]. rewrite E.
    destruct (flash_iface_read_script base FLASH_USER_SIZE w) as [P1 A1].
    destruct (flash_iface_read_op base FLASH_USER_SIZE w) as [P2 A2].
    split; [exact P1|]. split; [exact P2|].
    intros buf R.
    destruct (flash_iface_read_ok base FLASH_USER_SIZE w buf
                ltac:(discriminate) R) as (d & chunks & _ & _ & _ & L).
    split; [exact L|].
    split; [apply A1|apply A2]; rewrite R; reflexivity.
Qed.

(** X11: [dump_firmware] reads the whole flash from address 0.  The
    address registers are loaded with 0xFF, 0xFF, 0xFF, one byte below
    address 0 modulo 2^24, ahead of the read opcode.  A successful dump
    hands back 0x100000 bytes and has reported the status read and then
    idle; a dump that fails has reported read and never goes back to
    idle. *)
Theorem dump_firmware_reads_whole_flash (w : World D) :
  let r := fu_realtek_mst_device_dump_firmware w in
  let script := [[REG_CMD_ADDR_HI; 0xFF]; [REG_CMD_ADDR_MID; 0xFF];
                 [REG_CMD_ADDR_LO; 0xFF];
                 [REG_READ_OPCODE; CMD_OPCODE_READ]] in
  (exists rest, reg_writes (emitted r) ++ rest = script)
  /\ (forall buf,
        result r = Ok buf ->
        Z.of_nat (List.length buf) = FLASH_SIZE
        /\ reg_writes (emitted r) = script
        /\ filter_map status_of (emitted r)
           = [FWUPD_STATUS_DEVICE_READ; FWUPD_STATUS_IDLE])
  /\ ((forall buf, result r <> Ok buf) ->
      filter_map status_of (emitted r) = [FWUPD_STATUS_DEVICE_READ]).
Proof.
  intros r script.
  pose proof (flash_iface_read_script 0 FLASH_SIZE w) as [P1 A1].
  pose proof (statuses_silent (flash_iface_read 0 FLASH_SIZE) w
                (no_status_flash_iface_read 0 FLASH_SIZE)) as S1.
  change (read_script 0) with script in P1, A1.
  unfold r, fu_realtek_mst_device_dump_firmware.
  rewrite (bind_ok (fu_device_set_status _) _ w tt eq_refl).
  cbn [fu_device_set_status emit result final emitted].
  destruct (result (flash_iface_read 0 FLASH_SIZE w)) as [buf| |] eqn:R.
  - rewrite (bind_ok _ _ _ _ R).
    cbn [bind fu_device_set_status emit ret result final emitted app].
    unfold reg_writes in *. cbn [filter_map reg_write status_of].
    rewrite !filter_map_app. cbn [filter_map reg_write status_of].
    rewrite app_nil_r, S1.
    specialize (A1 eq_refl).
    split; [exists []; rewrite app_nil_r; exact A1|].
    split.
    + intros buf' E. inversion E. subst buf'.
      destruct (flash_iface_read_ok 0 FLASH_SIZE w buf
                  ltac:(discriminate) R) as (d & chunks & _ & _ & _ & L).
      repeat split; [exact L|exact A1].
    + intros N. exfalso. apply (N buf). reflexivity.
  - rewrite (bind_fail _ _ _ _ R). cbn [result final emitted].
    unfold reg_writes in *. cbn [filter_map reg_write status_of app].
    rewrite S1.
    split; [exact P1|]. split; [discriminate|]. reflexivity.
  - rewrite (bind_diverge _ _ _ R). cbn [result final emitted].
    unfold reg_writes in *. cbn [filter_map reg_write status_of app].
    rewrite S1.
    split; [exact P1|]. split; [discriminate|]. reflexivity.
Qed.

End ReadBack.

(** ** Error codes and termination *)

Section ErrorCodes.
Context {D : Type} `{Backend D}.
Variable codes : list GErrorCode.
Hypothesis Hio : In G_IO_ERROR_FAILED codes.

Lemma fails_with_ret {A} (a : A) : fails_with (D := D) codes (ret a).
Proof. intros w e R. discriminate. Qed.

Lemma fails_with_diverge {A} :
  fails_with (D := D) (A := A) codes diverge.
Proof. intros w e R. discriminate. Qed.

Lemma fails_with_emit e : fails_with (D := D) codes (emit e).
Proof. intros w e' R. discriminate. Qed.

Lemma fails_with_ok {A} (m : M D A) :
  (forall w, exists a, result (m w) = Ok a) -> fails_with codes m.
Proof. intros Hm w e R. destruct (Hm w) as [a E]. congruence. Qed.

Lemma fails_with_g_set_error {A} code format args :
  In code codes ->
  fails_with (D := D) (A := A) codes (g_set_error code format args).
Proof.
  intros Hc w e R. inversion R. eexists. split; [reflexivity|exact Hc].
Qed.

Lemma fails_with_bind_post {A B} (Q : A -> Prop) (m : M D A)
    (f : A -> M D B) :
  (forall w a, result (m w) = Ok a -> Q a) ->
  fails_with codes m -> (forall a, Q a -> fails_with codes (f a)) ->
  fails_with codes (bind m f).
Proof.
  intros HQ Hm Hf w e. unfold bind.
  destruct (result (m w)) as [a|e'|] eqn:R; cbn [result].
  - apply Hf. exact (HQ w a R).
  - intros E. inversion E. subst e'. exact (Hm w e R).
  - discriminate.
Qed.

Lemma fails_with_bind {A B} (m : M D A) (f : A -> M D B) :
  fails_with codes m -> (forall a, fails_with codes (f a)) ->
  fails_with codes (bind m f).
Proof.
  intros Hm Hf. apply (fails_with_bind_post (fun _ => True)); auto.
Qed.

Lemma fails_with_g_return_val_if_fail cond :
  cond = true -> fails_with (D := D) codes (g_return_val_if_fail cond).
Proof. intros ->. apply fails_with_ret. Qed.

Lemma fails_with_g_prefix_error {A} format args (m : M D A) :
  fails_with codes m -> fails_with codes (g_prefix_error format args m).
Proof.
  intros Hm w e. unfold g_prefix_error.
  destruct (result (m w)) as [a|[err|]|] eqn:R; cbn [result]; intros E.
  - rewrite R in E. discriminate.
  - destruct (Hm w _ R) as (err' & Ee & Hc). inversion Ee. subst err'.
    inversion E. eexists. split; [reflexivity|exact Hc].
  - rewrite R in E. destruct (Hm w _ R) as (err' & Ee & _). discriminate.
  - rewrite R in E. discriminate.
Qed.

Lemma fails_with_ignore_result {A} (m : M D A) :
  fails_with codes (ignore_result m).
Proof.
  intros w e. unfold ignore_result.
  destruct (result (m w)); discriminate.
Qed.

Lemma fails_with_pwrite_full data :
  fails_with codes (fu_udev_device_pwrite_full data).
Proof.
  intros w e R.
  destruct (pwrite_full_cases data w) as [[R' _]|(err & R' & C & _)];
    rewrite R' in R; inversion R.
  exists err. split; [reflexivity|]. rewrite C. exact Hio.
Qed.

Lemma fails_with_pread_full count :
  fails_with codes (fu_udev_device_pread_full count).
Proof.
  intros w e R.
  destruct (pread_full_cases count w)
    as [(raw & R' & _)|(err & answer & R' & C & _)];
    rewrite R' in R; inversion R.
  exists err. split; [reflexivity|]. rewrite C. exact Hio.
Qed.

Lemma fails_with_mst_write_register address value :
  fails_with codes (mst_write_register address value).
Proof. apply fails_with_pwrite_full. Qed.

Lemma fails_with_mst_read_register address :
  fails_with codes (mst_read_register address).
Proof.
  unfold mst_read_register, fu_udev_device_pwrite, fu_udev_device_pread.
  apply fails_with_bind; [apply fails_with_pwrite_full|intros _].
  apply fails_with_bind; [apply fails_with_pread_full|intros bytes].
  apply fails_with_ret.
Qed.

Lemma fails_with_mst_set_indirect_address address :
  fails_with codes (mst_set_indirect_address address).
Proof.
  unfold mst_set_indirect_address.
  do 2 (apply fails_with_bind;
        [apply fails_with_mst_write_register|intros _]).
  apply fails_with_mst_write_register.
Qed.

Lemma fails_with_mst_set_gpio88 level :
  fails_with codes (mst_set_gpio88 level).
Proof.
  unfold mst_set_gpio88, mst_read_register_indirect,
    mst_write_register_indirect.
  repeat first
    [ apply fails_with_mst_write_register
    | apply fails_with_mst_read_register
    | apply fails_with_mst_set_indirect_address
    | apply fails_with_emit
    | apply fails_with_bind; [|intros ?] ].
Qed.

Lemma fails_with_mst_poll_register_loop address mask expected deadline :
  forall budget value now,
    fails_with codes
      (mst_poll_register_loop budget address mask expected deadline
         value now).
Proof.
  induction budget as [|budget IH]; intros value now;
    cbn [mst_poll_register_loop];
    destruct (poll_pending mask expected deadline value now);
    try apply fails_with_ret; try apply fails_with_diverge.
  apply fails_with_bind;
    [apply fails_with_ok; intros w; exists tt; reflexivity|intros _].
  apply fails_with_bind;
    [apply fails_with_ok; intros w; eexists; reflexivity|intros now'].
  apply fails_with_bind; [apply fails_with_mst_read_register|intros value'].
  apply IH.
Qed.

Lemma fails_with_mst_poll_register budget address mask expected timeout :
  In G_IO_ERROR_TIMED_OUT codes ->
  fails_with codes (mst_poll_register budget address mask expected timeout).
Proof.
  intros Hto. unfold mst_poll_register.
  apply fails_with_bind;
    [apply fails_with_ok; intros w; eexists; reflexivity|intros now].
  cbv zeta.
  apply fails_with_bind; [apply fails_with_mst_read_register|intros value].
  apply fails_with_bind;
    [apply fails_with_mst_poll_register_loop|intros value'].
  destruct (Z.land value' mask =? expected);
    [apply fails_with_ret|apply fails_with_g_set_error; exact Hto].
Qed.

Lemma fails_with_flash_iface_read_loop buf_size :
  forall n bytes_read,
    fails_with codes (flash_iface_read_loop n buf_size bytes_read).
Proof.
  induction n as [|n IH]; intros bytes_read; cbn [flash_iface_read_loop];
    destruct (bytes_read <? buf_size);
    try apply fails_with_ret; try apply fails_with_diverge.
  cbv zeta.
  apply fails_with_bind; [apply fails_with_pread_full|intros chunk].
  apply fails_with_bind; [apply fails_with_emit|intros _].
  apply fails_with_bind; [apply IH|intros rest]. apply fails_with_ret.
Qed.

Lemma fails_with_flash_iface_read address buf_size :
  address < FLASH_SIZE -> buf_size <= FLASH_SIZE ->
  fails_with codes (flash_iface_read address buf_size).
Proof.
  intros Ha Hs. unfold flash_iface_read.
  apply fails_with_bind;
    [apply fails_with_g_return_val_if_fail; apply Z.ltb_lt; exact Ha|].
  intros _.
  apply fails_with_bind;
    [apply fails_with_g_return_val_if_fail; apply Z.leb_le; exact Hs|].
  intros _.
  apply fails_with_bind; [apply fails_with_emit|intros _]. cbv zeta.
  do 4 (apply fails_with_bind;
        [apply fails_with_mst_write_register|intros _]).
  apply fails_with_bind; [apply fails_with_pwrite_full|intros _].
  apply fails_with_bind.
  { apply fails_with_bind; [apply fails_with_pread_full|intros bytes].
    apply fails_with_ret. }
  intros _. apply fails_with_flash_iface_read_loop.
Qed.

Lemma fails_with_flash_iface_erase_sector budget address :
  In G_IO_ERROR_TIMED_OUT codes -> Z.land address 0xFFF = 0 ->
  fails_with codes (flash_iface_erase_sector budget address).
Proof.
  intros Hto Ha. unfold flash_iface_erase_sector.
  apply fails_with_bind;
    [apply fails_with_g_return_val_if_fail; apply Z.eqb_eq; exact Ha|].
  intros _.
  apply fails_with_bind; [apply fails_with_emit|intros _].
  do 6 (apply fails_with_bind;
        [apply fails_with_mst_write_register|intros _]).
  apply fails_with_mst_poll_register. exact Hto.
Qed.

Lemma fails_with_flash_iface_erase_block budget address :
  In G_IO_ERROR_TIMED_OUT codes -> Z.land address 0xFFFF = 0 ->
  fails_with codes (flash_iface_erase_block budget address).
Proof.
  intros Hto Ha. unfold flash_iface_erase_block.
  apply fails_with_bind;
    [apply fails_with_g_return_val_if_fail; apply Z.eqb_eq; exact Ha|].
  intros _.
  apply fails_with_bind; [apply fails_with_emit|intros _].
  do 6 (apply fails_with_bind;
        [apply fails_with_mst_write_register|intros _]).
  apply fails_with_mst_poll_register. exact Hto.
Qed.

Lemma fails_with_flash_iface_write_loop budget total :
  In G_IO_ERROR_TIMED_OUT codes ->
  forall n remaining address data,
    fails_with codes
      (flash_iface_write_loop n budget total remaining address data).
Proof.
  intros Hto.
  induction n as [|n IH]; intros remaining address data;
    cbn [flash_iface_write_loop];
    destruct (remaining >? 0);
    try apply fails_with_ret; try apply fails_with_diverge.
  cbv zeta.
  apply fails_with_bind.
  { unfold flash_iface_write_chunk.
    do 5 (apply fails_with_bind;
          [apply fails_with_mst_write_register|intros _]).
    apply fails_with_bind;
      [apply fails_with_mst_poll_register; exact Hto|intros _].
    apply fails_with_bind; [apply fails_with_pwrite_full|intros _].
    apply fails_with_bind; [apply fails_with_mst_write_register|intros _].
    apply fails_with_g_prefix_error.
    apply fails_with_mst_poll_register. exact Hto. }
  intros _.
  apply fails_with_bind; [apply fails_with_emit|intros _]. apply IH.
Qed.

Lemma fails_with_flash_iface_write budget address data :
  In G_IO_ERROR_TIMED_OUT codes ->
  fails_with codes (flash_iface_write budget address data).
Proof.
  intros Hto. unfold flash_iface_write. cbv zeta.
  apply fails_with_bind; [apply fails_with_emit|intros _].
  apply fails_with_flash_iface_write_loop. exact Hto.
Qed.

End ErrorCodes.

Section Termination.
Context {D : Type} `{Backend D}.

Lemma returns_ok {A} (m : M D A) :
  (forall w, exists a, result (m w) = Ok a) -> returns m.
Proof. intros Hm w R. destruct (Hm w) as [a E]. congruence. Qed.

Lemma returns_ret {A} (a : A) : returns (D := D) (ret a).
Proof. intros w. discriminate. Qed.

Lemma returns_fail {A} e : returns (D := D) (A := A) (fail e).
Proof. intros w. discriminate. Qed.

Lemma returns_emit e : returns (D := D) (emit e).
Proof. intros w. discriminate. Qed.

Lemma returns_bind {A B} (m : M D A) (f : A -> M D B) :
  returns m -> (forall a, returns (f a)) -> returns (bind m f).
Proof.
  intros Hm Hf w. unfold bind.
  destruct (result (m w)) as [a|e|] eqn:R; cbn [result].
  - apply Hf.
  - discriminate.
  - exfalso. exact (Hm w R).
Qed.

Lemma returns_g_return_val_if_fail c :
  returns (D := D) (g_return_val_if_fail c).
Proof. destruct c; intros w; discriminate. Qed.

Lemma returns_ignore_result {A} (m : M D A) :
  returns m -> returns (ignore_result m).
Proof.
  intros Hm w. unfold ignore_result.
  destruct (result (m w)) eqn:R; try discriminate.
  exfalso. exact (Hm w R).
Qed.

Lemma returns_pwrite_full data : returns (fu_udev_device_pwrite_full data).
Proof.
  intros w.
  destruct (pwrite_full_cases data w) as [[R _]|(err & R & _)]; rewrite R;
    discriminate.
Qed.

Lemma returns_pread_full count : returns (fu_udev_device_pread_full count).
Proof.
  intros w.
  destruct (pread_full_cases count w)
    as [(raw & R & _)|(err & answer & R & _)]; rewrite R; discriminate.
Qed.

Lemma returns_mst_write_register address value :
  returns (mst_write_register address value).
Proof. apply returns_pwrite_full. Qed.

Lemma returns_mst_read_register address :
  returns (mst_read_register address).
Proof.
  unfold mst_read_register, fu_udev_device_pwrite, fu_udev_device_pread.
  apply returns_bind; [apply returns_pwrite_full|intros _].
  apply returns_bind; [apply returns_pread_full|intros bytes].
  apply returns_ret.
Qed.

Lemma returns_mst_set_gpio88 level : returns (mst_set_gpio88 level).
Proof.
  unfold mst_set_gpio88, mst_read_register_indirect,
    mst_write_register_indirect, mst_set_indirect_address.
  repeat first
    [ apply returns_mst_write_register
    | apply returns_mst_read_register
    | apply returns_emit
    | apply returns_bind; [|intros ?] ].
Qed.

(** The iteration bound [flash_iface_read] gives its loop is enough. *)
Lemma returns_flash_iface_read_loop buf_size :
  forall n bytes_read,
    buf_size - bytes_read <= Z.of_nat n ->
    returns (flash_iface_read_loop n buf_size bytes_read).
Proof.
  induction n as [|n IH]; intros bytes_read Hn; cbn [flash_iface_read_loop];
    destruct (Z.ltb_spec bytes_read buf_size) as [Hlt|Hge];
    try apply returns_ret.
  - simpl in Hn. lia.
  - cbv zeta.
    apply returns_bind; [apply returns_pread_full|intros chunk].
    apply returns_bind; [apply returns_emit|intros _].
    apply returns_bind; [|intros rest; apply returns_ret].
    apply IH. rewrite Nat2Z.inj_succ in Hn.
    destruct (Z.gtb_spec (buf_size - bytes_read) 256); lia.
Qed.

Lemma returns_flash_iface_read address buf_size :
  returns (flash_iface_read address buf_size).
Proof.
  unfold flash_iface_read.
  do 2 (apply returns_bind; [apply returns_g_return_val_if_fail|intros _]).
  apply returns_bind; [apply returns_emit|intros _]. cbv zeta.
  do 4 (apply returns_bind; [apply returns_mst_write_register|intros _]).
  apply returns_bind; [apply returns_pwrite_full|intros _].
  apply returns_bind.
  { apply returns_bind; [apply returns_pread_full|intros bytes].
    apply returns_ret. }
  intros _. apply returns_flash_iface_read_loop.
  destruct (Z.le_gt_cases 0 buf_size); [rewrite Z2Nat.id|]; lia.
Qed.

Lemma fails_with_erase_old_image_loop codes n budget bank :
  In G_IO_ERROR_FAILED codes -> In G_IO_ERROR_TIMED_OUT codes ->
  fails_with codes
    (erase_old_image_loop n budget (write_target_base bank) 0).
Proof.
  intros Hio Hto.
  destruct n as [|n]; [intros w e; discriminate|].
  intros w e. rewrite erase_old_image_loop_once. revert w e.
  apply fails_with_bind; [apply fails_with_emit|intros _].
  apply fails_with_bind; [|intros _; apply fails_with_ret].
  apply fails_with_flash_iface_erase_block; try assumption.
  apply write_target_base_aligned.
Qed.

Lemma fails_with_write_firmware budget firmware_bytes :
  Z.of_nat (List.length firmware_bytes) = FLASH_USER_SIZE ->
  fails_with
    [G_IO_ERROR_FAILED; G_IO_ERROR_TIMED_OUT; FWUPD_ERROR_WRITE]
    (write_firmware_image budget firmware_bytes).
Proof.
  intros Hl.
  set (codes := [G_IO_ERROR_FAILED; G_IO_ERROR_TIMED_OUT;
                 FWUPD_ERROR_WRITE]).
  assert (Hio : In G_IO_ERROR_FAILED codes) by (simpl; tauto).
  assert (Hto : In G_IO_ERROR_TIMED_OUT codes) by (simpl; tauto).
  unfold write_firmware_image.
  apply fails_with_bind;
    [apply fails_with_ok; intros w; eexists; reflexivity|intros bank].
  cbv zeta.
  apply fails_with_bind;
    [apply fails_with_g_return_val_if_fail; apply Z.eqb_eq; exact Hl|].
  intros _.
  do 2 (apply fails_with_bind; [apply fails_with_emit|intros _]).
  apply fails_with_bind;
    [apply fails_with_erase_old_image_loop; assumption|intros _].
  do 2 (apply fails_with_bind; [apply fails_with_emit|intros _]).
  apply fails_with_bind;
    [apply fails_with_flash_iface_write; assumption|intros _].
  apply fails_with_bind; [apply fails_with_emit|intros _].
  apply fails_with_bind.
  { apply fails_with_flash_iface_read;
      [exact Hio|apply write_target_base_aligned|discriminate]. }
  intros readback.
  apply fails_with_bind.
  { destruct (memcmp_differs firmware_bytes readback FLASH_USER_SIZE);
      [apply fails_with_g_set_error; simpl; tauto|apply fails_with_ret]. }
  intros _.
  apply fails_with_bind; [apply fails_with_emit|intros _].
  apply fails_with_bind.
  { apply fails_with_flash_iface_erase_sector; try assumption.
    apply write_target_flag_aligned. }
  intros _.
  apply fails_with_bind; [apply fails_with_emit|intros _].
  apply fails_with_flash_iface_write; assumption.
Qed.

Lemma fails_with_get_dual_bank_info codes info0 :
  In G_IO_ERROR_FAILED codes ->
  fails_with codes (fu_realtek_mst_device_get_dual_bank_info info0).
Proof.
  intros Hio. unfold fu_realtek_mst_device_get_dual_bank_info.
  apply fails_with_bind;
    [apply fails_with_mst_write_register; exact Hio|intros _].
  apply fails_with_bind;
    [apply fails_with_ok; intros w; eexists; reflexivity|intros _].
  apply fails_with_bind;
    [apply fails_with_pwrite_full; exact Hio|intros _].
  apply fails_with_bind;
    [apply fails_with_pread_full; exact Hio|intros response].
  cbv zeta.
  repeat match goal with
         | |- context [if ?c then _ else _] => destruct c
         end;
    repeat first [ apply fails_with_ret | apply fails_with_emit
                 | apply fails_with_bind; [|intros ?] ].
Qed.

Lemma returns_get_dual_bank_info info0 :
  returns (fu_realtek_mst_device_get_dual_bank_info info0).
Proof.
  unfold fu_realtek_mst_device_get_dual_bank_info.
  apply returns_bind; [apply returns_mst_write_register|intros _].
  apply returns_bind;
    [apply returns_ok; intros w; eexists; reflexivity|intros _].
  apply returns_bind; [apply returns_pwrite_full|intros _].
  apply returns_bind; [apply returns_pread_full|intros response].
  cbv zeta.
  repeat match goal with
         | |- context [if ?c then _ else _] => destruct c
         end;
    repeat first [ apply returns_ret | apply returns_emit
                 | apply returns_bind; [|intros ?] ].
Qed.

Lemma fails_with_probe_version codes info0 :
  In G_IO_ERROR_FAILED codes ->
  fails_with codes (fu_realtek_mst_device_probe_version info0).
Proof.
  intros Hio. unfold fu_realtek_mst_device_probe_version.
  do 3 (apply fails_with_bind;
        [apply fails_with_ok; intros w; eexists; reflexivity|intros _]).
  apply (fails_with_bind_post codes
           (fun info => is_enabled info = true ->
                        info_active_bank info <= FLASH_BANK_MAX_VALUE)).
  { intros w info R En.
    destruct (get_dual_bank_info_ok info0 w info R) as (raw & -> & _).
    apply decode_enabled_ranges. exact En. }
  { apply fails_with_get_dual_bank_info. exact Hio. }
  intros info Q.
  destruct (is_enabled info); cbn [negb];
    [|apply fails_with_bind; [apply fails_with_emit|intros _];
      apply fails_with_ret].
  destruct (negb (mode info =? DUAL_BANK_DIFF));
    [apply fails_with_bind; [apply fails_with_emit|intros _];
     apply fails_with_ret|].
  apply fails_with_bind;
    [apply fails_with_ok; intros w; eexists; reflexivity|intros _].
  apply fails_with_bind; [apply fails_with_emit|intros _].
  apply fails_with_bind.
  { apply fails_with_g_return_val_if_fail. apply Z.leb_le. apply Q.
    reflexivity. }
  intros _.
  apply fails_with_bind;
    [apply fails_with_ok; intros w; eexists; reflexivity|intros _].
  apply fails_with_bind; [apply fails_with_emit|intros _].
  destruct (info_active_bank info =? FLASH_BANK_USER1);
    [apply fails_with_ok; intros w; eexists; reflexivity|].
  destruct (info_active_bank info =? FLASH_BANK_USER2);
    [apply fails_with_ok; intros w; eexists; reflexivity
    |apply fails_with_ret].
Qed.

Lemma returns_probe_version info0 :
  returns (fu_realtek_mst_device_probe_version info0).
Proof.
  unfold fu_realtek_mst_device_probe_version.
  do 3 (apply returns_bind;
        [apply returns_ok; intros w; eexists; reflexivity|intros _]).
  apply returns_bind; [apply returns_get_dual_bank_info|intros info].
  destruct (negb (is_enabled info));
    [apply returns_bind; [apply returns_emit|intros _]; apply returns_ret|].
  destruct (negb (mode info =? DUAL_BANK_DIFF));
    [apply returns_bind; [apply returns_emit|intros _]; apply returns_ret|].
  apply returns_bind;
    [apply returns_ok; intros w; eexists; reflexivity|intros _].
  apply returns_bind; [apply returns_emit|intros _].
  apply returns_bind; [apply returns_g_return_val_if_fail|intros _].
  apply returns_bind;
    [apply returns_ok; intros w; eexists; reflexivity|intros _].
  apply returns_bind; [apply returns_emit|intros _].
  destruct (info_active_bank info =? FLASH_BANK_USER1);
    [apply returns_ok; intros w; eexists; reflexivity|].
  destruct (info_active_bank info =? FLASH_BANK_USER2);
    [apply returns_ok; intros w; eexists; reflexivity|apply returns_ret].
Qed.

End Termination.

Section HookErrors.
Context {D : Type} `{Backend D}.

(** X3: the error codes each hook can fail with, and which hooks always
    come back.  The version probe and the flash dump fail only with an
    I/O error; reading the firmware only with an I/O error or
    NOT_SUPPORTED; attach only with an I/O error or NEEDS_USER_ACTION;
    detach only with an I/O error or a timeout; writing an image of the
    right size only with an I/O error, a timeout or a WRITE error.
    None of these failures comes without a [GError]: the range check on
    the active bank in the version probe and the address checks of the
    flash read never fire.  The probe, the read, the dump and attach
    return whatever the chip does; the loop of the flash read ends
    within the bound it is given. *)
Theorem hooks_error_codes (budget : nat) (info0 : dual_bank_info)
    (firmware_bytes : list Z) :
  (fails_with (D := D) [G_IO_ERROR_FAILED]
     (fu_realtek_mst_device_probe_version info0)
   /\ returns (D := D) (fu_realtek_mst_device_probe_version info0))
  /\ (fails_with (D := D) [G_IO_ERROR_FAILED; FWUPD_ERROR_NOT_SUPPORTED]
        fu_realtek_mst_device_read_firmware
      /\ returns (D := D) fu_realtek_mst_device_read_firmware)
  /\ (fails_with (D := D) [G_IO_ERROR_FAILED]
        fu_realtek_mst_device_dump_firmware
      /\ returns (D := D) fu_realtek_mst_device_dump_firmware)
  /\ (fails_with (D := D) [G_IO_ERROR_FAILED; FWUPD_ERROR_NEEDS_USER_ACTION]
        fu_realtek_mst_device_attach
      /\ returns (D := D) fu_realtek_mst_device_attach)
  /\ fails_with (D := D) [G_IO_ERROR_FAILED; G_IO_ERROR_TIMED_OUT]
       (fu_realtek_mst_device_detach budget)
  /\ (Z.of_nat (List.length firmware_bytes) = FLASH_USER_SIZE ->
      fails_with (D := D)
        [G_IO_ERROR_FAILED; G_IO_ERROR_TIMED_OUT; FWUPD_ERROR_WRITE]
        (fu_realtek_mst_device_write_firmware budget
           (FirmwareBytes firmware_bytes))).
Proof.
  rewrite write_firmware_of_bytes.
  split; [split|split; [split|split; [split|split; [split|split]]]].
  - apply fails_with_probe_version. simpl. tauto.
  - apply returns_probe_version.
  - set (codes := [G_IO_ERROR_FAILED; FWUPD_ERROR_NOT_SUPPORTED]).
    assert (Hio : In G_IO_ERROR_FAILED codes) by (simpl; tauto).
    unfold fu_realtek_mst_device_read_firmware.
    apply fails_with_bind;
      [apply fails_with_ok; intros w; eexists; reflexivity|intros bank].
    apply (fails_with_bind_post codes (fun a => a < FLASH_SIZE)).
    + intros w a.
      destruct (bank =? FLASH_BANK_USER1);
        [intros R; inversion R; reflexivity|].
      destruct (bank =? FLASH_BANK_USER2);
        [intros R; inversion R; reflexivity|discriminate].
    + destruct (bank =? FLASH_BANK_USER1); [apply fails_with_ret|].
      destruct (bank =? FLASH_BANK_USER2); [apply fails_with_ret|].
      apply fails_with_g_set_error. simpl. tauto.
    + intros a Ha. apply fails_with_flash_iface_read;
        [exact Hio|exact Ha|discriminate].
  - unfold fu_realtek_mst_device_read_firmware.
    apply returns_bind;
      [apply returns_ok; intros w; eexists; reflexivity|intros bank].
    apply returns_bind; [|intros a; apply returns_flash_iface_read].
    destruct (bank =? FLASH_BANK_USER1); [apply returns_ret|].
    destruct (bank =? FLASH_BANK_USER2);
      [apply returns_ret|apply returns_fail].
  - unfold fu_realtek_mst_device_dump_firmware.
    apply fails_with_bind; [apply fails_with_emit|intros _].
    apply fails_with_bind.
    { apply fails_with_flash_iface_read;
        [simpl; tauto|reflexivity|discriminate]. }
    intros contents.
    apply fails_with_bind; [apply fails_with_emit|intros _].
    apply fails_with_ret.
  - unfold fu_realtek_mst_device_dump_firmware.
    apply returns_bind; [apply returns_emit|intros _].
    apply returns_bind; [apply returns_flash_iface_read|intros contents].
    apply returns_bind; [apply returns_emit|intros _].
    apply returns_ret.
  - set (codes := [G_IO_ERROR_FAILED; FWUPD_ERROR_NEEDS_USER_ACTION]).
    assert (Hio : In G_IO_ERROR_FAILED codes) by (simpl; tauto).
    unfold fu_realtek_mst_device_attach.
    apply fails_with_bind;
      [apply fails_with_mst_set_gpio88; exact Hio|intros _].
    apply fails_with_bind;
      [apply fails_with_mst_read_register; exact Hio|intros v].
    apply fails_with_bind.
    { destruct (negb (Z.land v MCU_MODE_ISP =? 0));
        [|apply fails_with_emit].
      do 2 (apply fails_with_bind; [apply fails_with_emit|intros _]).
      apply fails_with_bind;
        [apply fails_with_mst_read_register; exact Hio|intros v2].
      apply fails_with_bind; [apply fails_with_ignore_result|intros _].
      apply fails_with_bind;
        [apply fails_with_ok; intros w; eexists; reflexivity|intros _].
      apply fails_with_bind;
        [apply fails_with_mst_read_register; exact Hio|intros v3].
      destruct (Z.land v3 MCU_MODE_ISP =? MCU_MODE_ISP);
        [|apply fails_with_ret].
      apply fails_with_bind;
        [apply fails_with_ok; intros w; eexists; reflexivity|intros _].
      apply fails_with_g_set_error. simpl. tauto. }
    intros _.
    apply fails_with_bind;
      [apply fails_with_ok; intros w; eexists; reflexivity|intros _].
    apply fails_with_emit.
  - unfold fu_realtek_mst_device_attach.
    apply returns_bind; [apply returns_mst_set_gpio88|intros _].
    apply returns_bind; [apply returns_mst_read_register|intros v].
    apply returns_bind.
    { destruct (negb (Z.land v MCU_MODE_ISP =? 0)); [|apply returns_emit].
      do 2 (apply returns_bind; [apply returns_emit|intros _]).
      apply returns_bind; [apply returns_mst_read_register|intros v2].
      apply returns_bind;
        [apply returns_ignore_result; apply returns_mst_write_register
        |intros _].
      apply returns_bind;
        [apply returns_ok; intros w; eexists; reflexivity|intros _].
      apply returns_bind; [apply returns_mst_read_register|intros v3].
      destruct (Z.land v3 MCU_MODE_ISP =? MCU_MODE_ISP);
        [|apply returns_ret].
      apply returns_bind;
        [apply returns_ok; intros w; eexists; reflexivity|intros _].
      apply returns_fail. }
    intros _.
    apply returns_bind;
      [apply returns_ok; intros w; eexists; reflexivity|intros _].
    apply returns_emit.
  - set (codes := [G_IO_ERROR_FAILED; G_IO_ERROR_TIMED_OUT]).
    assert (Hio : In G_IO_ERROR_FAILED codes) by (simpl; tauto).
    assert (Hto : In G_IO_ERROR_TIMED_OUT codes) by (simpl; tauto).
    unfold fu_realtek_mst_device_detach.
    apply fails_with_bind; [apply fails_with_emit|intros _].
    apply fails_with_bind;
      [apply fails_with_mst_write_register; exact Hio|intros _].
    apply fails_with_bind; [apply fails_with_emit|intros _].
    apply fails_with_bind;
      [apply fails_with_mst_poll_register; assumption|intros _].
    apply fails_with_bind.
    { unfold mst_write_register_indirect.
      apply fails_with_bind;
        [apply fails_with_mst_set_indirect_address; exact Hio|intros _].
      apply fails_with_mst_write_register. exact Hio. }
    intros _.
    apply fails_with_bind;
      [apply fails_with_ok; intros w; eexists; reflexivity|intros _].
    apply fails_with_bind; [apply fails_with_emit|intros _].
    apply fails_with_mst_set_gpio88. exact Hio.
  - apply fails_with_write_firmware.
Qed.

End HookErrors.

(** A chip that does not acknowledge the write to register 0xCA: the
    probe fails, and its error is an I/O error. *)
Lemma hooks_error_codes_witness :
  exists err,
    result (fu_realtek_mst_device_probe_version stack_garbage
              (mock_world {| mock_time := 0; mock_oversleep := 0;
                             mock_answers := []; mock_fill := 0;
                             mock_nack := [0xCA] |} FLASH_BANK_USER1))
    = Fail (Some err)
    /\ In (err_code err) [G_IO_ERROR_FAILED].
Proof.
  destruct (hooks_error_codes (D := Mock) 0 stack_garbage []) as [[Hp _] _].
  set (w := mock_world {| mock_time := 0; mock_oversleep := 0;
                          mock_answers := []; mock_fill := 0;
                          mock_nack := [0xCA] |} FLASH_BANK_USER1).
  destruct (result (fu_realtek_mst_device_probe_version stack_garbage w))
    as [a|e|] eqn:R; [vm_compute in R; discriminate| |vm_compute in R;
                                                       discriminate].
  destruct (Hp w e R) as (err & -> & Hc).
  exists err. split; [reflexivity|exact Hc].
Defined.

(** ** A probe that fails *)

Section ProbeFailure.
Context {D : Type} `{Backend D}.

(** X12: a version probe that does not succeed leaves the device as
    cleared on entry: not UPDATABLE, without a version, with the active
    bank invalid, every other flag as before.  Whatever a previous probe
    had found is gone. *)
Theorem probe_version_failure_clears (info0 : dual_bank_info)
    (w : World D) :
  let r := fu_realtek_mst_device_probe_version info0 w in
  result r <> Ok tt ->
  has_flag FWUPD_DEVICE_FLAG_UPDATABLE (flags (final r)) = false
  /\ (forall f, f <> FWUPD_DEVICE_FLAG_UPDATABLE ->
                has_flag f (flags (final r)) = has_flag f (flags w))
  /\ version (final r) = None
  /\ active_bank (final r) = FLASH_BANK_INVALID.
Proof.
  intros r R. subst r. unfold fu_realtek_mst_device_probe_version in *.
  set (w0 := final (fu_device_set_version None
               (final (set_active_bank FLASH_BANK_INVALID
                  (final (fu_device_remove_flag FWUPD_DEVICE_FLAG_UPDATABLE
                            w)))))).
  rewrite (bind_ok (fu_device_remove_flag _) _ w tt eq_refl) in R |- *.
  cbn [result final emitted] in R |- *.
  rewrite (bind_ok (set_active_bank _) _ _ tt eq_refl) in R |- *.
  cbn [result final emitted] in R |- *.
  rewrite (bind_ok (fu_device_set_version _) _ _ tt eq_refl) in R |- *.
  cbn [result final emitted] in R |- *.
  fold w0 in R |- *.
  destruct (bus_only_get_dual_bank_info info0 w0) as (F1 & V1 & B1).
  assert (Hcleared :
            has_flag FWUPD_DEVICE_FLAG_UPDATABLE
              (flags (final (fu_realtek_mst_device_get_dual_bank_info
                               info0 w0))) = false
            /\ (forall f, f <> FWUPD_DEVICE_FLAG_UPDATABLE ->
                  has_flag f
                    (flags (final (fu_realtek_mst_device_get_dual_bank_info
                                     info0 w0)))
                  = has_flag f (flags w))
            /\ version (final (fu_realtek_mst_device_get_dual_bank_info
                                 info0 w0)) = None
            /\ active_bank (final (fu_realtek_mst_device_get_dual_bank_info
                                     info0 w0)) = FLASH_BANK_INVALID).
  { rewrite F1, V1, B1. subst w0.
    cbn [fu_device_set_version set_active_bank fu_device_remove_flag final
           flags version active_bank].
    split; [rewrite has_flag_remove; apply andb_false_r|].
    split; [|split; reflexivity].
    intros f Hf. rewrite has_flag_remove.
    assert (Hne : flag_eqb FWUPD_DEVICE_FLAG_UPDATABLE f = false)
      by (destruct f; try reflexivity; contradiction).
    rewrite Hne. apply andb_true_r. }
  destruct (result (fu_realtek_mst_device_get_dual_bank_info info0 w0))
    as [info| |] eqn:G;
    [ rewrite (bind_ok _ _ _ _ G) in R |- *
    | rewrite (bind_fail _ _ _ _ G); exact Hcleared
    | rewrite (bind_diverge _ _ _ G); exact Hcleared ].
  exfalso. apply R. clear R Hcleared.
  cbn [result final emitted].
  destruct (get_dual_bank_info_ok _ _ _ G) as (raw & Ei & _).
  destruct (is_enabled info) eqn:En; cbn [negb]; [|reflexivity].
  destruct (negb (mode info =? DUAL_BANK_DIFF)); [reflexivity|].
  assert (Hrange : info_active_bank info <= FLASH_BANK_MAX_VALUE).
  { rewrite Ei in En |- *. apply decode_enabled_ranges. exact En. }
  apply Z.leb_le in Hrange.
  unfold bind. cbn [fu_device_add_flag g_debug emit result final emitted].
  rewrite Hrange.
  cbn [g_return_val_if_fail ret set_active_bank result final emitted].
  destruct (info_active_bank info =? FLASH_BANK_USER1); [reflexivity|].
  destruct (info_active_bank info =? FLASH_BANK_USER2); reflexivity.
Qed.

End ProbeFailure.

(** A device found updatable at version 2.5 by an earlier probe, on a
    chip that no longer acknowledges the write to register 0xCA. *)
Lemma probe_version_failure_clears_witness :
  let w := {| bus := {| mock_time := 0; mock_oversleep := 0;
                        mock_answers := []; mock_fill := 0;
                        mock_nack := [0xCA] |};
              flags := [FWUPD_DEVICE_FLAG_UPDATABLE;
                        FWUPD_DEVICE_FLAG_INTERNAL];
              version := Some "2.5";
              active_bank := FLASH_BANK_USER1 |} in
  let r := fu_realtek_mst_device_probe_version stack_garbage w in
  has_flag FWUPD_DEVICE_FLAG_UPDATABLE (flags (final r)) = false
  /\ has_flag FWUPD_DEVICE_FLAG_INTERNAL (flags (final r)) = true
  /\ version (final r) = None
  /\ active_bank (final r) = FLASH_BANK_INVALID.
Proof.
  intros w r.
  assert (R : result r <> Ok tt) by (vm_compute; discriminate).
  destruct (probe_version_failure_clears stack_garbage w R)
    as (Hu & Hf & Hv & Hb).
  split; [exact Hu|]. split; [|split; [exact Hv|exact Hb]].
  rewrite Hf by discriminate. reflexivity.
Defined.

(** ** The dual-bank query *)

Section DualBank.
Context {D : Type} `{Backend D}.

Lemma decode_is_enabled response info0 :
  is_enabled (decode_dual_bank_info response info0)
  = (nth 0 response 0 =? 0xca) && (nth 1 response 0 =? 9)
    && (nth 2 response 0 =? 1)
    && (nth 3 response 0 <=? DUAL_BANK_MAX_VALUE)
    && (nth 4 response 0 <=? FLASH_BANK_MAX_VALUE).
Proof.
  unfold decode_dual_bank_info. cbv zeta.
  destruct (nth 0 response 0 =? 0xca); cbn [negb orb andb];
    [|reflexivity].
  destruct (nth 1 response 0 =? 9); cbn [negb orb andb]; [|reflexivity].
  destruct (nth 2 response 0 =? 1); cbn [negb orb andb]; [|reflexivity].
  cbn [mode set_mode set_is_enabled].
  destruct (Z.gtb_spec (nth 3 response 0) DUAL_BANK_MAX_VALUE),
    (Z.leb_spec (nth 3 response 0) DUAL_BANK_MAX_VALUE); try lia;
    cbn [andb]; [reflexivity|].
  cbn [info_active_bank set_info_active_bank set_mode set_is_enabled].
  destruct (Z.gtb_spec (nth 4 response 0) FLASH_BANK_MAX_VALUE),
    (Z.leb_spec (nth 4 response 0) FLASH_BANK_MAX_VALUE); try lia;
    reflexivity.
Qed.

(** X13: a dual-bank query that succeeds is one fixed exchange: the
    acknowledged write of 0x09 to register 0xCA, a sleep of 200 ms, the
    acknowledged one-byte write 0x01, and one read of 11 bytes; besides
    debug lines nothing else is called.  The answer counts as enabled
    exactly when it begins 0xCA, 0x09, 0x01 and carries a mode of at
    most 3 and an active bank of at most 2. *)
Theorem get_dual_bank_info_exchange (info0 info : dual_bank_info)
    (w : World D) :
  let r := fu_realtek_mst_device_get_dual_bank_info info0 w in
  result r = Ok info ->
  exists raw,
    filter_map bus_call (emitted r)
    = [EvPwrite [0xCA; 0x09] true;
       EvUsleep 200000;
       EvPwrite [0x01] true;
       EvPread 11 (Some raw)]
    /\ List.length raw = 11%nat
    /\ info = decode_dual_bank_info (map guint8 raw) info0
    /\ is_enabled info
       = (guint8 (nth 0 raw 0) =? 0xCA) && (guint8 (nth 1 raw 0) =? 9)
         && (guint8 (nth 2 raw 0) =? 1)
         && (guint8 (nth 3 raw 0) <=? 3)
         && (guint8 (nth 4 raw 0) <=? 2).
Proof.
  intros r E. subst r.
  assert (Hd : exists raw,
             info = decode_dual_bank_info (map guint8 raw) info0
             /\ List.length raw = 11%nat
             /\ filter_map bus_call
                  (emitted (fu_realtek_mst_device_get_dual_bank_info
                              info0 w))
                = [EvPwrite [0xCA; 0x09] true; EvUsleep 200000;
                   EvPwrite [0x01] true; EvPread 11 (Some raw)]).
  { unfold fu_realtek_mst_device_get_dual_bank_info in *.
    apply bind_ok_inv in E. destruct E as ([] & R1 & E & -> & _).
    apply bind_ok_inv in E. destruct E as ([] & _ & E & -> & _).
    apply bind_ok_inv in E. destruct E as ([] & R3 & E & -> & _).
    apply bind_ok_inv in E. destruct E as (response & R4 & E & -> & _).
    rewrite (mst_write_register_ok _ _ _ R1).
    assert (E3 : emitted (fu_udev_device_pwrite 1
                   (final (g_usleep (200 * G_TIME_SPAN_MILLISECOND)
                      (final (mst_write_register 0xca 0x09 w)))))
                 = [EvPwrite [0x01] true]).
    { unfold fu_udev_device_pwrite in *.
      destruct (pwrite_full_cases [guint8 1]
                  (final (g_usleep (200 * G_TIME_SPAN_MILLISECOND)
                     (final (mst_write_register 0xca 0x09 w)))))
        as [[_ Em]|(err & R' & _)]; [exact Em|].
      rewrite R' in R3. discriminate. }
    rewrite E3.
    apply pread_full_ok_inv in R4. destruct R4 as (raw & Er & -> & L).
    rewrite Er. exists raw.
    split; [|split; [lia|]].
    - unfold decode_dual_bank_info. cbv zeta in E |- *.
      repeat match type of E with
             | context [if ?c then _ else _] => destruct c
             end;
        repeat (apply bind_ok_inv in E; destruct E as ([] & _ & E & _));
        inversion E; reflexivity.
    - cbv zeta in E |- *.
      repeat match type of E with
             | context [if ?c then _ else _] => destruct c
             end;
        repeat (apply bind_ok_inv in E; destruct E as ([] & _ & E & Em & _);
                try rewrite Em);
        reflexivity. }
  destruct Hd as (raw & Ei & L & Em).
  exists raw. split; [exact Em|]. split; [exact L|]. split; [exact Ei|].
  rewrite Ei, decode_is_enabled.
  assert (Hn : forall i, (i < 11)%nat ->
             nth i (map guint8 raw) 0 = guint8 (nth i raw 0)).
  { intros i Hi. change 0 with (guint8 0) at 1. apply map_nth. }
  rewrite !Hn by lia. reflexivity.
Qed.

End DualBank.

(** The response of a chip in diff mode running from USER2. *)
Lemma get_dual_bank_info_exchange_witness :
  exists info raw,
    filter_map bus_call
      (emitted (fu_realtek_mst_device_get_dual_bank_info stack_garbage
                  e1_world))
    = [EvPwrite [0xCA; 0x09] true; EvUsleep 200000; EvPwrite [0x01] true;
       EvPread 11 (Some raw)]
    /\ info = decode_dual_bank_info (map guint8 raw) stack_garbage.
Proof.
  destruct (result (fu_realtek_mst_device_get_dual_bank_info stack_garbage
                      e1_world)) as [info| |] eqn:R;
    [|vm_compute in R; discriminate|vm_compute in R; discriminate].
  destruct (get_dual_bank_info_exchange stack_garbage info e1_world R)
    as (raw & Em & _ & Ei & _).
  exists info, raw. split; [exact Em|exact Ei].
Defined.

(** ** Locating the I2C bus *)

Lemma locate_bus_i2c_loop_found l :
  snd (locate_bus_i2c_loop l)
  = hd_error (flat_map (fun i => firstn 1 (i2c_buses i)) l).
Proof.
  induction l as [|i l IH]; [reflexivity|].
  cbn [locate_bus_i2c_loop flat_map].
  destruct (i2c_buses i) as [|bus more]; [|reflexivity].
  destruct (locate_bus_i2c_loop l) as [log found]. exact IH.
Qed.

Lemma locate_bus_loop_found matches :
  forall bus_device,
    snd (locate_bus_loop matches bus_device)
    = match bus_device with
      | Some bus => Some bus
      | None => hd_error (candidate_buses matches)
      end.
Proof.
  induction matches as [|d matches IH]; intros bus_device.
  - destruct bus_device; reflexivity.
  - cbn [locate_bus_loop]. destruct bus_device as [bus|].
    + specialize (IH (Some bus)).
      destruct (locate_bus_loop matches (Some bus)) as [log found].
      exact IH.
    + pose proof (locate_bus_i2c_loop_found (i2c_devices d)) as Hi.
      destruct (locate_bus_i2c_loop (i2c_devices d)) as [log1 found1].
      cbn [snd] in Hi. specialize (IH found1).
      destruct (locate_bus_loop matches found1) as [log2 found].
      cbn [snd] in IH |- *. rewrite IH, Hi.
      unfold candidate_buses. cbn [flat_map].
      destruct (flat_map (fun i => firstn 1 (i2c_buses i)) (i2c_devices d));
        reflexivity.
Qed.

Lemma candidate_buses_nil matches :
  candidate_buses matches = []
  <-> forall d i, In d matches -> In i (i2c_devices d) -> i2c_buses i = [].
Proof.
  unfold candidate_buses. split.
  - intros E d i Hd Hi.
    assert (Hin : forall bus, In bus (firstn 1 (i2c_buses i)) -> False).
    { intros bus Hb.
      assert (In bus (flat_map
                        (fun device =>
                           flat_map (fun i2c => firstn 1 (i2c_buses i2c))
                             (i2c_devices device)) matches)).
      { apply in_flat_map. exists d. split; [exact Hd|].
        apply in_flat_map. exists i. split; assumption. }
      rewrite E in H. exact H. }
    destruct (i2c_buses i) as [|bus more]; [reflexivity|].
    exfalso. apply (Hin bus). left. reflexivity.
  - intros Hall.
    destruct (flat_map _ matches) as [|bus l] eqn:E; [reflexivity|].
    assert (Hb : In bus (bus :: l)) by (left; reflexivity).
    rewrite <- E in Hb. apply in_flat_map in Hb.
    destruct Hb as (d & Hd & Hb). apply in_flat_map in Hb.
    destruct Hb as (i & Hi & Hb). rewrite (Hall d i Hd Hi) in Hb.
    destruct Hb.
Qed.

(** X14: [locate_bus] picks the first i2c-dev the enumeration comes to:
    of the matching aux devices in order, of their [i2c] siblings in
    order, the child at index 0 of the first sibling that has any
    [i2c-dev] child; whatever comes later is ignored.  It fails, with
    NOT_SUPPORTED and the aux name in the message, exactly when no
    sibling of any matching aux device has an [i2c-dev] child. *)
Theorem locate_bus_first_candidate (dp_aux_dev_name : string)
    (matches : list aux_device) :
  let r := snd (fu_realtek_mst_device_locate_bus dp_aux_dev_name matches) in
  r = match hd_error (candidate_buses matches) with
      | Some bus => inl bus
      | None => inr {| errs_code := FWUPD_ERROR_NOT_SUPPORTED;
                       errs_format := no_bus_format;
                       errs_arg := dp_aux_dev_name |}
      end
  /\ ((exists err, r = inr err)
      <-> forall d i, In d matches -> In i (i2c_devices d) ->
                      i2c_buses i = []).
Proof.
  intros r.
  assert (E : r = match hd_error (candidate_buses matches) with
                  | Some bus => inl bus
                  | None => inr {| errs_code := FWUPD_ERROR_NOT_SUPPORTED;
                                   errs_format := no_bus_format;
                                   errs_arg := dp_aux_dev_name |}
                  end).
  { unfold r, fu_realtek_mst_device_locate_bus.
    pose proof (locate_bus_loop_found matches None) as L.
    destruct (locate_bus_loop matches None) as [log found].
    cbn [snd] in L. rewrite L.
    destruct (hd_error (candidate_buses matches)); reflexivity. }
  split; [exact E|]. rewrite E, <- candidate_buses_nil.
  destruct (candidate_buses matches) as [|bus l]; cbn [hd_error].
  - split; [reflexivity|]. intros _. eexists. reflexivity.
  - split; [intros [err Herr]|]; discriminate.
Qed.

(** Two matching aux devices: the first has an [i2c] sibling without a
    bus and one with two, the second one more bus. *)
Example locate_bus_two_aux_devices :
  fu_realtek_mst_device_locate_bus "DPDDC-C"
    [{| aux_path := "/sys/devices/card0/drm_dp_aux0";
        i2c_devices := [{| i2c_path := "/sys/devices/card0/i2c-5";
                           i2c_buses := [] |};
                        {| i2c_path := "/sys/devices/card0/i2c-6";
                           i2c_buses := ["/sys/devices/card0/i2c-6/i2c-dev/i2c-6";
                                         "/sys/devices/card0/i2c-6/i2c-dev/i2c-7"] |}] |};
     {| aux_path := "/sys/devices/card0/drm_dp_aux1";
        i2c_devices := [{| i2c_path := "/sys/devices/card0/i2c-8";
                           i2c_buses := ["/sys/devices/card0/i2c-8/i2c-dev/i2c-8"] |}] |}]
  = ([("no i2c-dev found under %s", [ArgString "/sys/devices/card0/i2c-5"]);
      ("ignoring %u additional i2c-dev under %s",
       [ArgUint 1; ArgString "/sys/devices/card0/i2c-6"]);
      ("Found I2C bus at %s",
       [ArgString "/sys/devices/card0/i2c-6/i2c-dev/i2c-6"]);
      ("Ignoring additional aux device %s",
       [ArgString "/sys/devices/card0/drm_dp_aux1"])],
     inl "/sys/devices/card0/i2c-6/i2c-dev/i2c-6").
Proof. reflexivity. Qed.

(** ** Progress reports of the flash transfers *)

Lemma counts_up_prefix total :
  forall l from rest, counts_up from total (l ++ rest) -> counts_up from total l.
Proof.
  induction l as [|[d t] l IH]; intros from rest Hc; [exact I|].
  cbn [app counts_up] in Hc |- *.
  destruct Hc as (Ht & Hd & Hs & Hc). repeat split; try assumption; try lia.
  apply (IH _ rest). exact Hc.
Qed.

Lemma progress_from_counts_up total :
  forall n done, counts_up done total (progress_from n done total).
Proof.
  induction n as [|n IH]; intros done; cbn [progress_from]; [exact I|].
  destruct (Z.ltb_spec done total) as [Hlt|Hge]; [|exact I].
  cbv zeta. cbn [counts_up]. unfold chunk_size_of.
  destruct (Z.gtb_spec (total - done) 256);
    (split; [reflexivity|split; [lia|split; [lia|apply IH]]]).
Qed.

Lemma progress_from_reaches total :
  forall n done,
    done <= total -> total - done <= Z.of_nat n ->
    last (map fst (progress_from n done total)) done = total.
Proof.
  induction n as [|n IH]; intros done Hd Hn; cbn [progress_from].
  - simpl in Hn. cbn. lia.
  - destruct (Z.ltb_spec done total) as [Hlt|Hge]; [|cbn; lia].
    cbv zeta. cbn [map fst]. rewrite last_cons_default.
    rewrite Nat2Z.inj_succ in Hn.
    apply IH; unfold chunk_size_of;
      destruct (Z.gtb_spec (total - done) 256); lia.
Qed.

Section Progress.
Context {D : Type} `{Backend D}.

Lemma scripted_set_progress done total :
  scripted progress_of [(done, total)]
    (fu_device_set_progress_full (D := D) done total).
Proof. intros w. split; [exists []|]; reflexivity. Qed.

Lemma flash_iface_read_loop_progress buf_size :
  forall n bytes_read,
    scripted progress_of (progress_from n bytes_read buf_size)
      (flash_iface_read_loop n buf_size bytes_read).
Proof.
  induction n as [|n IH]; intros bytes_read;
    cbn [flash_iface_read_loop progress_from];
    destruct (bytes_read <? buf_size);
    try apply scripted_ret; try apply scripted_diverge.
  cbv zeta. fold (chunk_size_of (buf_size - bytes_read)).
  apply scripted_bind_silent; [quiet_step|intros chunk].
  apply scripted_bind_cons; [apply scripted_set_progress|intros _].
  rewrite <- (app_nil_r (progress_from _ _ _)).
  apply scripted_bind; [apply IH|intros rest; apply scripted_ret].
Qed.

Lemma flash_iface_write_loop_progress budget total :
  forall n remaining address data,
    scripted progress_of (progress_from n (total - remaining) total)
      (flash_iface_write_loop n budget total remaining address data).
Proof.
  induction n as [|n IH]; intros remaining address data;
    cbn [flash_iface_write_loop progress_from].
  - destruct (remaining >? 0);
      [apply scripted_diverge|apply scripted_ret].
  - destruct (Z.gtb_spec remaining 0) as [Hr|Hr],
      (Z.ltb_spec (total - remaining) total) as [Hl|Hl]; try lia;
      [|apply scripted_ret].
    cbv zeta.
    replace (total - (total - remaining)) with remaining by lia.
    replace (total - remaining + chunk_size_of remaining)
      with (total - (remaining - chunk_size_of remaining)) by lia.
    apply scripted_bind_silent.
    { unfold flash_iface_write_chunk. repeat quiet_step. }
    intros _.
    apply scripted_bind_cons; [apply scripted_set_progress|intros _].
    apply IH.
Qed.

Lemma flash_iface_read_progress address buf_size :
  scripted progress_of (progress_from (Z.to_nat buf_size) 0 buf_size)
    (flash_iface_read address buf_size).
Proof.
  unfold flash_iface_read.
  do 3 (apply scripted_bind_silent; [quiet_step|intros _]). cbv zeta.
  do 6 (apply scripted_bind_silent; [quiet_step|intros ?]).
  apply flash_iface_read_loop_progress.
Qed.

Lemma flash_iface_write_progress budget address data :
  scripted progress_of
    (progress_from (List.length data) 0 (Z.of_nat (List.length data)))
    (flash_iface_write budget address data).
Proof.
  unfold flash_iface_write. cbv zeta.
  apply scripted_bind_silent; [quiet_step|intros _].
  pose proof (flash_iface_write_loop_progress budget
                (Z.of_nat (List.length data)) (List.length data)
                (Z.of_nat (List.length data)) address data) as L.
  rewrite Z.sub_diag in L. exact L.
Qed.

(** X15: the progress reports of a flash read and of a flash write
    count up to the size of the transfer: every report names the total,
    the amount done grows by 1 to 256 bytes from one report to the next
    and never passes the total, whatever the chip does; a transfer that
    succeeds has ended on a report of the whole size. *)
Theorem flash_progress_counts_up (budget : nat) (address buf_size : Z)
    (data : list Z) (w : World D) :
  0 <= buf_size ->
  let rd := flash_iface_read address buf_size w in
  let wr := flash_iface_write budget address data w in
  let total := Z.of_nat (List.length data) in
  counts_up 0 buf_size (filter_map progress_of (emitted rd))
  /\ (forall buf, result rd = Ok buf ->
        last (map fst (filter_map progress_of (emitted rd))) 0 = buf_size)
  /\ counts_up 0 total (filter_map progress_of (emitted wr))
  /\ (result wr = Ok tt ->
      last (map fst (filter_map progress_of (emitted wr))) 0 = total).
Proof.
  intros Hs rd wr total.
  destruct (flash_iface_read_progress address buf_size w) as [[r1 P1] A1].
  destruct (flash_iface_write_progress budget address data w)
    as [[r2 P2] A2].
  fold rd in P1, A1. fold wr in P2, A2. fold total in P2, A2.
  split; [|split; [|split]].
  - apply (counts_up_prefix _ _ _ r1). rewrite P1.
    apply progress_from_counts_up.
  - intros buf R. rewrite A1 by (rewrite R; reflexivity).
    apply progress_from_reaches; [exact Hs|]. rewrite Z2Nat.id; lia.
  - apply (counts_up_prefix _ _ _ r2). rewrite P2.
    apply progress_from_counts_up.
  - intros R. rewrite A2 by (rewrite R; reflexivity).
    apply progress_from_reaches; unfold total; lia.
Qed.

End Progress.

(** A read of 600 bytes reports 256, 512 and 600 of 600. *)
Lemma flash_progress_counts_up_witness :
  counts_up 0 600
    (filter_map progress_of
       (emitted (flash_iface_read 0x10000 600
                   (mock_world (mock_chip [] 0) FLASH_BANK_USER1))))
  /\ last (map fst
             (filter_map progress_of
                (emitted (flash_iface_read 0x10000 600
                            (mock_world (mock_chip [] 0)
                               FLASH_BANK_USER1))))) 0 = 600.
Proof.
  assert (Hs : 0 <= 600) by discriminate.
  destruct (flash_progress_counts_up 0 0x10000 600 []
              (mock_world (mock_chip [] 0) FLASH_BANK_USER1) Hs)
    as (Hc & Hl & _).
  split; [exact Hc|].
  destruct (ideal_flash_iface_read 0x10000 600
              (mock_world (mock_chip [] 0) FLASH_BANK_USER1)) as [R _];
    [split; reflexivity|reflexivity|split; discriminate|].
  exact (Hl _ R).
Defined.
